(** * Dashboard DAO (superset/dashboards/dao.py)

    A shallow embedding of [DashboardDAO]: the JSON documents it handles,
    the ORM session it talks to, and the DAO operations themselves, followed
    by the properties of those operations.

    Conventions.
    - A Python [dict] whose keys are strings is an association list in
      insertion order ([pydict]); assignment to an existing key keeps the
      key's position, as in Python.
    - JSON numbers are integers; fractional numbers are not represented.
    - A [str] is a Rocq [string]; every character is a code point below 256.
    - An exception is a value of [exn]; a computation that may raise
      returns a [result].  Objects mutated in place before an exception is
      raised are not returned with the exception. *)

From stdpp Require Import gmap strings list.
From Stdlib Require Import ZArith Ascii String DecimalString.

Set Warnings "-register-all".
Open Scope Z_scope.

(** ** Exceptions and results *)

Inductive exn : Type :=
| SQLAlchemyError (msg : string)
| DashboardNotFoundError
| MultipleResultsFound
| KeyError (key : string)
| TypeError (msg : string)
| AttributeError (msg : string)
| ValueError (msg : string)
| JSONDecodeError (msg : string).

(** [except SQLAlchemyError] catches exactly the storage errors. *)
Definition is_sqlalchemy_error (e : exn) : bool :=
  match e with
  | SQLAlchemyError _ | MultipleResultsFound => true
  | _ => false
  end.

Inductive result (A : Type) : Type :=
| Ok (a : A)
| Err (e : exn).
Arguments Ok {A} a.
Arguments Err {A} e.

Definition rbind {A B} (r : result A) (k : A -> result B) : result B :=
  match r with
  | Ok a => k a
  | Err e => Err e
  end.

Notation "'let?' x ':=' r 'in' k" := (rbind r (fun x => k))
  (at level 10, x name, r at level 100, k at level 200).

(** ** JSON values *)

Inductive json : Type :=
| JNull
| JBool (b : bool)
| JInt (n : Z)
| JStr (s : string)
| JArr (items : list json)
| JObj (members : list (string * json)).

Definition pydict : Type := list (string * json).

(** [d.get(k)] as an option: the first (and, in a Python dict, only) entry. *)
Fixpoint dict_get (k : string) (d : pydict) : option json :=
  match d with
  | [] => None
  | (k', v) :: d' => if String.eqb k' k then Some v else dict_get k d'
  end.

(** [k in d] *)
Definition dict_mem (k : string) (d : pydict) : bool :=
  match dict_get k d with Some _ => true | None => false end.

(** [d.get(k)]: [None] when the key is missing. *)
Definition get_or_none (k : string) (d : pydict) : json :=
  match dict_get k d with Some v => v | None => JNull end.

(** [d.get(k, dflt)]: the default only replaces a missing key. *)
Definition get_or (k : string) (dflt : json) (d : pydict) : json :=
  match dict_get k d with Some v => v | None => dflt end.

(** [d[k]] *)
Definition getitem (k : string) (d : pydict) : result json :=
  match dict_get k d with Some v => Ok v | None => Err (KeyError k) end.

(** [d[k] = v]: in place when the key exists, appended otherwise. *)
Fixpoint dict_set (k : string) (v : json) (d : pydict) : pydict :=
  match d with
  | [] => [(k, v)]
  | (k', v') :: d' =>
      if String.eqb k' k then (k', v) :: d' else (k', v') :: dict_set k v d'
  end.

(** [d.pop(k, None)] *)
Fixpoint dict_pop (k : string) (d : pydict) : pydict :=
  match d with
  | [] => []
  | (k', v') :: d' =>
      if String.eqb k' k then dict_pop k d' else (k', v') :: dict_pop k d'
  end.

(** [d.setdefault(k, v)] *)
Definition dict_setdefault (k : string) (v : json) (d : pydict) : pydict :=
  if dict_mem k d then d else d ++ [(k, v)].

(** Truth value of a JSON-shaped Python object. *)
Definition py_truthy (v : json) : bool :=
  match v with
  | JNull => false
  | JBool b => b
  | JInt n => negb (n =? 0)
  | JStr s => negb (String.eqb s "")
  | JArr l => match l with [] => false | _ => true end
  | JObj o => match o with [] => false | _ => true end
  end.

(** [n == v] for an [int] [n]: booleans are the integers 0 and 1. *)
Definition py_int_eq (n : Z) (v : json) : bool :=
  match v with
  | JInt m => n =? m
  | JBool b => n =? (if b then 1 else 0)
  | _ => false
  end.

(** [n in l] for an [int] [n] and a list of JSON-shaped objects. *)
Definition py_int_in (n : Z) (l : list json) : bool :=
  existsb (py_int_eq n) l.

(** [v == s] for a string literal [s]. *)
Definition py_eq_str (v : json) (s : string) : bool :=
  match v with
  | JStr s' => String.eqb s' s
  | _ => false
  end.

(** Lists and dicts are unhashable, everything else can be a dict key. *)
Definition py_hashable (v : json) : bool :=
  match v with
  | JArr _ | JObj _ => false
  | _ => true
  end.

(** Equality of two hashable keys, as a dict sees it. *)
Definition py_key_eqb (a b : json) : bool :=
  match a, b with
  | JNull, JNull => true
  | JStr s, JStr t => String.eqb s t
  | JInt n, _ => py_int_eq n b
  | JBool x, _ => py_int_eq (if x then 1 else 0) b
  | _, _ => false
  end.

(** ** [json.dumps] *)

Definition dquote : ascii := ascii_of_N 34.
Definition backslash : ascii := ascii_of_N 92.

Definition hex_digit (n : N) : ascii :=
  if (n <? 10)%N then ascii_of_N (48 + n) else ascii_of_N (87 + n).

(** One character of a string literal under [ensure_ascii=True]. *)
Definition escape_char (c : ascii) : string :=
  let n := N_of_ascii c in
  if (n =? 34)%N then String backslash (String dquote EmptyString)
  else if (n =? 92)%N then String backslash (String backslash EmptyString)
  else if (n =? 10)%N then String backslash "n"
  else if (n =? 13)%N then String backslash "r"
  else if (n =? 9)%N then String backslash "t"
  else if (n =? 8)%N then String backslash "b"
  else if (n =? 12)%N then String backslash "f"
  else if ((32 <=? n) && (n <=? 126))%N then String c EmptyString
  else String backslash
         (String "u" (String "0" (String "0"
           (String (hex_digit (n / 16)) (String (hex_digit (n mod 16)) EmptyString))))).

Fixpoint escape_string (s : string) : string :=
  match s with
  | EmptyString => EmptyString
  | String c s' => String.append (escape_char c) (escape_string s')
  end.

Definition encode_string (s : string) : string :=
  String dquote (String.append (escape_string s) (String dquote EmptyString)).

Definition string_of_Z (n : Z) : string :=
  NilZero.string_of_int (Z.to_int n).

(** Stable insertion sort of rendered members by key ([sort_keys=True]). *)
Fixpoint insert_by_key (kv : string * string) (l : list (string * string))
  : list (string * string) :=
  match l with
  | [] => [kv]
  | kv' :: l' =>
      if String.leb (fst kv) (fst kv') then kv :: kv' :: l'
      else kv' :: insert_by_key kv l'
  end.

Fixpoint sort_by_key (l : list (string * string)) : list (string * string) :=
  match l with
  | [] => []
  | kv :: l' => insert_by_key kv (sort_by_key l')
  end.

(** [json.dumps(v, separators=(item_sep, key_sep), sort_keys=sort_keys)] *)
Fixpoint dumps (sort_keys : bool) (item_sep key_sep : string) (v : json) : string :=
  match v with
  | JNull => "null"
  | JBool true => "true"
  | JBool false => "false"
  | JInt n => string_of_Z n
  | JStr s => encode_string s
  | JArr l =>
      String.append "["
        (String.append
           (String.concat item_sep (List.map (dumps sort_keys item_sep key_sep) l))
           "]")
  | JObj o =>
      let rendered :=
        (fix members (o : list (string * json)) : list (string * string) :=
           match o with
           | [] => []
           | (k, x) :: o' => (k, dumps sort_keys item_sep key_sep x) :: members o'
           end) o in
      let ordered := if sort_keys then sort_by_key rendered else rendered in
      String.append "{"
        (String.append
           (String.concat item_sep
              (List.map
                 (fun kv => String.append (encode_string (fst kv))
                              (String.append key_sep (snd kv)))
                 ordered))
           "}")
  end.

(** [json.dumps(v)] *)
Definition json_dumps (v : json) : string := dumps false ", " ": " v.

(** [json.dumps(v, indent=None, separators=(",", ":"), sort_keys=True)] *)
Definition json_dumps_compact_sorted (v : json) : string := dumps true "," ":" v.

(** ** [json.loads] and [int] on plain text

    A recursive-descent reader for the JSON texts that [json] can hold and
    a reader for base-10 integer literals.  The DAO operations below take
    the two library functions as parameters; these readers are the
    instances used to run the operations on concrete payloads. *)

Definition is_json_ws (c : ascii) : bool :=
  let n := N_of_ascii c in
  ((n =? 32) || (n =? 9) || (n =? 10) || (n =? 13))%N.

Fixpoint skip_ws (s : string) : string :=
  match s with
  | String c s' => if is_json_ws c then skip_ws s' else s
  | EmptyString => s
  end.

Definition digit_of (c : ascii) : option Z :=
  let n := N_of_ascii c in
  if ((48 <=? n) && (n <=? 57))%N then Some (Z.of_N n - 48) else None.

Definition hex_of (c : ascii) : option N :=
  let n := N_of_ascii c in
  if ((48 <=? n) && (n <=? 57))%N then Some (n - 48)%N
  else if ((97 <=? n) && (n <=? 102))%N then Some (n - 87)%N
  else if ((65 <=? n) && (n <=? 70))%N then Some (n - 55)%N
  else None.

(** The digits at the front of [s], folded into [acc]. *)
Fixpoint read_digits (acc : Z) (s : string) : Z * string :=
  match s with
  | String c s' =>
      match digit_of c with
      | Some d => read_digits (10 * acc + d) s'
      | None => (acc, s)
      end
  | EmptyString => (acc, s)
  end.

(** The rest of a string literal, after its opening quote. *)
Fixpoint read_string_body (s : string) : option (string * string) :=
  match s with
  | EmptyString => None
  | String c s' =>
      let n := N_of_ascii c in
      if (n =? 34)%N then Some (EmptyString, s')
      else if (n =? 92)%N then
        match s' with
        | String e s'' =>
            let simple (x : N) :=
              match read_string_body s'' with
              | Some (body, rest) => Some (String (ascii_of_N x) body, rest)
              | None => None
              end in
            let m := N_of_ascii e in
            if (m =? 34)%N then simple 34%N
            else if (m =? 92)%N then simple 92%N
            else if (m =? 47)%N then simple 47%N
            else if (m =? 98)%N then simple 8%N
            else if (m =? 102)%N then simple 12%N
            else if (m =? 110)%N then simple 10%N
            else if (m =? 114)%N then simple 13%N
            else if (m =? 116)%N then simple 9%N
            else if (m =? 117)%N then
              match s'' with
              | String h1 (String h2 (String h3 (String h4 s4))) =>
                  match hex_of h1, hex_of h2, hex_of h3, hex_of h4 with
                  | Some 0%N, Some 0%N, Some a, Some b =>
                      match read_string_body s4 with
                      | Some (body, rest) =>
                          Some (String (ascii_of_N (16 * a + b)) body, rest)
                      | None => None
                      end
                  | _, _, _, _ => None
                  end
              | _ => None
              end
            else None
        | EmptyString => None
        end
      else if (n <? 32)%N then None
      else
        match read_string_body s' with
        | Some (body, rest) => Some (String c body, rest)
        | None => None
        end
  end.

Fixpoint strip_prefix (p s : string) : option string :=
  match p, s with
  | EmptyString, _ => Some s
  | String a p', String b s' => if Ascii.eqb a b then strip_prefix p' s' else None
  | String _ _, EmptyString => None
  end.

(** An integer literal; a fraction or exponent is not representable. *)
Definition read_number (s : string) : option (json * string) :=
  let '(neg, s1) :=
    match s with
    | String "-" s' => (true, s')
    | _ => (false, s)
    end in
  match s1 with
  | String c _ =>
      match digit_of c with
      | Some _ =>
          let '(n, rest) := read_digits 0 s1 in
          match rest with
          | String "." _ | String "e" _ | String "E" _ => None
          | _ => Some (JInt (if neg then - n else n), rest)
          end
      | None => None
      end
  | EmptyString => None
  end.

Fixpoint read_value (fuel : nat) (s : string) {struct fuel} : option (json * string) :=
  match fuel with
  | O => None
  | S fuel' =>
      match skip_ws s with
      | EmptyString => None
      | String c rest as s0 =>
          let n := N_of_ascii c in
          if (n =? 34)%N then
            match read_string_body rest with
            | Some (str, r) => Some (JStr str, r)
            | None => None
            end
          else if (n =? 91)%N then
            match skip_ws rest with
            | String "]" r => Some (JArr [], r)
            | _ =>
                match read_elements fuel' rest with
                | Some (vs, r) => Some (JArr vs, r)
                | None => None
                end
            end
          else if (n =? 123)%N then
            match skip_ws rest with
            | String "}" r => Some (JObj [], r)
            | _ =>
                match read_members fuel' rest with
                | Some (kvs, r) =>
                    Some (JObj (fold_left (fun d kv => dict_set (fst kv) (snd kv) d) kvs []), r)
                | None => None
                end
            end
          else
            match strip_prefix "null" s0, strip_prefix "true" s0, strip_prefix "false" s0 with
            | Some r, _, _ => Some (JNull, r)
            | _, Some r, _ => Some (JBool true, r)
            | _, _, Some r => Some (JBool false, r)
            | None, None, None => read_number s0
            end
      end
  end
with read_elements (fuel : nat) (s : string) {struct fuel} : option (list json * string) :=
  match fuel with
  | O => None
  | S fuel' =>
      match read_value fuel' s with
      | Some (v, r) =>
          match skip_ws r with
          | String "," r' =>
              match read_elements fuel' r' with
              | Some (vs, r'') => Some (v :: vs, r'')
              | None => None
              end
          | String "]" r' => Some ([v], r')
          | _ => None
          end
      | None => None
      end
  end
with read_members (fuel : nat) (s : string) {struct fuel}
  : option (list (string * json) * string) :=
  match fuel with
  | O => None
  | S fuel' =>
      match skip_ws s with
      | String c r0 =>
          if (N_of_ascii c =? 34)%N then
            match read_string_body r0 with
            | Some (k, r1) =>
                match skip_ws r1 with
                | String ":" r2 =>
                    match read_value fuel' r2 with
                    | Some (v, r3) =>
                        match skip_ws r3 with
                        | String "," r4 =>
                            match read_members fuel' r4 with
                            | Some (kvs, r5) => Some ((k, v) :: kvs, r5)
                            | None => None
                            end
                        | String "}" r4 => Some ([(k, v)], r4)
                        | _ => None
                        end
                    | None => None
                    end
                | _ => None
                end
            | None => None
            end
          else None
      | EmptyString => None
      end
  end.

(** [json.loads(s)] on the texts above. *)
Definition py_json_loads (s : string) : result json :=
  match read_value (2 * String.length s + 2) s with
  | Some (v, rest) =>
      match skip_ws rest with
      | EmptyString => Ok v
      | _ => Err (JSONDecodeError "Extra data")
      end
  | None => Err (JSONDecodeError "Expecting value")
  end.

(** Characters that [int] strips from both ends of its argument. *)
Definition is_py_space (c : ascii) : bool :=
  let n := N_of_ascii c in
  ((n =? 32) || ((9 <=? n) && (n <=? 13)) || ((28 <=? n) && (n <=? 31)))%N.

Fixpoint lstrip (s : string) : string :=
  match s with
  | String c s' => if is_py_space c then lstrip s' else s
  | EmptyString => s
  end.

(** Digits, single underscores allowed between two digits, then optional
    trailing space up to the end of the text. *)
Fixpoint read_int_digits (acc : Z) (after_digit : bool) (s : string) : option Z :=
  match s with
  | EmptyString => if after_digit then Some acc else None
  | String c s' =>
      match digit_of c with
      | Some d => read_int_digits (10 * acc + d) true s'
      | None =>
          if (N_of_ascii c =? 95)%N then
            if after_digit then
              match s' with
              | String c' _ =>
                  match digit_of c' with
                  | Some _ => read_int_digits acc false s'
                  | None => None
                  end
              | EmptyString => None
              end
            else None
          else if after_digit then
            match lstrip s with EmptyString => Some acc | _ => None end
          else None
      end
  end.

(** [int(s)] for a [str] of plain characters: [None] is [ValueError]. *)
Definition py_int_base10 (s : string) : option Z :=
  match lstrip s with
  | String "-" s' => option_map Z.opp (read_int_digits 0 false s')
  | String "+" s' => read_int_digits 0 false s'
  | s' => read_int_digits 0 false s'
  end.

(** ** The data model *)

(** A naive [datetime], counted in microseconds from
    [datetime.fromtimestamp(0)]; earlier instants are negative. *)
Definition datetime : Type := Z.

(** [datetime.fromtimestamp(0)] *)
Definition epoch : datetime := 0.

(** [t.replace(microsecond=0)] *)
Definition replace_microsecond_0 (t : datetime) : datetime := t - t mod 1000000.

Module Slice.
Record t : Type := mk {
  id : Z;
  uuid : string;
  changed_on : datetime
}.
End Slice.

Module Datasource.
Record t : Type := mk {
  id : Z;
  changed_on : datetime
}.
End Datasource.

Module Dashboard.
Record t : Type := mk {
  id : Z;
  slug : option string;
  dashboard_title : json;
  css : json;
  position_json : string;
  json_metadata : string;
  slices : list Slice.t;
  owners : list Z;
  embedded : list Z;
  datasources : list Datasource.t;
  changed_on : datetime
}.

Definition with_slices (v : list Slice.t) (d : t) : t :=
  mk (id d) (slug d) (dashboard_title d) (css d) (position_json d)
     (json_metadata d) v (owners d) (embedded d) (datasources d) (changed_on d).

Definition with_owners (v : list Z) (d : t) : t :=
  mk (id d) (slug d) (dashboard_title d) (css d) (position_json d)
     (json_metadata d) (slices d) v (embedded d) (datasources d) (changed_on d).

Definition with_embedded (v : list Z) (d : t) : t :=
  mk (id d) (slug d) (dashboard_title d) (css d) (position_json d)
     (json_metadata d) (slices d) (owners d) v (datasources d) (changed_on d).

Definition with_datasources (v : list Datasource.t) (d : t) : t :=
  mk (id d) (slug d) (dashboard_title d) (css d) (position_json d)
     (json_metadata d) (slices d) (owners d) (embedded d) v (changed_on d).

Definition with_position_json (v : string) (d : t) : t :=
  mk (id d) (slug d) (dashboard_title d) (css d) v
     (json_metadata d) (slices d) (owners d) (embedded d) (datasources d) (changed_on d).

Definition with_json_metadata (v : string) (d : t) : t :=
  mk (id d) (slug d) (dashboard_title d) (css d) (position_json d)
     v (slices d) (owners d) (embedded d) (datasources d) (changed_on d).

Definition with_css (v : json) (d : t) : t :=
  mk (id d) (slug d) (dashboard_title d) v (position_json d)
     (json_metadata d) (slices d) (owners d) (embedded d) (datasources d) (changed_on d).

Definition with_dashboard_title (v : json) (d : t) : t :=
  mk (id d) (slug d) v (css d) (position_json d)
     (json_metadata d) (slices d) (owners d) (embedded d) (datasources d) (changed_on d).
End Dashboard.

(** ** The ORM session

    [db.session]: the rows as last committed, the rows as the open
    transaction sees them, and the calls made on the session.  A dashboard
    row carries its chart, owner and embed associations.  Each fallible
    call fails when the store says so ([Faults]); [rollback] always
    succeeds.

    The rows change through the calls that dao.py makes on the session:
    [merge], the bulk delete, [commit] and [rollback].  A dashboard handed
    to an operation is an object of its own: an operation that assigns to
    its attributes returns the changed object, and the rows keep what they
    held.  The unit of work, which at a commit also writes the changed
    attributes of the objects attached to the session, is not part of the
    model: [pending] and [committed] are the rows as those four calls
    leave them. *)

Record Tables : Type := {
  tbl_dashboards : list Dashboard.t;
  tbl_slices : list Slice.t
}.

Record Faults : Type := {
  fault_query : option exn;
  fault_merge : option exn;
  fault_delete : option exn;
  fault_commit : option exn
}.

Definition no_faults : Faults :=
  {| fault_query := None; fault_merge := None;
     fault_delete := None; fault_commit := None |}.

Inductive event : Type :=
| EvMerge (dashboard_id : Z)
| EvDelete (ids : list Z)
| EvCommit
| EvRollback.

Record Session : Type := {
  committed : Tables;
  pending : Tables;
  faults : Faults;
  trace : list event
}.

Definition M (A : Type) : Type := Session -> result A * Session.

Definition ret {A} (a : A) : M A := fun s => (Ok a, s).

Definition raise {A} (e : exn) : M A := fun s => (Err e, s).

Definition lift {A} (r : result A) : M A := fun s => (r, s).

Definition bind {A B} (m : M A) (k : A -> M B) : M B :=
  fun s =>
    match m s with
    | (Ok a, s') => k a s'
    | (Err e, s') => (Err e, s')
    end.

Notation "'let*' x ':=' m 'in' k" := (bind m (fun x => k))
  (at level 10, x name, m at level 100, k at level 200).

(** [try: body except SQLAlchemyError as ex: handler(ex)] *)
Definition try_except_sqlalchemy {A} (body : M A) (handler : exn -> M A) : M A :=
  fun s =>
    match body s with
    | (Ok a, s') => (Ok a, s')
    | (Err e, s') => if is_sqlalchemy_error e then handler e s' else (Err e, s')
    end.

(** [for x in xs: body(x)] *)
Fixpoint for_each {A} (xs : list A) (body : A -> M unit) : M unit :=
  match xs with
  | [] => ret tt
  | x :: xs' => let* _ := body x in for_each xs' body
  end.

Definition log (ev : event) (s : Session) : Session :=
  {| committed := committed s; pending := pending s;
     faults := faults s; trace := trace s ++ [ev] |}.

Definition set_pending (t : Tables) (s : Session) : Session :=
  {| committed := committed s; pending := t;
     faults := faults s; trace := trace s |}.

(** [db.session.query(Dashboard).filter(p).all()] *)
Definition session_query_dashboards (p : Dashboard.t -> bool) : M (list Dashboard.t) :=
  fun s =>
    match fault_query (faults s) with
    | Some e => (Err e, s)
    | None => (Ok (List.filter p (tbl_dashboards (pending s))), s)
    end.

(** The integer that a text spells in decimal digits, with an optional
    minus sign. *)
Definition decimal_text (s : string) : option Z :=
  let digits (s : string) :=
    match s with
    | EmptyString => None
    | _ => match read_digits 0 s with
           | (n, EmptyString) => Some n
           | _ => None
           end
    end in
  match s with
  | String "-" s' => option_map Z.opp (digits s')
  | _ => digits s
  end.

(** The integer that the store compares with an integer column when [v] is
    bound in the query: an [int] is itself, a [bool] is 1 or 0, a text is
    the integer it spells; [None] and the other values equal no id. *)
Definition sql_integer (v : json) : option Z :=
  match v with
  | JInt n => Some n
  | JBool b => Some (if b then 1 else 0)
  | JStr s => decimal_text s
  | _ => None
  end.

(** [x IN (ids)] on an integer column.  The comparison is the store's, not
    Python's: the chart id ["1"] of a position entry selects chart 1,
    although [1 == "1"] is false in Python. *)
Definition sql_in (x : Z) (ids : list json) : bool :=
  existsb (fun v => match sql_integer v with
                    | Some n => n =? x
                    | None => false
                    end) ids.

(** [session.query(Slice).filter(Slice.id.in_(ids)).all()] *)
Definition session_query_slices_in (ids : list json) : M (list Slice.t) :=
  fun s =>
    match fault_query (faults s) with
    | Some e => (Err e, s)
    | None =>
        (Ok (List.filter (fun slc => sql_in (Slice.id slc) ids) (tbl_slices (pending s))), s)
    end.

(** The row of [model] replaced by [model], or added when there is none. *)
Fixpoint upsert (model : Dashboard.t) (rows : list Dashboard.t) : list Dashboard.t :=
  match rows with
  | [] => [model]
  | r :: rows' =>
      if Dashboard.id r =? Dashboard.id model then model :: rows'
      else r :: upsert model rows'
  end.

(** [db.session.merge(model)] *)
Definition session_merge (model : Dashboard.t) : M unit :=
  fun s =>
    let s := log (EvMerge (Dashboard.id model)) s in
    match fault_merge (faults s) with
    | Some e => (Err e, s)
    | None =>
        (Ok tt,
         set_pending
           {| tbl_dashboards := upsert model (tbl_dashboards (pending s));
              tbl_slices := tbl_slices (pending s) |} s)
    end.

(** [db.session.query(Dashboard).filter(Dashboard.id.in_(ids)).delete(...)] *)
Definition session_delete_dashboards_in (ids : list Z) : M unit :=
  fun s =>
    let s := log (EvDelete ids) s in
    match fault_delete (faults s) with
    | Some e => (Err e, s)
    | None =>
        (Ok tt,
         set_pending
           {| tbl_dashboards :=
                List.filter (fun r => negb (existsb (Z.eqb (Dashboard.id r)) ids))
                  (tbl_dashboards (pending s));
              tbl_slices := tbl_slices (pending s) |} s)
    end.

(** [db.session.commit()] *)
Definition session_commit : M unit :=
  fun s =>
    let s := log EvCommit s in
    match fault_commit (faults s) with
    | Some e => (Err e, s)
    | None =>
        (Ok tt,
         {| committed := pending s; pending := pending s;
            faults := faults s; trace := trace s |})
    end.

(** [db.session.rollback()] *)
Definition session_rollback : M unit :=
  fun s =>
    let s := log EvRollback s in
    (Ok tt, set_pending (committed s) s).

(** [max(l)] *)
Definition py_max (l : list datetime) : result datetime :=
  match l with
  | [] => Err (ValueError "max() arg is an empty sequence")
  | x :: l' => Ok (fold_left Z.max l' x)
  end.

(** ** Pieces of [set_dash_metadata] *)

(** [value.get("meta", {}).get("chartId")] for a dict [value] *)
Definition chart_id_of (value : pydict) : result json :=
  match get_or "meta" (JObj []) value with
  | JObj meta => Ok (get_or_none "chartId" meta)
  | _ => Err (AttributeError "get")
  end.

(** [[value.get("meta", {}).get("chartId") for value in values
      if isinstance(value, dict)]] *)
Fixpoint slice_ids_of (values : list json) : result (list json) :=
  match values with
  | [] => Ok []
  | JObj value :: rest =>
      let? c := chart_id_of value in
      let? cs := slice_ids_of rest in
      Ok (c :: cs)
  | _ :: rest => slice_ids_of rest
  end.

(** [{slice.id: str(slice.uuid) for slice in current_slices}] *)
Definition uuid_map_of (current_slices : list Slice.t) : gmap Z string :=
  foldl (fun m slc => <[Slice.id slc := Slice.uuid slc]> m) ∅ current_slices.

Definition json_of_uuid (u : option string) : json :=
  match u with
  | Some s => JStr s
  | None => JNull
  end.

(** [uuid_map.get(chart_id)]: the keys of [uuid_map] are integers. *)
Definition uuid_map_get (uuid_map : gmap Z string) (chart_id : json) : result json :=
  match chart_id with
  | JInt n => Ok (json_of_uuid (uuid_map !! n))
  | JBool b => Ok (json_of_uuid (uuid_map !! (if b then 1 else 0)))
  | JArr _ | JObj _ => Err (TypeError "unhashable type")
  | JNull | JStr _ => Ok JNull
  end.

(** [v[k]] for a string [k] *)
Definition subscript (v : json) (k : string) : result json :=
  match v with
  | JObj d => getitem k d
  | _ => Err (TypeError "not subscriptable by a string")
  end.

(** One turn of the loop that adds the UUID to a position entry:
    [[
    if isinstance(obj, dict) and obj["type"] == "CHART" and obj["meta"]["chartId"]:
        chart_id = obj["meta"]["chartId"]
        obj["meta"]["uuid"] = uuid_map.get(chart_id)
    ]] *)
Definition annotate_node (uuid_map : gmap Z string) (obj : json) : result json :=
  match obj with
  | JObj o =>
      let? ty := getitem "type" o in
      if py_eq_str ty "CHART" then
        let? meta := getitem "meta" o in
        let? chart_id := subscript meta "chartId" in
        if py_truthy chart_id then
          let? u := uuid_map_get uuid_map chart_id in
          match meta with
          | JObj m => Ok (JObj (dict_set "meta" (JObj (dict_set "uuid" u m)) o))
          | _ => Err (TypeError "not subscriptable by a string")
          end
        else Ok obj
      else Ok obj
  | _ => Ok obj
  end.

(** [for obj in positions.values(): ...], each entry updated in place. *)
Fixpoint annotate_positions (uuid_map : gmap Z string) (positions : pydict)
  : result pydict :=
  match positions with
  | [] => Ok []
  | (k, obj) :: rest =>
      let? obj' := annotate_node uuid_map obj in
      let? rest' := annotate_positions uuid_map rest in
      Ok ((k, obj') :: rest')
  end.

(** [d[k] = v] on a dict with arbitrary hashable keys. *)
Fixpoint pykey_set (k v : json) (d : list (json * json)) : list (json * json) :=
  match d with
  | [] => [(k, v)]
  | (k', v') :: d' =>
      if py_key_eqb k' k then (k', v) :: d' else (k', v') :: pykey_set k v d'
  end.

(** [{sid: sid for sid in slice_ids}] *)
Fixpoint identity_slc_id_dict (slice_ids : list json) (acc : list (json * json))
  : result (list (json * json)) :=
  match slice_ids with
  | [] => Ok acc
  | sid :: rest =>
      if py_hashable sid then identity_slc_id_dict rest (pykey_set sid sid acc)
      else Err (TypeError "unhashable type")
  end.

(** [{old: new for old, new in old_to_new_slice_ids.items() if new in slice_ids}] *)
Definition remapped_slc_id_dict (old_to_new_slice_ids : list (Z * Z))
    (slice_ids : list json) : list (json * json) :=
  List.map (fun on => (JInt (fst on), JInt (snd on)))
    (List.filter (fun on => py_int_in (snd on) slice_ids) old_to_new_slice_ids).

(** The [slc_id_dict] of the [filter_scopes] branch. *)
Definition slc_id_dict_of (old_to_new_slice_ids : option (list (Z * Z)))
    (slice_ids : list json) : result (list (json * json)) :=
  match old_to_new_slice_ids with
  | Some ((_ :: _) as items) => Ok (remapped_slc_id_dict items slice_ids)
  | _ => identity_slc_id_dict slice_ids []
  end.

(** No two entries of a dict have equal keys. *)
Fixpoint keys_distinct (d : list (json * json)) : Prop :=
  match d with
  | [] => True
  | (k, _) :: d' =>
      (forall k' v', In (k', v') d' -> py_key_eqb k' k = false) /\ keys_distinct d'
  end.

(** ** Well-formed positions and resolved charts *)

(** An entry on which the annotation loop does not raise: a dict has a
    [type]; a dict of type CHART has a dict [meta] with a [chartId] that is
    falsy or hashable. *)
Definition node_well_formed (obj : json) : bool :=
  match obj with
  | JObj o =>
      match dict_get "type" o with
      | None => false
      | Some ty =>
          if py_eq_str ty "CHART" then
            match dict_get "meta" o with
            | Some (JObj m) =>
                match dict_get "chartId" m with
                | Some c => negb (py_truthy c) || py_hashable c
                | None => false
                end
            | _ => false
            end
          else true
      end
  | _ => true
  end.

Definition positions_well_formed (positions : pydict) : bool :=
  forallb (fun kv => node_well_formed (snd kv)) positions.

(** The integer a chart id stands for as a key of an integer-keyed dict. *)
Definition chart_key (chart_id : json) : option Z :=
  match chart_id with
  | JInt n => Some n
  | JBool b => Some (if b then 1 else 0)
  | _ => None
  end.

(** The external UUID of the chart with id [chart_id] among the charts
    resolved from the store (the last one, should an id occur twice). *)
Definition resolved_uuid (current_slices : list Slice.t) (chart_id : json)
  : option string :=
  match chart_key chart_id with
  | Some n =>
      option_map Slice.uuid
        (List.find (fun slc => Slice.id slc =? n) (rev current_slices))
  | None => None
  end.

(** ** Instances of the collaborators *)

(** A [params_dict] that reads the metadata document back from the text
    in [json_metadata]; an empty text is the empty document. *)
Definition stored_params_dict (dashboard : Dashboard.t) : result pydict :=
  if String.eqb (Dashboard.json_metadata dashboard) "" then Ok []
  else
    let? v := py_json_loads (Dashboard.json_metadata dashboard) in
    match v with
    | JObj md => Ok md
    | _ => Err (TypeError "the metadata document is not a dict")
    end.

(** Whether [s] starts with white space, one character at least, followed
    by [close]. *)
Fixpoint ws_then (close : ascii) (seen_ws : bool) (s : string) : bool :=
  match s with
  | String c s' =>
      if is_json_ws c then ws_then close true s'
      else seen_ws && Ascii.eqb c close
  | EmptyString => false
  end.

(** [re.sub(",[ \t\r\n]+" + close, close, s)]: a comma and the white
    space after it are dropped where [close] follows them.  [dropping] is
    set while the white space of a match is being skipped. *)
Fixpoint tidy_before (close : ascii) (dropping : bool) (s : string) : string :=
  match s with
  | EmptyString => EmptyString
  | String c s' =>
      if dropping && is_json_ws c then tidy_before close true s'
      else if Ascii.eqb c "," && ws_then close false s' then tidy_before close true s'
      else String c (tidy_before close false s')
  end.

(** A [params_dict] that is lenient on hand-edited text: it drops the
    commas left before a closing brace or bracket, then parses the text;
    an empty text is the empty document.  [Dashboard.params_dict] is
    defined with the model, outside [dao.py]; this reader and
    [stored_params_dict] are two of the readers it can be. *)
Definition tidying_params_dict (dashboard : Dashboard.t) : result pydict :=
  if String.eqb (Dashboard.json_metadata dashboard) "" then Ok []
  else
    let text := tidy_before "}" false (Dashboard.json_metadata dashboard) in
    let text := tidy_before "]" false text in
    let? v := py_json_loads text in
    match v with
    | JObj md => Ok md
    | _ => Err (TypeError "the metadata document is not a dict")
    end.

(** A [copy_filter_scopes] for payloads without [filter_scopes], on which
    it is never called. *)
Definition copy_filter_scopes_uncalled (slc_id_dict : list (json * json))
    (old_filter_scopes : json) : result json :=
  Err (TypeError "copy_filter_scopes").

(** An [id_or_slug_filter] that matches the slug or the decimal id. *)
Definition slug_or_id_matches (id_or_slug : string) (d : Dashboard.t) : bool :=
  match Dashboard.slug d with
  | Some s => String.eqb s id_or_slug
  | None => false
  end
  || match py_int_base10 id_or_slug with
     | Some n => Dashboard.id d =? n
     | None => false
     end.

(** A [base_filter] that grants access to every dashboard. *)
Definition access_to_all (d : Dashboard.t) : bool := true.

(** A [copy_filter_scopes] for the examples: it keeps the scopes whose
    key, read as an integer, the id table translates to an integer, files
    them under the translated id, and leaves the scopes themselves as they
    are. *)
Definition copy_filter_scopes_renaming (slc_id_dict : list (json * json))
    (old_filter_scopes : json) : result json :=
  match old_filter_scopes with
  | JObj scopes =>
      Ok (JObj
            (flat_map
               (fun kv =>
                  match py_int_base10 (fst kv) with
                  | Some n =>
                      match List.find (fun e => py_key_eqb (fst e) (JInt n)) slc_id_dict with
                      | Some (_, JInt new) => [(string_of_Z new, snd kv)]
                      | _ => []
                      end
                  | None => []
                  end)
               scopes))
  | _ => Err (AttributeError "items")
  end.

(** ** Sample data *)

Definition chart_1 : Slice.t := Slice.mk 1 "uuid-1" 0.

Definition chart_3 : Slice.t := Slice.mk 3 "uuid-3" 0.

(** A position entry that refers to the chart [chart_id]. *)
Definition chart_node (chart_id : Z) : json :=
  JObj [("type", JStr "CHART"); ("meta", JObj [("chartId", JInt chart_id)])].

(** Two chart entries, for chart 1 and for chart 2, and the version marker. *)
Definition sample_positions : pydict :=
  [("CHART-a", chart_node 1); ("CHART-b", chart_node 2);
   ("DASHBOARD_VERSION_KEY", JStr "v2")].

(** The default filters [{"1": "a", "2": "b"}]. *)
Definition sample_default_filters : json :=
  JObj [("1", JStr "a"); ("2", JStr "b")].

Definition sample_update : pydict :=
  [("positions", JObj sample_positions);
   ("default_filters", JStr (json_dumps sample_default_filters));
   ("dashboard_title", JStr "Sales Q2");
   ("color_namespace", JStr "ns")].

(** A stored metadata document that still has a [positions] key. *)
Definition sample_metadata : pydict :=
  [("positions", JObj []); ("default_filters", JStr "{}"); ("custom", JArr [JInt 1])].

Definition sample_dashboard : Dashboard.t :=
  Dashboard.mk 7 (Some "sales") (JStr "Sales") JNull "{}"
    (json_dumps (JObj sample_metadata)) [chart_3] [10] [] [] 1500000.

(** A second dashboard, whose slug is the empty string. *)
Definition other_dashboard : Dashboard.t :=
  Dashboard.mk 8 (Some EmptyString) (JStr "Other") JNull "{}" "{}" [chart_1] [10] [5] [] 0.

(** The store holds charts 1 and 3, and no chart 2. *)
Definition sample_tables : Tables :=
  {| tbl_dashboards := [sample_dashboard; other_dashboard];
     tbl_slices := [chart_1; chart_3] |}.

Definition sample_session : Session :=
  {| committed := sample_tables; pending := sample_tables;
     faults := no_faults; trace := [] |}.

(** The same session on a store whose bulk deletion fails. *)
Definition failing_session : Session :=
  {| committed := sample_tables; pending := sample_tables;
     faults := {| fault_query := None; fault_merge := None;
                  fault_delete := Some (SQLAlchemyError "connection lost");
                  fault_commit := None |};
     trace := [] |}.

(** A dashboard last changed five seconds before
    [datetime.fromtimestamp(0)], without charts. *)
Definition old_dashboard : Dashboard.t :=
  Dashboard.mk 9 None (JStr "Old") JNull "{}" "{}" [] [] [] [] (-5000000).

(** An update with positions and filter scopes for charts 1 and 9. *)
Definition sample_update_with_scopes : pydict :=
  [("positions", JObj sample_positions);
   ("filter_scopes",
    JStr (json_dumps (JObj [("1", JObj [("region", JObj [])]); ("9", JObj [])])))].

(** The sample session on a store whose bulk deletion fails with an error
    that is not a storage error. *)
Definition mistyped_session : Session :=
  {| committed := sample_tables; pending := sample_tables;
     faults := {| fault_query := None; fault_merge := None;
                  fault_delete := Some (TypeError "unsupported operand");
                  fault_commit := None |};
     trace := [] |}.

(** The sample session on a store whose merge fails. *)
Definition unmergeable_session : Session :=
  {| committed := sample_tables; pending := sample_tables;
     faults := {| fault_query := None;
                  fault_merge := Some (SQLAlchemyError "connection lost");
                  fault_delete := None; fault_commit := None |};
     trace := [] |}.

(** A dashboard with two owners and the charts 1 and 3. *)
Definition owned_dashboard : Dashboard.t :=
  Dashboard.mk 11 None (JStr "Owned") JNull "{}" "{}" [chart_1; chart_3] [10; 20] [] [] 0.

(** Chart 1 is owned by user 30, chart 3 by nobody, chart 4 by user 40. *)
Definition sample_chart_owners : gmap Z (list Z) :=
  <[1 := [30]]> (<[4 := [40]]> ∅).

(** A dashboard whose metadata document holds a note that ends in two
    commas and a closing brace, and a payload with empty positions. *)
Definition noted_dashboard : Dashboard.t :=
  Dashboard.mk 9 None (JStr "Notes") JNull "{}"
    (json_dumps (JObj [("note", JStr "a, , }")])) [] [] [] [] 0.

Definition empty_positions_update : pydict := [("positions", JObj [])].

(** ** The DAO

    The operations of [DashboardDAO], over the collaborators that live
    outside dao.py: [json.loads], [int], [copy_filter_scopes], the
    [params_dict] property of a dashboard and the two query filters of
    [get_by_id_or_slug]. *)

Section DashboardDAO.

#[local] Set Default Proof Using "Type".

Variable json_loads : string -> result json.
Variable py_int : string -> option Z.
Variable copy_filter_scopes : list (json * json) -> json -> result json.
Variable params_dict : Dashboard.t -> result pydict.
Variable id_or_slug_filter : string -> Dashboard.t -> bool.
Variable base_filter : Dashboard.t -> bool.

(** [json.loads(v)]: only a [str] can be parsed. *)
Definition json_loads_value (v : json) : result json :=
  match v with
  | JStr s => json_loads s
  | _ => Err (TypeError "the JSON object must be str, bytes or bytearray")
  end.

(** [v.items()] *)
Definition items_of (v : json) : result pydict :=
  match v with
  | JObj d => Ok d
  | _ => Err (AttributeError "items")
  end.

(** [{key: v for key, v in items if int(key) in slice_ids}]; the items of
    a dict have distinct keys, so the new dict is the kept items in order. *)
Fixpoint applicable_filters (slice_ids : list json) (items : pydict) : result pydict :=
  match items with
  | [] => Ok []
  | (key, v) :: rest =>
      match py_int key with
      | None => Err (ValueError key)
      | Some n =>
          let? rest' := applicable_filters slice_ids rest in
          Ok (if py_int_in n slice_ids then (key, v) :: rest' else rest')
      end
  end.

(** [json.loads(data["filter_scopes"] or "{}")
     if isinstance(data["filter_scopes"], str) else data["filter_scopes"]] *)
Definition old_filter_scopes_of (data : pydict) : result json :=
  let? fs := getitem "filter_scopes" data in
  match fs with
  | JStr s => json_loads (if String.eqb s "" then "{}" else s)
  | _ => Ok fs
  end.

Definition get_by_id_or_slug (id_or_slug : string) : M Dashboard.t :=
  let* rows :=
    session_query_dashboards (fun d => id_or_slug_filter id_or_slug d && base_filter d) in
  match rows with
  | [] => raise DashboardNotFoundError
  | [dashboard] => ret dashboard
  | _ => raise MultipleResultsFound
  end.

(** The [Union[str, Dashboard]] argument of the timestamp queries. *)
Definition resolve_dashboard (id_or_slug_or_dashboard : string + Dashboard.t)
  : M Dashboard.t :=
  match id_or_slug_or_dashboard with
  | inl id_or_slug => get_by_id_or_slug id_or_slug
  | inr dashboard => ret dashboard
  end.

Definition get_dashboard_changed_on (id_or_slug_or_dashboard : string + Dashboard.t)
  : M datetime :=
  let* dashboard := resolve_dashboard id_or_slug_or_dashboard in
  ret (replace_microsecond_0 (Dashboard.changed_on dashboard)).

Definition get_dashboard_and_slices_changed_on
    (id_or_slug_or_dashboard : string + Dashboard.t) : M datetime :=
  let* dashboard := resolve_dashboard id_or_slug_or_dashboard in
  let* dashboard_changed_on := get_dashboard_changed_on (inr dashboard) in
  let slices := Dashboard.slices dashboard in
  let* slices_changed_on :=
    lift (py_max (List.map Slice.changed_on slices
                    ++ (if (List.length slices =? 0)%nat then [epoch] else []))) in
  ret (replace_microsecond_0 (Z.max dashboard_changed_on slices_changed_on)).

Definition get_dashboard_and_datasets_changed_on
    (id_or_slug_or_dashboard : string + Dashboard.t) : M datetime :=
  let* dashboard := resolve_dashboard id_or_slug_or_dashboard in
  let* dashboard_changed_on := get_dashboard_changed_on (inr dashboard) in
  let datasources := Dashboard.datasources dashboard in
  let* datasources_changed_on :=
    lift (py_max (List.map Datasource.changed_on datasources
                    ++ (if (List.length datasources =? 0)%nat then [epoch] else []))) in
  ret (replace_microsecond_0 (Z.max dashboard_changed_on datasources_changed_on)).

(** [Dashboard.slug == slug]: a NULL slug equals nothing. *)
Definition slug_is (slug : string) (d : Dashboard.t) : bool :=
  match Dashboard.slug d with
  | Some s => String.eqb s slug
  | None => false
  end.

Definition validate_slug_uniqueness (slug : option string) : M bool :=
  match slug with
  | None | Some EmptyString => ret true
  | Some slug =>
      let* rows := session_query_dashboards (slug_is slug) in
      ret (negb (match rows with [] => false | _ => true end))
  end.

Definition validate_update_slug_uniqueness (dashboard_id : Z) (slug : option string)
  : M bool :=
  match slug with
  | Some slug =>
      let* rows :=
        session_query_dashboards
          (fun d => slug_is slug d && negb (Dashboard.id d =? dashboard_id)) in
      ret (negb (match rows with [] => false | _ => true end))
  | None => ret true
  end.

(** [model.slices = []; model.owners = []; model.embedded = []] *)
Definition detach (model : Dashboard.t) : Dashboard.t :=
  Dashboard.with_embedded [] (Dashboard.with_owners [] (Dashboard.with_slices [] model)).

(** Lines 170 to 175 of dao.py: [if models: for model in models: ...] *)
Definition detach_related (models : option (list Dashboard.t)) : M unit :=
  match models with
  | Some ((_ :: _) as ms) => for_each ms (fun model => session_merge (detach model))
  | _ => ret tt
  end.

Definition bulk_delete (models : option (list Dashboard.t)) (commit : bool) : M unit :=
  let item_ids :=
    match models with
    | Some ((_ :: _) as ms) => List.map Dashboard.id ms
    | _ => []
    end in
  let* _ := detach_related models in
  try_except_sqlalchemy
    (let* _ := session_delete_dashboards_in item_ids in
     if commit then session_commit else ret tt)
    (fun ex => let* _ := session_rollback in raise ex).

(** What lines 199 to 244 of dao.py leave behind: the dashboard with its
    charts and position document set, the payload with its positions
    annotated, the chart ids found in the positions and the new filter
    scopes. *)
Record resolved_positions : Type := {
  rp_dashboard : Dashboard.t;
  rp_data : pydict;
  rp_slice_ids : list json;
  rp_new_filter_scopes : json
}.

(** Lines 199 to 244 of dao.py: the first part of the body of
    [if positions is not None:]. *)
Definition resolve_positions (dashboard : Dashboard.t) (data : pydict)
    (old_to_new_slice_ids : option (list (Z * Z))) (positions : json)
  : M resolved_positions :=
  let* positions := lift (items_of positions) in
  let* slice_ids := lift (slice_ids_of (List.map snd positions)) in
  let* current_slices := session_query_slices_in slice_ids in
  let dashboard := Dashboard.with_slices current_slices dashboard in
  let uuid_map := uuid_map_of current_slices in
  let* positions := lift (annotate_positions uuid_map positions) in
  let data := dict_set "positions" (JObj positions) data in
  let dashboard :=
    Dashboard.with_position_json (json_dumps_compact_sorted (JObj positions)) dashboard in
  let* new_filter_scopes :=
    if dict_mem "filter_scopes" data then
      lift (let? slc_id_dict := slc_id_dict_of old_to_new_slice_ids slice_ids in
            let? old_filter_scopes := old_filter_scopes_of data in
            copy_filter_scopes slc_id_dict old_filter_scopes)
    else ret (JObj []) in
  ret {| rp_dashboard := dashboard; rp_data := data;
         rp_slice_ids := slice_ids; rp_new_filter_scopes := new_filter_scopes |}.

(** Lines 246 to 255 of dao.py: the default filters that still apply,
    stored in the metadata document, and the [positions] key dropped. *)
Definition filter_default_filters (data : pydict) (slice_ids : list json) (md : pydict)
  : result pydict :=
  let? default_filters_data :=
    json_loads_value (get_or "default_filters" (JStr "{}") data) in
  let? items := items_of default_filters_data in
  let? applicable := applicable_filters slice_ids items in
  let md := dict_set "default_filters" (JStr (json_dumps (JObj applicable))) md in
  let md := dict_pop "positions" md in
  Ok md.

(** What the body of [if positions is not None:] hands to the rest of
    [set_dash_metadata]. *)
Record positions_outcome : Type := {
  po_dashboard : Dashboard.t;
  po_data : pydict;
  po_new_filter_scopes : json;
  po_md : pydict
}.

(** Lines 198 to 255 of dao.py: the body of [if positions is not None:]. *)
Definition reconcile_positions (dashboard : Dashboard.t) (data : pydict)
    (old_to_new_slice_ids : option (list (Z * Z))) (positions : json) (md : pydict)
  : M positions_outcome :=
  let* rp := resolve_positions dashboard data old_to_new_slice_ids positions in
  let* md := lift (filter_default_filters (rp_data rp) (rp_slice_ids rp) md) in
  ret {| po_dashboard := rp_dashboard rp; po_data := rp_data rp;
         po_new_filter_scopes := rp_new_filter_scopes rp; po_md := md |}.

(** Lines 264 to 282 of dao.py: the keys of the metadata document that
    are set or removed whatever the payload holds. *)
Definition reconcile_metadata (data : pydict) (new_filter_scopes : json) (md : pydict)
  : pydict :=
  let md :=
    if py_truthy new_filter_scopes then dict_set "filter_scopes" new_filter_scopes md
    else dict_pop "filter_scopes" md in
  let md := dict_setdefault "timed_refresh_immune_slices" (JArr []) md in
  let md :=
    match get_or_none "color_namespace" data with
    | JNull => dict_pop "color_namespace" md
    | v => dict_set "color_namespace" v md
    end in
  let md := dict_set "expanded_slices" (get_or "expanded_slices" (JObj []) data) md in
  let md := dict_set "refresh_frequency" (get_or "refresh_frequency" (JInt 0) data) md in
  let md := dict_set "color_scheme" (get_or "color_scheme" (JStr "") data) md in
  let md := dict_set "label_colors" (get_or "label_colors" (JObj []) data) md in
  let md := dict_set "shared_label_colors" (get_or "shared_label_colors" (JObj []) data) md in
  let md := dict_set "color_scheme_domain" (get_or "color_scheme_domain" (JArr []) data) md in
  let md := dict_set "cross_filters_enabled" (get_or "cross_filters_enabled" (JBool true) data) md in
  md.

(** Lines 257 to 283 of dao.py: the style sheet and title taken from the
    payload, and the metadata document serialized into the dashboard. *)
Definition write_back (dashboard : Dashboard.t) (data : pydict)
    (new_filter_scopes : json) (md : pydict) : Dashboard.t :=
  let dashboard :=
    match get_or_none "css" data with
    | JNull => dashboard
    | css => Dashboard.with_css css dashboard
    end in
  let dashboard :=
    match get_or_none "dashboard_title" data with
    | JNull => dashboard
    | title => Dashboard.with_dashboard_title title dashboard
    end in
  let md := reconcile_metadata data new_filter_scopes md in
  Dashboard.with_json_metadata (json_dumps (JObj md)) dashboard.

(** Line 198 of dao.py: [if positions is not None: ...], with the
    values the rest of the function reads afterwards. *)
Definition if_positions (dashboard : Dashboard.t) (data : pydict)
    (old_to_new_slice_ids : option (list (Z * Z))) (md : pydict)
  : M positions_outcome :=
  match get_or_none "positions" data with
  | JNull =>
      ret {| po_dashboard := dashboard; po_data := data;
             po_new_filter_scopes := JObj []; po_md := md |}
  | positions => reconcile_positions dashboard data old_to_new_slice_ids positions md
  end.

(** [set_dash_metadata] returns the dashboard; the payload is returned
    with it because its [positions] are annotated in place. *)
Definition set_dash_metadata (dashboard : Dashboard.t) (data : pydict)
    (old_to_new_slice_ids : option (list (Z * Z))) (commit : bool)
  : M (Dashboard.t * pydict) :=
  let* md := lift (params_dict dashboard) in
  let* po := if_positions dashboard data old_to_new_slice_ids md in
  let dashboard :=
    write_back (po_dashboard po) (po_data po) (po_new_filter_scopes po) (po_md po) in
  let* _ := if commit then session_commit else ret tt in
  ret (dashboard, po_data po).

Definition get_charts_for_dashboard (id_or_slug : string) : M (list Slice.t) :=
  let* dashboard := get_by_id_or_slug id_or_slug in
  ret (Dashboard.slices dashboard).

(** [list(set(owners) | set(slc_owners))]: the members of the union, each
    once, in an order that Python does not fix. *)
Definition union_owners (owners slc_owners : list Z) : list Z :=
  elements ((list_to_set owners : gset Z) ∪ list_to_set slc_owners).

(** [slc.owners], read from the owners of the charts kept by chart id; a
    chart without an entry has no owner. *)
Definition owners_of (chart_owners : gmap Z (list Z)) (slc : Slice.t) : list Z :=
  match chart_owners !! Slice.id slc with
  | Some l => l
  | None => []
  end.

(** [update_charts_owners]: the owners of the charts are passed in and
    returned with the dashboard, since the loop assigns [slc.owners]. *)
Definition update_charts_owners (model : Dashboard.t) (commit : bool)
    (chart_owners : gmap Z (list Z)) : M (Dashboard.t * gmap Z (list Z)) :=
  let owners := Dashboard.owners model in
  let chart_owners :=
    foldl (fun m slc =>
             <[Slice.id slc := union_owners owners (owners_of m slc)]> m)
      chart_owners (Dashboard.slices model) in
  let* _ := if commit then session_commit else ret tt in
  ret (model, chart_owners).

(** A computation that asks nothing of the session but queries: the calls
    that the session has recorded, and the rows it sees, are those it
    started with, whatever the computation returns or raises. *)
Definition reads_only {A} (m : M A) : Prop :=
  forall s r s', m s = (r, s') -> s' = s.

(** The keys of the metadata document that lines 264 to 282 set or
    remove. *)
Definition reconciled_keys : list string :=
  ["filter_scopes"; "timed_refresh_immune_slices"; "color_namespace";
   "expanded_slices"; "refresh_frequency"; "color_scheme"; "label_colors";
   "shared_label_colors"; "color_scheme_domain"; "cross_filters_enabled"].

(** [m] is the latest of the timestamps [l]. *)
Definition is_latest (m : datetime) (l : list datetime) : Prop :=
  In m l /\ forall x, In x l -> x <= m.

(** The timestamps of a related collection, or the sentinel
    [datetime.fromtimestamp(0)] alone when the collection is empty. *)
Definition or_epoch (l : list datetime) : list datetime :=
  match l with
  | [] => [epoch]
  | _ => l
  end.

(** ** Properties *)

(** *** Dictionaries *)

Lemma dict_get_set_eq k v d : dict_get k (dict_set k v d) = Some v.
Proof.
  induction d as [|[k' v'] d IH]; simpl.
  - by rewrite String.eqb_refl.
  - destruct (String.eqb k' k) eqn:E; simpl; rewrite E; auto.
Qed.

Lemma dict_get_set_ne k k' v d :
  k <> k' -> dict_get k (dict_set k' v d) = dict_get k d.
Proof.
  intros Hne. induction d as [|[k0 v0] d IH]; simpl.
  - destruct (String.eqb k' k) eqn:E; auto.
    apply String.eqb_eq in E. congruence.
  - destruct (String.eqb k0 k') eqn:E; simpl.
    + apply String.eqb_eq in E. subst k0.
      destruct (String.eqb k' k) eqn:E'; auto.
      apply String.eqb_eq in E'. congruence.
    + by rewrite IH.
Qed.

Lemma dict_get_pop_eq k d : dict_get k (dict_pop k d) = None.
Proof.
  induction d as [|[k' v'] d IH]; simpl; auto.
  destruct (String.eqb k' k) eqn:E; simpl; auto. by rewrite E.
Qed.

Lemma dict_get_pop_ne k k' d :
  k <> k' -> dict_get k (dict_pop k' d) = dict_get k d.
Proof.
  intros Hne. induction d as [|[k0 v0] d IH]; simpl; auto.
  destruct (String.eqb k0 k') eqn:E; simpl.
  - apply String.eqb_eq in E. subst k0.
    destruct (String.eqb k' k) eqn:E'; auto.
    apply String.eqb_eq in E'. congruence.
  - by rewrite IH.
Qed.

Lemma dict_get_app k d d' :
  dict_get k (d ++ d') =
  match dict_get k d with Some v => Some v | None => dict_get k d' end.
Proof.
  induction d as [|[k0 v0] d IH]; simpl; auto.
  destruct (String.eqb k0 k); auto.
Qed.

Lemma dict_get_setdefault_ne k k' v d :
  k <> k' -> dict_get k (dict_setdefault k' v d) = dict_get k d.
Proof.
  intros Hne. unfold dict_setdefault. destruct (dict_mem k' d); auto.
  rewrite dict_get_app. destruct (dict_get k d); auto. simpl.
  destruct (String.eqb k' k) eqn:E; auto.
  apply String.eqb_eq in E. congruence.
Qed.

Lemma dict_set_id k v d : dict_get k d = Some v -> dict_set k v d = d.
Proof.
  induction d as [|[k' v'] d IH]; simpl; [done|].
  destruct (String.eqb k' k) eqn:E.
  - by intros [= ->].
  - intros H. by rewrite IH.
Qed.

Lemma dict_pop_id k d : dict_get k d = None -> dict_pop k d = d.
Proof.
  induction d as [|[k' v'] d IH]; simpl; [done|].
  destruct (String.eqb k' k) eqn:E; [done|].
  intros H. by rewrite IH.
Qed.

Lemma dict_setdefault_id k v d :
  dict_get k d <> None -> dict_setdefault k v d = d.
Proof.
  unfold dict_setdefault, dict_mem. destruct (dict_get k d); congruence.
Qed.

Lemma dict_get_setdefault_eq k v d :
  dict_get k (dict_setdefault k v d) <> None.
Proof.
  unfold dict_setdefault, dict_mem. destruct (dict_get k d) eqn:E.
  - by rewrite E.
  - rewrite dict_get_app, E. simpl. by rewrite String.eqb_refl.
Qed.

Lemma get_or_none_set_ne k k' v d :
  k <> k' -> get_or_none k (dict_set k' v d) = get_or_none k d.
Proof. intros H. unfold get_or_none. by rewrite dict_get_set_ne. Qed.

Lemma get_or_set_ne k k' dflt v d :
  k <> k' -> get_or k dflt (dict_set k' v d) = get_or k dflt d.
Proof. intros H. unfold get_or. by rewrite dict_get_set_ne. Qed.

(** *** The session monad *)

Lemma bind_ok {A B} (m : M A) (k : A -> M B) s b s' :
  bind m k s = (Ok b, s') ->
  exists a s1, m s = (Ok a, s1) /\ k a s1 = (Ok b, s').
Proof.
  unfold bind. destruct (m s) as [[a|e] s1]; [eauto | discriminate].
Qed.

Lemma lift_ok {A} (r : result A) s a s' :
  lift r s = (Ok a, s') -> r = Ok a /\ s' = s.
Proof. unfold lift. intros [= -> ->]. auto. Qed.

Lemma rbind_ok {A B} (r : result A) (k : A -> result B) b :
  rbind r k = Ok b -> exists a, r = Ok a /\ k a = Ok b.
Proof. destruct r; simpl; [eauto | discriminate]. Qed.

Lemma session_query_slices_in_ok ids s l s' :
  session_query_slices_in ids s = (Ok l, s') ->
  s' = s /\ fault_query (faults s) = None /\
  l = List.filter (fun slc => sql_in (Slice.id slc) ids) (tbl_slices (pending s)).
Proof.
  unfold session_query_slices_in.
  destruct (fault_query (faults s)); [discriminate|].
  intros [= <- <-]. auto.
Qed.

Lemma session_commit_ok s u s' :
  session_commit s = (Ok u, s') ->
  fault_commit (faults s) = None /\ faults s' = faults s /\
  pending s' = pending s /\ committed s' = pending s.
Proof.
  unfold session_commit. simpl.
  destruct (fault_commit (faults s)); [discriminate|].
  intros [= <- <-]. auto.
Qed.

(** *** The steps of [set_dash_metadata] *)

Lemma filter_default_filters_ok data slice_ids md md' :
  filter_default_filters data slice_ids md = Ok md' ->
  exists dfd applicable,
    json_loads_value (get_or "default_filters" (JStr "{}") data) = Ok (JObj dfd) /\
    applicable_filters slice_ids dfd = Ok applicable /\
    md' = dict_pop "positions"
            (dict_set "default_filters" (JStr (json_dumps (JObj applicable))) md).
Proof.
  unfold filter_default_filters. intros H.
  apply rbind_ok in H as (v & Hv & H).
  apply rbind_ok in H as (items & Hitems & H).
  apply rbind_ok in H as (applicable & Happ & H).
  destruct v; try discriminate. simpl in Hitems.
  injection Hitems as <-. injection H as <-. eauto.
Qed.

Lemma resolve_positions_ok dashboard data old_to_new positions s rp s' :
  resolve_positions dashboard data old_to_new positions s = (Ok rp, s') ->
  exists pos slice_ids pos',
    let current_slices :=
      List.filter (fun slc => sql_in (Slice.id slc) slice_ids) (tbl_slices (pending s)) in
    let data' := dict_set "positions" (JObj pos') data in
    positions = JObj pos /\
    slice_ids_of (List.map snd pos) = Ok slice_ids /\
    fault_query (faults s) = None /\
    annotate_positions (uuid_map_of current_slices) pos = Ok pos' /\
    (if dict_mem "filter_scopes" data' then
       (let? slc_id_dict := slc_id_dict_of old_to_new slice_ids in
        let? old_filter_scopes := old_filter_scopes_of data' in
        copy_filter_scopes slc_id_dict old_filter_scopes)
     else Ok (JObj [])) = Ok (rp_new_filter_scopes rp) /\
    rp_dashboard rp =
      Dashboard.with_position_json (json_dumps_compact_sorted (JObj pos'))
        (Dashboard.with_slices current_slices dashboard) /\
    rp_data rp = data' /\
    rp_slice_ids rp = slice_ids /\
    s' = s.
Proof.
  unfold resolve_positions. intros H.
  apply bind_ok in H as (pos & s1 & H1 & H). apply lift_ok in H1 as [H1 ->].
  apply bind_ok in H as (sids & s1 & H2 & H). apply lift_ok in H2 as [H2 ->].
  apply bind_ok in H as (cs & s1 & H3 & H).
  apply session_query_slices_in_ok in H3 as (-> & Hq & ->).
  apply bind_ok in H as (pos' & s1 & H4 & H). apply lift_ok in H4 as [H4 ->].
  apply bind_ok in H as (nfs & s1 & H5 & H).
  injection H as <- <-.
  destruct positions; try discriminate. injection H1 as ->.
  exists pos, sids, pos'. simpl.
  repeat split; auto.
  destruct (dict_mem "filter_scopes" (dict_set "positions" (JObj pos') data)).
  - by apply lift_ok in H5 as [H5 _].
  - by injection H5 as <- _.
  - destruct (dict_mem "filter_scopes" (dict_set "positions" (JObj pos') data)).
    + by apply lift_ok in H5 as [_ ->].
    + by injection H5 as _ <-.
Qed.

Lemma reconcile_positions_ok dashboard data old_to_new positions md s po s' :
  reconcile_positions dashboard data old_to_new positions md s = (Ok po, s') ->
  exists rp,
    resolve_positions dashboard data old_to_new positions s = (Ok rp, s') /\
    filter_default_filters (rp_data rp) (rp_slice_ids rp) md = Ok (po_md po) /\
    po_dashboard po = rp_dashboard rp /\
    po_data po = rp_data rp /\
    po_new_filter_scopes po = rp_new_filter_scopes rp.
Proof.
  unfold reconcile_positions. intros H.
  apply bind_ok in H as (rp & s1 & H1 & H).
  apply bind_ok in H as (md' & s2 & H2 & H). apply lift_ok in H2 as [H2 ->].
  injection H as <- <-. exists rp. simpl. auto.
Qed.

Lemma set_dash_metadata_ok dashboard data old_to_new commit s dashboard' data' s' :
  set_dash_metadata dashboard data old_to_new commit s = (Ok (dashboard', data'), s') ->
  exists md po s1,
    params_dict dashboard = Ok md /\
    if_positions dashboard data old_to_new md s = (Ok po, s1) /\
    dashboard' =
      write_back (po_dashboard po) (po_data po) (po_new_filter_scopes po) (po_md po) /\
    data' = po_data po /\
    (if commit then session_commit s1 = (Ok tt, s') else s' = s1).
Proof.
  unfold set_dash_metadata. intros H.
  apply bind_ok in H as (md & s1 & H1 & H). apply lift_ok in H1 as [H1 ->].
  apply bind_ok in H as (po & s1 & H2 & H).
  apply bind_ok in H as (u & s2 & H3 & H).
  injection H as <- <- <-.
  exists md, po, s1. repeat split; auto.
  destruct commit; [by destruct u | by injection H3 as <-].
Qed.

Lemma if_positions_present dashboard data old_to_new md :
  get_or_none "positions" data <> JNull ->
  if_positions dashboard data old_to_new md
  = reconcile_positions dashboard data old_to_new (get_or_none "positions" data) md.
Proof.
  intros H. unfold if_positions.
  destruct (get_or_none "positions" data); [congruence | done ..].
Qed.

(** The result of [set_dash_metadata] on a payload with positions, once
    the stored metadata are read and lines 199 to 244 have run. *)
Lemma set_dash_metadata_after_resolve
    dashboard data old_to_new commit s md rp s1 :
  get_or_none "positions" data <> JNull ->
  params_dict dashboard = Ok md ->
  resolve_positions dashboard data old_to_new (get_or_none "positions" data) s
    = (Ok rp, s1) ->
  set_dash_metadata dashboard data old_to_new commit s =
    match filter_default_filters (rp_data rp) (rp_slice_ids rp) md with
    | Err e => (Err e, s1)
    | Ok md1 =>
        match (if commit then session_commit else ret tt) s1 with
        | (Ok _, s2) =>
            (Ok (write_back (rp_dashboard rp) (rp_data rp) (rp_new_filter_scopes rp) md1,
                 rp_data rp), s2)
        | (Err e, s2) => (Err e, s2)
        end
    end.
Proof.
  intros Hpos Hmd Hrp.
  unfold set_dash_metadata, bind, lift. rewrite Hmd.
  rewrite if_positions_present by done.
  unfold reconcile_positions, bind, lift. rewrite Hrp.
  destruct (filter_default_filters (rp_data rp) (rp_slice_ids rp) md); simpl; [|done].
  by destruct ((if commit then session_commit else ret ()) s1) as [[[]|e] s2].
Qed.

Lemma resolve_positions_run dashboard data old_to_new pos s slice_ids pos' nfs :
  let current_slices :=
    List.filter (fun slc => sql_in (Slice.id slc) slice_ids) (tbl_slices (pending s)) in
  let data' := dict_set "positions" (JObj pos') data in
  slice_ids_of (List.map snd pos) = Ok slice_ids ->
  fault_query (faults s) = None ->
  annotate_positions (uuid_map_of current_slices) pos = Ok pos' ->
  (if dict_mem "filter_scopes" data' then
     (let? slc_id_dict := slc_id_dict_of old_to_new slice_ids in
      let? old_filter_scopes := old_filter_scopes_of data' in
      copy_filter_scopes slc_id_dict old_filter_scopes)
   else Ok (JObj [])) = Ok nfs ->
  resolve_positions dashboard data old_to_new (JObj pos) s =
    (Ok {| rp_dashboard :=
             Dashboard.with_position_json (json_dumps_compact_sorted (JObj pos'))
               (Dashboard.with_slices current_slices dashboard);
           rp_data := data';
           rp_slice_ids := slice_ids;
           rp_new_filter_scopes := nfs |}, s).
Proof.
  intros cs data' Hs Hq Ha Hn.
  unfold resolve_positions, bind, lift, session_query_slices_in. simpl.
  rewrite Hs, Hq. fold cs. rewrite Ha. fold data'.
  destruct (dict_mem "filter_scopes" data'); [by rewrite Hn | by injection Hn as <-].
Qed.

(** *** The metadata document *)

Ltac dict_get_simpl :=
  repeat first
    [ rewrite dict_get_set_eq
    | rewrite dict_get_pop_eq
    | rewrite dict_get_set_ne by discriminate
    | rewrite dict_get_pop_ne by discriminate
    | rewrite dict_get_setdefault_ne by discriminate ].

(** [k] is one of the reconciled keys, for a literal [k]. *)
Ltac reconciled_key :=
  simpl; repeat first [left; reflexivity | right].

(** A literal key is not one of the reconciled keys. *)
Ltac not_reconciled_key :=
  let H := fresh in
  unfold reconciled_keys; simpl; intros H;
  repeat (destruct H as [H|H]; [discriminate H|]); exact H.

Lemma reconcile_metadata_other k data new_filter_scopes md :
  ~ In k reconciled_keys ->
  dict_get k (reconcile_metadata data new_filter_scopes md) = dict_get k md.
Proof.
  intros Hk. unfold reconcile_metadata.
  repeat (rewrite dict_get_set_ne by (intros ->; apply Hk; reconciled_key)).
  destruct (get_or_none "color_namespace" data);
    (rewrite ?dict_get_pop_ne, ?dict_get_set_ne
       by (intros ->; apply Hk; reconciled_key));
    (rewrite dict_get_setdefault_ne by (intros ->; apply Hk; reconciled_key));
    destruct (py_truthy new_filter_scopes);
    (rewrite ?dict_get_pop_ne, ?dict_get_set_ne
       by (intros ->; apply Hk; reconciled_key)); reflexivity.
Qed.

Lemma reconcile_metadata_fixed data new_filter_scopes md :
  reconcile_metadata data new_filter_scopes
    (reconcile_metadata data new_filter_scopes md)
  = reconcile_metadata data new_filter_scopes md.
Proof.
  set (R := reconcile_metadata data new_filter_scopes md).
  assert (dict_get "filter_scopes" R =
          if py_truthy new_filter_scopes then Some new_filter_scopes else None) as F1.
  { unfold R, reconcile_metadata.
    destruct (get_or_none "color_namespace" data), (py_truthy new_filter_scopes);
      by dict_get_simpl. }
  assert (dict_get "timed_refresh_immune_slices" R <> None) as F2.
  { unfold R, reconcile_metadata.
    destruct (get_or_none "color_namespace" data);
      dict_get_simpl; apply dict_get_setdefault_eq. }
  assert (dict_get "color_namespace" R =
          match get_or_none "color_namespace" data with
          | JNull => None
          | v => Some v
          end) as F3.
  { unfold R, reconcile_metadata.
    destruct (get_or_none "color_namespace" data); by dict_get_simpl. }
  assert (dict_get "expanded_slices" R
          = Some (get_or "expanded_slices" (JObj []) data)) as F4
    by (unfold R, reconcile_metadata; by dict_get_simpl).
  assert (dict_get "refresh_frequency" R
          = Some (get_or "refresh_frequency" (JInt 0) data)) as F5
    by (unfold R, reconcile_metadata; by dict_get_simpl).
  assert (dict_get "color_scheme" R
          = Some (get_or "color_scheme" (JStr "") data)) as F6
    by (unfold R, reconcile_metadata; by dict_get_simpl).
  assert (dict_get "label_colors" R
          = Some (get_or "label_colors" (JObj []) data)) as F7
    by (unfold R, reconcile_metadata; by dict_get_simpl).
  assert (dict_get "shared_label_colors" R
          = Some (get_or "shared_label_colors" (JObj []) data)) as F8
    by (unfold R, reconcile_metadata; by dict_get_simpl).
  assert (dict_get "color_scheme_domain" R
          = Some (get_or "color_scheme_domain" (JArr []) data)) as F9
    by (unfold R, reconcile_metadata; by dict_get_simpl).
  assert (dict_get "cross_filters_enabled" R
          = Some (get_or "cross_filters_enabled" (JBool true) data)) as F10
    by (unfold R, reconcile_metadata; by dict_get_simpl).
  clearbody R. unfold reconcile_metadata.
  assert ((if py_truthy new_filter_scopes
           then dict_set "filter_scopes" new_filter_scopes R
           else dict_pop "filter_scopes" R) = R) as ->.
  { destruct (py_truthy new_filter_scopes);
      [by apply dict_set_id | by apply dict_pop_id]. }
  rewrite (dict_setdefault_id _ _ _ F2).
  assert (match get_or_none "color_namespace" data with
          | JNull => dict_pop "color_namespace" R
          | v => dict_set "color_namespace" v R
          end = R) as ->.
  { destruct (get_or_none "color_namespace" data);
      [by apply dict_pop_id | by apply dict_set_id ..]. }
  rewrite (dict_set_id _ _ _ F4), (dict_set_id _ _ _ F5), (dict_set_id _ _ _ F6),
    (dict_set_id _ _ _ F7), (dict_set_id _ _ _ F8), (dict_set_id _ _ _ F9).
  by apply dict_set_id.
Qed.

Lemma write_back_json_metadata dashboard data new_filter_scopes md :
  Dashboard.json_metadata (write_back dashboard data new_filter_scopes md)
  = json_dumps (JObj (reconcile_metadata data new_filter_scopes md)).
Proof. reflexivity. Qed.

Lemma write_back_frame dashboard data new_filter_scopes md :
  let dashboard' := write_back dashboard data new_filter_scopes md in
  Dashboard.slices dashboard' = Dashboard.slices dashboard /\
  Dashboard.position_json dashboard' = Dashboard.position_json dashboard /\
  Dashboard.id dashboard' = Dashboard.id dashboard /\
  Dashboard.slug dashboard' = Dashboard.slug dashboard /\
  Dashboard.owners dashboard' = Dashboard.owners dashboard /\
  Dashboard.embedded dashboard' = Dashboard.embedded dashboard /\
  Dashboard.datasources dashboard' = Dashboard.datasources dashboard /\
  Dashboard.changed_on dashboard' = Dashboard.changed_on dashboard.
Proof.
  unfold write_back.
  destruct (get_or_none "css" data), (get_or_none "dashboard_title" data);
    simpl; auto 10.
Qed.

Lemma applicable_filters_filter slice_ids items applicable :
  applicable_filters slice_ids items = Ok applicable ->
  applicable =
    List.filter
      (fun kv => match py_int (fst kv) with
                 | Some n => py_int_in n slice_ids
                 | None => false
                 end) items.
Proof.
  revert applicable. induction items as [|[key v] rest IH]; simpl; intros applicable H.
  - by injection H as <-.
  - destruct (py_int key) as [n|]; [|discriminate].
    apply rbind_ok in H as (rest' & Hrest & H). injection H as <-.
    rewrite <- (IH _ Hrest). by destruct (py_int_in n slice_ids).
Qed.

(** A run of [set_dash_metadata] that returns, on a payload with
    positions, went through every step of the positions branch. *)
Lemma set_dash_metadata_positions_ok
    dashboard data old_to_new commit s dashboard' data' s' :
  get_or_none "positions" data <> JNull ->
  set_dash_metadata dashboard data old_to_new commit s = (Ok (dashboard', data'), s') ->
  exists md rp md1,
    params_dict dashboard = Ok md /\
    resolve_positions dashboard data old_to_new (get_or_none "positions" data) s
      = (Ok rp, s) /\
    filter_default_filters (rp_data rp) (rp_slice_ids rp) md = Ok md1 /\
    dashboard' = write_back (rp_dashboard rp) (rp_data rp) (rp_new_filter_scopes rp) md1 /\
    data' = rp_data rp /\
    (if commit then session_commit s = (Ok tt, s') else s' = s).
Proof.
  intros Hpos H.
  apply set_dash_metadata_ok in H as (md & po & s1 & Hmd & Hrec & -> & -> & Hc).
  rewrite if_positions_present in Hrec by done.
  apply reconcile_positions_ok in Hrec as (rp & Hrp & Hdf & -> & -> & ->).
  pose proof (resolve_positions_ok _ _ _ _ _ _ _ Hrp)
    as (? & ? & ? & _ & _ & _ & _ & _ & _ & _ & _ & ->).
  exists md, rp, (po_md po). auto 10.
Qed.

(** C1 (amended).  When the update payload has a [positions] field that is
    present and not null, and [set_dash_metadata] returns, the metadata
    document serialized into the dashboard's [json_metadata] has no
    [positions] key. *)
Theorem positions_key_dropped_when_positions_given
    dashboard data old_to_new commit s dashboard' data' s' :
  get_or_none "positions" data <> JNull ->
  set_dash_metadata dashboard data old_to_new commit s = (Ok (dashboard', data'), s') ->
  exists md',
    Dashboard.json_metadata dashboard' = json_dumps (JObj md') /\
    dict_get "positions" md' = None.
Proof.
  intros Hpos H.
  apply set_dash_metadata_positions_ok in H
    as (md & rp & md1 & _ & _ & Hdf & -> & _ & _); [|done].
  apply filter_default_filters_ok in Hdf as (dfd & applicable & _ & _ & ->).
  eexists. split; [apply write_back_json_metadata|].
  rewrite reconcile_metadata_other by not_reconciled_key.
  apply dict_get_pop_eq.
Qed.

(** C2 (amended).  When the update payload has positions and
    [set_dash_metadata] returns, the metadata key [default_filters] holds
    the JSON serialization of exactly those entries of the parsed
    default-filters document whose key, read as an integer, is among the
    chart ids referenced by the dict entries of the positions, whether or
    not a chart with that id exists in the store. *)
Theorem default_filters_kept_for_referenced_charts
    dashboard data old_to_new commit s dashboard' data' s' :
  get_or_none "positions" data <> JNull ->
  set_dash_metadata dashboard data old_to_new commit s = (Ok (dashboard', data'), s') ->
  exists positions slice_ids default_filters_data md',
    get_or_none "positions" data = JObj positions /\
    slice_ids_of (List.map snd positions) = Ok slice_ids /\
    json_loads_value (get_or "default_filters" (JStr "{}") data)
      = Ok (JObj default_filters_data) /\
    Dashboard.json_metadata dashboard' = json_dumps (JObj md') /\
    dict_get "default_filters" md' =
      Some (JStr (json_dumps (JObj
        (List.filter
           (fun kv => match py_int (fst kv) with
                      | Some n => py_int_in n slice_ids
                      | None => false
                      end)
           default_filters_data)))).
Proof.
  intros Hpos H.
  apply set_dash_metadata_positions_ok in H
    as (md & rp & md1 & _ & Hrp & Hdf & -> & _ & _); [|done].
  apply resolve_positions_ok in Hrp
    as (pos & sids & pos' & Hp & Hs & _ & _ & _ & _ & Hdata & Hsids & _).
  apply filter_default_filters_ok in Hdf as (dfd & applicable & Hl & Ha & ->).
  rewrite Hsids in Ha. apply applicable_filters_filter in Ha as ->.
  rewrite Hdata, get_or_set_ne in Hl by discriminate.
  exists pos, sids, dfd. eexists.
  repeat split; try done.
  rewrite reconcile_metadata_other by not_reconciled_key.
  rewrite dict_get_pop_ne by discriminate. apply dict_get_set_eq.
Qed.


(** *** Timestamps *)

Lemma replace_microsecond_0_unique t q :
  1000000 * q <= t < 1000000 * q + 1000000 ->
  replace_microsecond_0 t = 1000000 * q.
Proof.
  intros H. unfold replace_microsecond_0.
  pose proof (Z.div_mod t 1000000 ltac:(lia)) as Hdm.
  pose proof (Z.mod_pos_bound t 1000000 ltac:(lia)) as Hb.
  assert (t / 1000000 = q) by nia. lia.
Qed.

Lemma replace_microsecond_0_bounds t :
  replace_microsecond_0 t <= t < replace_microsecond_0 t + 1000000 /\
  replace_microsecond_0 t = 1000000 * (t / 1000000).
Proof.
  unfold replace_microsecond_0.
  pose proof (Z.div_mod t 1000000 ltac:(lia)).
  pose proof (Z.mod_pos_bound t 1000000 ltac:(lia)). lia.
Qed.

(** Truncating the dashboard's timestamp before taking the maximum does
    not change the truncated maximum. *)
Lemma replace_microsecond_0_max c m :
  replace_microsecond_0 (Z.max (replace_microsecond_0 c) m)
  = replace_microsecond_0 (Z.max c m).
Proof.
  destruct (replace_microsecond_0_bounds c) as [Hc Hq].
  destruct (Z.max_spec c m) as [[Hlt ->]|[Hge ->]].
  - by rewrite Z.max_r by lia.
  - transitivity (1000000 * (c / 1000000)); [|lia].
    apply replace_microsecond_0_unique. lia.
Qed.

Lemma fold_left_max_latest l x : is_latest (fold_left Z.max l x) (x :: l).
Proof.
  revert x. induction l as [|y l IH]; intros x; simpl.
  - split; [by left|]. intros z [->|[]]. lia.
  - destruct (IH (Z.max x y)) as [Hin Hub]. split.
    + destruct Hin as [Hin|Hin]; [|simpl; tauto].
      destruct (Z.max_spec x y) as [[_ E]|[_ E]]; rewrite E in Hin |- *;
        simpl; tauto.
    + intros z [->|[->|Hz]].
      * specialize (Hub (Z.max z y) ltac:(by left)). lia.
      * specialize (Hub (Z.max x z) ltac:(by left)). lia.
      * apply Hub. by right.
Qed.

(** [max(l + ([epoch] if len(l) == 0 else []))] is the latest of the
    collection, or the sentinel when the collection is empty. *)
Lemma py_max_or_epoch (l : list datetime) :
  exists m,
    py_max (l ++ (if (List.length l =? 0)%nat then [epoch] else [])) = Ok m /\
    is_latest m (or_epoch l).
Proof.
  destruct l as [|x l]; simpl.
  - exists epoch. split; [done|]. split; [by left|]. intros z [->|[]]. lia.
  - exists (fold_left Z.max (l ++ []) x). split; [done|].
    rewrite app_nil_r. apply fold_left_max_latest.
Qed.

Lemma is_latest_cons c m l :
  is_latest m l -> is_latest (Z.max c m) (c :: l).
Proof.
  intros [Hin Hub]. split.
  - destruct (Z.max_spec c m) as [[_ ->]|[_ ->]]; [by right | by left].
  - intros z [->|Hz]; [lia|]. specialize (Hub z Hz). lia.
Qed.

(** C8 (amended).  For a dashboard object, each of the two queries returns
    the latest of the dashboard's own change timestamp and the change
    timestamps of its charts (of its datasets), the collection counting as
    the sentinel [datetime.fromtimestamp(0)] when it is empty, with the
    microseconds dropped.  For a dashboard without charts (datasets) that
    is the dashboard's own truncated timestamp when it is not earlier than
    the sentinel, and the sentinel otherwise. *)
Theorem changed_on_is_truncated_latest (dashboard : Dashboard.t) (s : Session) :
  (exists m,
     is_latest m (Dashboard.changed_on dashboard
                  :: or_epoch (List.map Slice.changed_on (Dashboard.slices dashboard))) /\
     get_dashboard_and_slices_changed_on (inr dashboard) s
       = (Ok (replace_microsecond_0 m), s)) /\
  (exists m,
     is_latest m (Dashboard.changed_on dashboard
                  :: or_epoch (List.map Datasource.changed_on
                                 (Dashboard.datasources dashboard))) /\
     get_dashboard_and_datasets_changed_on (inr dashboard) s
       = (Ok (replace_microsecond_0 m), s)) /\
  get_dashboard_and_slices_changed_on (inr (Dashboard.with_slices [] dashboard)) s
    = (Ok (if Dashboard.changed_on dashboard <? epoch then epoch
           else replace_microsecond_0 (Dashboard.changed_on dashboard)), s) /\
  get_dashboard_and_datasets_changed_on
    (inr (Dashboard.with_datasources [] dashboard)) s
    = (Ok (if Dashboard.changed_on dashboard <? epoch then epoch
           else replace_microsecond_0 (Dashboard.changed_on dashboard)), s).
Proof.
  split; [|split; [|split]].
  - destruct (py_max_or_epoch (List.map Slice.changed_on (Dashboard.slices dashboard)))
      as (m & Hm & Hl).
    exists (Z.max (Dashboard.changed_on dashboard) m). split; [by apply is_latest_cons|].
    unfold get_dashboard_and_slices_changed_on, get_dashboard_changed_on,
      resolve_dashboard, bind, ret, lift.
    rewrite length_map in Hm. rewrite Hm.
    by rewrite replace_microsecond_0_max.
  - destruct (py_max_or_epoch
                (List.map Datasource.changed_on (Dashboard.datasources dashboard)))
      as (m & Hm & Hl).
    exists (Z.max (Dashboard.changed_on dashboard) m). split; [by apply is_latest_cons|].
    unfold get_dashboard_and_datasets_changed_on, get_dashboard_changed_on,
      resolve_dashboard, bind, ret, lift.
    rewrite length_map in Hm. rewrite Hm.
    by rewrite replace_microsecond_0_max.
  - unfold get_dashboard_and_slices_changed_on, get_dashboard_changed_on,
      resolve_dashboard, bind, ret, lift. simpl.
    rewrite replace_microsecond_0_max. unfold epoch. f_equal. f_equal.
    destruct (Z.ltb_spec (Dashboard.changed_on dashboard) 0).
    + by rewrite Z.max_r by lia.
    + by rewrite Z.max_l by lia.
  - unfold get_dashboard_and_datasets_changed_on, get_dashboard_changed_on,
      resolve_dashboard, bind, ret, lift. simpl.
    rewrite replace_microsecond_0_max. unfold epoch. f_equal. f_equal.
    destruct (Z.ltb_spec (Dashboard.changed_on dashboard) 0).
    + by rewrite Z.max_r by lia.
    + by rewrite Z.max_l by lia.
Qed.

(** *** Slugs *)

Lemma filter_nonempty_existsb {A} (p : A -> bool) (l : list A) :
  match List.filter p l with [] => false | _ => true end = existsb p l.
Proof.
  induction l as [|x l IH]; simpl; [done|]. by destruct (p x).
Qed.

(** C3 (amended).  [validate_slug_uniqueness] reports an empty or absent
    slug unique whatever the store holds, and so does
    [validate_update_slug_uniqueness] for an absent slug.  For the empty
    string [validate_update_slug_uniqueness] queries the store: the slug is
    unique when no other dashboard has the empty string as its slug. *)
Theorem empty_or_absent_slug_uniqueness (dashboard_id : Z) (s : Session) :
  validate_slug_uniqueness (Some EmptyString) s = (Ok true, s) /\
  validate_slug_uniqueness None s = (Ok true, s) /\
  validate_update_slug_uniqueness dashboard_id None s = (Ok true, s) /\
  validate_update_slug_uniqueness dashboard_id (Some EmptyString) s =
    match fault_query (faults s) with
    | Some e => (Err e, s)
    | None =>
        (Ok (negb (existsb
                     (fun d => slug_is EmptyString d
                               && negb (Dashboard.id d =? dashboard_id))
                     (tbl_dashboards (pending s)))), s)
    end.
Proof.
  repeat split.
  unfold validate_update_slug_uniqueness, bind, session_query_dashboards.
  destruct (fault_query (faults s)); [done|].
  unfold ret. by rewrite filter_nonempty_existsb.
Qed.

(** *** Bulk delete *)

Lemma session_merge_frame model s r s' :
  session_merge model s = (r, s') ->
  faults s' = faults s /\ committed s' = committed s.
Proof.
  unfold session_merge. simpl.
  destruct (fault_merge (faults s)); intros [= <- <-]; auto.
Qed.

Lemma detach_related_frame models s r s' :
  detach_related models s = (r, s') ->
  faults s' = faults s /\ committed s' = committed s.
Proof.
  unfold detach_related.
  assert (forall ms s r s',
            for_each ms (fun model => session_merge (detach model)) s = (r, s') ->
            faults s' = faults s /\ committed s' = committed s) as Hloop.
  { clear. induction ms as [|m ms IH]; simpl; intros s r s' H.
    - by injection H as <- <-.
    - unfold bind in H.
      destruct (session_merge (detach m) s) as [[u|e] s1] eqn:E;
        apply session_merge_frame in E as [E1 E2].
      + apply IH in H as [H1 H2]. split; congruence.
      + injection H as <- <-. auto. }
  destruct models as [[|m ms]|]; try (by intros [= <- <-]).
  apply Hloop.
Qed.

(** C7.  Once the related data are detached, if the bulk row deletion
    raises a storage error, or the deletion succeeds and the commit that
    follows raises one, [bulk_delete] rolls the session back (its last call
    on the session, leaving the pending rows equal to the committed ones)
    and raises that same error. *)
Theorem bulk_delete_rolls_back_and_reraises
    (models : option (list Dashboard.t)) (commit : bool) (s s1 : Session) (e : exn) :
  detach_related models s = (Ok tt, s1) ->
  is_sqlalchemy_error e = true ->
  fault_delete (faults s) = Some e \/
  (fault_delete (faults s) = None /\ commit = true /\ fault_commit (faults s) = Some e) ->
  exists s',
    bulk_delete models commit s = (Err e, s') /\
    last (trace s') = Some EvRollback /\
    pending s' = committed s /\
    committed s' = committed s.
Proof.
  intros Hdetach He Hfault.
  pose proof (detach_related_frame _ _ _ _ Hdetach) as [Hf Hc].
  unfold bulk_delete, bind. rewrite Hdetach.
  unfold try_except_sqlalchemy, bind, session_delete_dashboards_in. simpl.
  rewrite Hf.
  destruct Hfault as [Hd|(Hd & -> & Hcm)]; rewrite Hd.
  - rewrite He. unfold session_rollback, raise, set_pending, log. simpl.
    eexists. split; [reflexivity|]. simpl. rewrite last_snoc. auto.
  - unfold session_commit. simpl. rewrite Hf, Hcm, He.
    unfold session_rollback, raise, set_pending, log. simpl.
    eexists. split; [reflexivity|]. simpl. rewrite last_snoc. auto.
Qed.

Lemma filter_all {A} (p : A -> bool) (l : list A) :
  (forall x, p x = true) -> List.filter p l = l.
Proof.
  intros Hp. induction l as [|x l IH]; simpl; [done|]. by rewrite Hp, IH.
Qed.

(** C10.  With [None] or with an empty list, [bulk_delete] returns without
    error whenever the store raises none: it merges no dashboard, runs the
    bulk deletion over the empty id list, which deletes no row, commits if
    asked to, and leaves the rows the session sees as they were. *)
Theorem bulk_delete_of_nothing
    (models : option (list Dashboard.t)) (commit : bool) (s : Session) :
  models = None \/ models = Some [] ->
  fault_delete (faults s) = None ->
  (commit = true -> fault_commit (faults s) = None) ->
  exists s',
    bulk_delete models commit s = (Ok tt, s') /\
    trace s' = trace s ++ EvDelete [] :: (if commit then [EvCommit] else []) /\
    pending s' = pending s /\
    committed s' = (if commit then pending s else committed s).
Proof.
  intros Hmodels Hd Hc.
  assert (bulk_delete models commit s = bulk_delete None commit s) as ->
    by (by destruct Hmodels as [->| ->]).
  unfold bulk_delete, detach_related, bind, ret, try_except_sqlalchemy,
    session_delete_dashboards_in. simpl. rewrite Hd.
  rewrite filter_all by done.
  assert (set_pending
            {| tbl_dashboards := tbl_dashboards (pending s);
               tbl_slices := tbl_slices (pending s) |} (log (EvDelete []) s)
          = log (EvDelete []) s) as ->.
  { unfold set_pending, log. simpl. by destruct (pending s). }
  destruct commit.
  - unfold session_commit. simpl. rewrite (Hc eq_refl).
    eexists. split; [reflexivity|]. simpl. by rewrite <- app_assoc.
  - eexists. split; [reflexivity|]. auto.
Qed.

(** *** The UUID annotation *)

Lemma find_app {A} (p : A -> bool) (l l' : list A) :
  List.find p (l ++ l') =
  match List.find p l with Some x => Some x | None => List.find p l' end.
Proof.
  induction l as [|x l IH]; simpl; [done|]. by destruct (p x).
Qed.

Lemma uuid_map_fold (m : gmap Z string) (cs : list Slice.t) (n : Z) :
  foldl (fun m slc => <[Slice.id slc := Slice.uuid slc]> m) m cs !! n =
  match List.find (fun slc => Slice.id slc =? n) (rev cs) with
  | Some slc => Some (Slice.uuid slc)
  | None => m !! n
  end.
Proof.
  revert m. induction cs as [|x cs IH]; intros m; simpl; [done|].
  rewrite IH, find_app.
  destruct (List.find (fun slc => Slice.id slc =? n) (rev cs)); [done|]. simpl.
  destruct (Z.eqb_spec (Slice.id x) n) as [->|Hne].
  - apply lookup_insert_eq.
  - by apply lookup_insert_ne.
Qed.

(** The dict built from the resolved charts maps an id to the UUID of
    the chart with that id. *)
Lemma uuid_map_of_lookup (cs : list Slice.t) (n : Z) :
  uuid_map_of cs !! n =
  option_map Slice.uuid (List.find (fun slc => Slice.id slc =? n) (rev cs)).
Proof.
  unfold uuid_map_of. rewrite uuid_map_fold.
  destruct (List.find (fun slc => Slice.id slc =? n) (rev cs)); [done|].
  apply lookup_empty.
Qed.

Lemma uuid_map_get_resolved (cs : list Slice.t) (chart_id : json) :
  py_hashable chart_id = true ->
  uuid_map_get (uuid_map_of cs) chart_id
  = Ok (json_of_uuid (resolved_uuid cs chart_id)).
Proof.
  unfold uuid_map_get, resolved_uuid.
  destruct chart_id; simpl; try done; intros _; by rewrite uuid_map_of_lookup.
Qed.

(** A chart id gets a UUID exactly when a resolved chart has that id. *)
Lemma resolved_uuid_some (cs : list Slice.t) (chart_id : json) (u : string) :
  resolved_uuid cs chart_id = Some u ->
  exists n slc,
    chart_key chart_id = Some n /\ In slc cs /\
    Slice.id slc = n /\ Slice.uuid slc = u.
Proof.
  unfold resolved_uuid. destruct (chart_key chart_id) as [n|]; [|discriminate].
  destruct (List.find (fun slc => Slice.id slc =? n) (rev cs)) as [slc|] eqn:Hfind;
    [|discriminate].
  intros [= <-]. apply find_some in Hfind as [Hin Heq].
  exists n, slc. repeat split; [by apply in_rev | by apply Z.eqb_eq].
Qed.

Lemma resolved_uuid_none (cs : list Slice.t) (chart_id : json) (n : Z) :
  chart_key chart_id = Some n ->
  (forall slc, In slc cs -> Slice.id slc <> n) ->
  resolved_uuid cs chart_id = None.
Proof.
  intros Hkey Hnone. unfold resolved_uuid. rewrite Hkey.
  destruct (List.find (fun slc => Slice.id slc =? n) (rev cs)) as [slc|] eqn:Hfind;
    [|done].
  apply find_some in Hfind as [Hin Heq]. apply in_rev in Hin.
  apply Z.eqb_eq in Heq. by destruct (Hnone slc Hin).
Qed.

Lemma annotate_node_well_formed (cs : list Slice.t) (obj : json) :
  node_well_formed obj = true ->
  exists obj',
    annotate_node (uuid_map_of cs) obj = Ok obj' /\
    forall o m chart_id,
      obj = JObj o ->
      dict_get "type" o = Some (JStr "CHART") ->
      dict_get "meta" o = Some (JObj m) ->
      dict_get "chartId" m = Some chart_id ->
      py_truthy chart_id = true ->
      exists o' m',
        obj' = JObj o' /\
        dict_get "meta" o' = Some (JObj m') /\
        dict_get "uuid" m' = Some (json_of_uuid (resolved_uuid cs chart_id)).
Proof.
  destruct obj as [| | | | |o]; try (intros _; eexists; split; [reflexivity|]; discriminate).
  unfold node_well_formed, annotate_node, getitem.
  destruct (dict_get "type" o) as [ty|] eqn:Hty; [|discriminate]. simpl.
  destruct (py_eq_str ty "CHART") eqn:Hchart.
  - destruct (dict_get "meta" o) as [[| | | | |m]|] eqn:Hmeta; try discriminate.
    simpl. unfold getitem.
    destruct (dict_get "chartId" m) as [c|] eqn:Hc; [|discriminate]. simpl.
    intros Hwf. destruct (py_truthy c) eqn:Htruthy.
    + simpl in Hwf. rewrite uuid_map_get_resolved by done. simpl.
      eexists. split; [reflexivity|].
      intros o0 m0 c0 [= <-] _ Hm0 Hc0 _.
      rewrite Hmeta in Hm0. injection Hm0 as <-.
      rewrite Hc in Hc0. injection Hc0 as <-.
      do 2 eexists. split; [reflexivity|].
      split; apply dict_get_set_eq.
    + eexists. split; [reflexivity|].
      intros o0 m0 c0 [= <-] _ Hm0 Hc0 Ht.
      rewrite Hmeta in Hm0. injection Hm0 as <-.
      rewrite Hc in Hc0. injection Hc0 as <-. congruence.
  - intros _. eexists. split; [reflexivity|].
    intros o0 m0 c0 [= <-] Hty0. rewrite Hty in Hty0. injection Hty0 as ->.
    discriminate.
Qed.

(** C5 (amended).  On a positions document in which every dict entry has
    a [type], and every dict entry of type CHART has a dict [meta] whose
    [chartId] is falsy or hashable, the annotation loop does not raise, it
    keeps the keys of the document, and every dict entry of type CHART
    with a truthy chart id receives a [uuid] equal to the external UUID of
    the resolved chart with that id, or null when no resolved chart has
    that id. *)
Theorem chart_nodes_receive_uuid
    (current_slices : list Slice.t) (positions : list (string * json)) :
  positions_well_formed positions = true ->
  exists positions' : list (string * json),
    annotate_positions (uuid_map_of current_slices) positions = Ok positions' /\
    List.map fst positions' = List.map fst positions /\
    forall (i : nat) k o m chart_id,
      positions !! i = Some (k, JObj o) ->
      dict_get "type" o = Some (JStr "CHART") ->
      dict_get "meta" o = Some (JObj m) ->
      dict_get "chartId" m = Some chart_id ->
      py_truthy chart_id = true ->
      exists o' m',
        positions' !! i = Some (k, JObj o') /\
        dict_get "meta" o' = Some (JObj m') /\
        dict_get "uuid" m' =
          Some (json_of_uuid (resolved_uuid current_slices chart_id)).
Proof.
  induction positions as [|[k0 obj] rest IH]; simpl.
  - intros _. exists []. repeat split. intros i k o m c Hi. by destruct i.
  - intros Hwf. apply andb_prop in Hwf as [Hnode Hrest].
    destruct (annotate_node_well_formed current_slices obj Hnode) as (obj' & Hobj & Hspec).
    destruct (IH Hrest) as (rest' & Hr & Hkeys & Hspec').
    exists ((k0, obj') :: rest'). rewrite Hobj. simpl. rewrite Hr. simpl.
    split; [done|]. split; [by rewrite Hkeys|].
    intros [|i] k o m c Hi Hty Hmeta Hc Ht; simpl in Hi.
    + injection Hi as -> ->.
      destruct (Hspec o m c eq_refl Hty Hmeta Hc Ht) as (o' & m' & -> & ? & ?).
      by exists o', m'.
    + by apply (Hspec' i k o m c).
Qed.

(** The position document of the returned dashboard is the compact
    serialization of the positions annotated with the UUIDs of the charts
    that became the dashboard's charts. *)
Lemma set_dash_metadata_position_json
    dashboard data old_to_new commit s dashboard' data' s' :
  get_or_none "positions" data <> JNull ->
  set_dash_metadata dashboard data old_to_new commit s = (Ok (dashboard', data'), s') ->
  exists positions positions',
    get_or_none "positions" data = JObj positions /\
    annotate_positions (uuid_map_of (Dashboard.slices dashboard')) positions
      = Ok positions' /\
    Dashboard.position_json dashboard' = json_dumps_compact_sorted (JObj positions') /\
    get_or_none "positions" data' = JObj positions'.
Proof.
  intros Hpos H.
  apply set_dash_metadata_positions_ok in H
    as (md & rp & md1 & _ & Hrp & _ & -> & -> & _); [|done].
  apply resolve_positions_ok in Hrp
    as (pos & sids & pos' & Hp & _ & _ & Ha & _ & Hd & Hdata & _ & _).
  pose proof (write_back_frame (rp_dashboard rp) (rp_data rp)
                (rp_new_filter_scopes rp) md1) as (F1 & F2 & _).
  exists pos, pos'. rewrite F1, F2, Hd, Hdata. simpl.
  repeat split; try done.
  unfold get_or_none. by rewrite dict_get_set_eq.
Qed.

(** *** Default filters with a key that is not an integer *)

Lemma applicable_filters_bad_key (items : pydict) (key : string) :
  In key (List.map fst items) ->
  py_int key = None ->
  exists bad,
    In bad (List.map fst items) /\ py_int bad = None /\
    forall slice_ids, applicable_filters slice_ids items = Err (ValueError bad).
Proof.
  induction items as [|[k v] rest IH]; simpl; [done|].
  intros Hin Hkey. destruct (py_int k) as [n|] eqn:Hk.
  - destruct Hin as [->|Hin]; [congruence|].
    destruct (IH Hin Hkey) as (bad & Hbad & Hnone & Hfail).
    exists bad. repeat split; auto.
    intros slice_ids. by rewrite Hfail.
  - exists k. repeat split; auto.
Qed.

Lemma applicable_filters_total (slice_ids : list json) (items : pydict) :
  (forall key, In key (List.map fst items) -> py_int key <> None) ->
  exists applicable, applicable_filters slice_ids items = Ok applicable.
Proof.
  induction items as [|[k v] rest IH]; simpl; intros Hall; [by eexists|].
  destruct (py_int k) as [n|] eqn:Hk.
  - destruct IH as (rest' & ->); [by auto|]. simpl. by eexists.
  - exfalso. apply (Hall k); auto.
Qed.

(** C6 (amended).  Take an update payload with positions whose
    default-filters document parses to a dict.  If one of its keys does not
    parse as an integer, [set_dash_metadata] never returns: it raises, and
    it raises the integer-parse error of such a key whenever the steps
    before the default filters (reading the stored metadata, lines 199 to
    244) have completed.  If every key parses as an integer, the default
    filters raise nothing: once those earlier steps have completed the
    call returns, unless the commit fails. *)
Theorem default_filter_keys_must_parse
    dashboard data old_to_new commit s default_filters_data :
  get_or_none "positions" data <> JNull ->
  json_loads_value (get_or "default_filters" (JStr "{}") data)
    = Ok (JObj default_filters_data) ->
  ((exists key, In key (List.map fst default_filters_data) /\ py_int key = None) ->
   (exists e, fst (set_dash_metadata dashboard data old_to_new commit s) = Err e) /\
   (forall md rp s1,
      params_dict dashboard = Ok md ->
      resolve_positions dashboard data old_to_new (get_or_none "positions" data) s
        = (Ok rp, s1) ->
      exists bad,
        In bad (List.map fst default_filters_data) /\ py_int bad = None /\
        set_dash_metadata dashboard data old_to_new commit s
          = (Err (ValueError bad), s))) /\
  ((forall key, In key (List.map fst default_filters_data) -> py_int key <> None) ->
   forall md rp s1,
     params_dict dashboard = Ok md ->
     resolve_positions dashboard data old_to_new (get_or_none "positions" data) s
       = (Ok rp, s1) ->
     (commit = true -> fault_commit (faults s) = None) ->
     exists dashboard' s',
       set_dash_metadata dashboard data old_to_new commit s
         = (Ok (dashboard', rp_data rp), s')).
Proof.
  intros Hpos Hloads.
  assert (forall md rp s1,
            params_dict dashboard = Ok md ->
            resolve_positions dashboard data old_to_new
              (get_or_none "positions" data) s = (Ok rp, s1) ->
            s1 = s /\
            filter_default_filters (rp_data rp) (rp_slice_ids rp) md =
              (let? applicable :=
                 applicable_filters (rp_slice_ids rp) default_filters_data in
               Ok (dict_pop "positions"
                     (dict_set "default_filters"
                        (JStr (json_dumps (JObj applicable))) md)))) as Hstep.
  { intros md rp s1 Hmd Hrp.
    pose proof (resolve_positions_ok _ _ _ _ _ _ _ Hrp)
      as (pos & sids & pos' & _ & _ & _ & _ & _ & _ & Hdata & _ & ->).
    split; [done|]. unfold filter_default_filters.
    rewrite Hdata, get_or_set_ne by discriminate. by rewrite Hloads. }
  split.
  - intros (key & Hin & Hkey).
    destruct (applicable_filters_bad_key _ _ Hin Hkey) as (bad & Hbad & Hnone & Hfail).
    assert (forall md rp s1,
              params_dict dashboard = Ok md ->
              resolve_positions dashboard data old_to_new
                (get_or_none "positions" data) s = (Ok rp, s1) ->
              set_dash_metadata dashboard data old_to_new commit s
                = (Err (ValueError bad), s)) as Hraise.
    { intros md rp s1 Hmd Hrp.
      destruct (Hstep md rp s1 Hmd Hrp) as [-> Hf].
      rewrite (set_dash_metadata_after_resolve _ _ _ _ _ _ _ _ Hpos Hmd Hrp).
      by rewrite Hf, Hfail. }
    split.
    + destruct (params_dict dashboard) as [md|e] eqn:Hmd.
      * destruct (resolve_positions dashboard data old_to_new
                    (get_or_none "positions" data) s) as [[rp|e] s1] eqn:Hrp.
        -- rewrite (Hraise md rp s1 eq_refl eq_refl). by eexists.
        -- exists e. unfold set_dash_metadata, bind, lift. rewrite Hmd.
           rewrite if_positions_present by done.
           unfold reconcile_positions, bind. by rewrite Hrp.
      * exists e. unfold set_dash_metadata, bind, lift. by rewrite Hmd.
    + intros md rp s1 Hmd Hrp. exists bad. eauto.
  - intros Hall md rp s1 Hmd Hrp Hcommit.
    destruct (Hstep md rp s1 Hmd Hrp) as [-> Hf].
    destruct (applicable_filters_total (rp_slice_ids rp) _ Hall) as (applicable & Ha).
    rewrite (set_dash_metadata_after_resolve _ _ _ _ _ _ _ _ Hpos Hmd Hrp).
    rewrite Hf, Ha. simpl.
    destruct commit; [|by do 2 eexists].
    unfold session_commit. simpl. rewrite (Hcommit eq_refl). by do 2 eexists.
Qed.

(** *** Applying the same update twice *)

Lemma dict_set_set k v v' d : dict_set k v (dict_set k v' d) = dict_set k v d.
Proof.
  induction d as [|[k0 v0] d IH]; simpl.
  - by rewrite String.eqb_refl.
  - destruct (String.eqb k0 k) eqn:E; simpl; rewrite E; [done | by rewrite IH].
Qed.

(** What the annotation loop does to one entry: nothing, or a [uuid] set
    in the [meta] of a dict entry. *)
Lemma annotate_node_shape (uuid_map : gmap Z string) (obj obj' : json) :
  annotate_node uuid_map obj = Ok obj' ->
  obj' = obj \/
  exists o ty m chart_id u,
    obj = JObj o /\
    dict_get "type" o = Some ty /\ py_eq_str ty "CHART" = true /\
    dict_get "meta" o = Some (JObj m) /\
    dict_get "chartId" m = Some chart_id /\ py_truthy chart_id = true /\
    uuid_map_get uuid_map chart_id = Ok u /\
    obj' = JObj (dict_set "meta" (JObj (dict_set "uuid" u m)) o).
Proof.
  destruct obj as [| | | | |o]; try (intros [= <-]; by left).
  unfold annotate_node, getitem.
  destruct (dict_get "type" o) as [ty|] eqn:Hty; [|discriminate]. simpl.
  destruct (py_eq_str ty "CHART") eqn:Hchart; [|intros [= <-]; by left].
  destruct (dict_get "meta" o) as [meta|] eqn:Hmeta; [|discriminate]. simpl.
  destruct meta as [| | | | |m]; try discriminate. simpl. unfold getitem.
  destruct (dict_get "chartId" m) as [c|] eqn:Hc; [|discriminate]. simpl.
  destruct (py_truthy c) eqn:Ht; [|intros [= <-]; by left].
  destruct (uuid_map_get uuid_map c) as [u|] eqn:Hu; [|discriminate]. simpl.
  intros [= <-]. right. exists o, ty, m, c, u. auto 10.
Qed.

Lemma annotate_node_fixed (uuid_map : gmap Z string) (obj obj' : json) :
  annotate_node uuid_map obj = Ok obj' ->
  annotate_node uuid_map obj' = Ok obj'.
Proof.
  intros H.
  destruct (annotate_node_shape _ _ _ H)
    as [->|(o & ty & m & c & u & -> & Hty & Hchart & Hmeta & Hc & Ht & Hu & ->)];
    [done|].
  unfold annotate_node, getitem.
  rewrite dict_get_set_ne, Hty by discriminate. simpl. rewrite Hchart.
  rewrite dict_get_set_eq. simpl. unfold getitem.
  rewrite dict_get_set_ne, Hc by discriminate. simpl. rewrite Ht, Hu. simpl.
  by rewrite !dict_set_set.
Qed.

Lemma annotate_positions_fixed (uuid_map : gmap Z string) (positions positions' : pydict) :
  annotate_positions uuid_map positions = Ok positions' ->
  annotate_positions uuid_map positions' = Ok positions'.
Proof.
  revert positions'. induction positions as [|[k obj] rest IH]; simpl; intros positions' H.
  - by injection H as <-.
  - apply rbind_ok in H as (obj' & Hobj & H).
    apply rbind_ok in H as (rest' & Hrest & H). injection H as <-. simpl.
    by rewrite (annotate_node_fixed _ _ _ Hobj), (IH _ Hrest).
Qed.

(** The annotation changes neither which entries are dicts nor the chart
    ids found in them. *)
Lemma slice_ids_of_annotated (uuid_map : gmap Z string) (positions positions' : pydict) :
  annotate_positions uuid_map positions = Ok positions' ->
  slice_ids_of (List.map snd positions') = slice_ids_of (List.map snd positions).
Proof.
  revert positions'. induction positions as [|[k obj] rest IH]; simpl; intros positions' H.
  - by injection H as <-.
  - apply rbind_ok in H as (obj' & Hobj & H).
    apply rbind_ok in H as (rest' & Hrest & H). injection H as <-. simpl.
    rewrite (IH _ Hrest).
    destruct (annotate_node_shape _ _ _ Hobj)
      as [->|(o & ty & m & c & u & -> & Hty & Hchart & Hmeta & Hc & Ht & Hu & ->)];
      [done|].
    assert (chart_id_of (dict_set "meta" (JObj (dict_set "uuid" u m)) o)
            = chart_id_of o) as ->; [|done].
    unfold chart_id_of, get_or, get_or_none.
    rewrite dict_get_set_eq, Hmeta. by rewrite dict_get_set_ne by discriminate.
Qed.

Lemma write_back_twice dashboard data new_filter_scopes md position_json slices :
  let first :=
    write_back
      (Dashboard.with_position_json position_json
         (Dashboard.with_slices slices dashboard))
      data new_filter_scopes md in
  write_back
    (Dashboard.with_position_json position_json (Dashboard.with_slices slices first))
    data new_filter_scopes (reconcile_metadata data new_filter_scopes md)
  = first.
Proof.
  unfold write_back. rewrite reconcile_metadata_fixed.
  destruct (get_or_none "css" data), (get_or_none "dashboard_title" data);
    reflexivity.
Qed.

(** C4 (amended).  Take an update payload with positions on which
    [set_dash_metadata] returns, and call it a second time on the returned
    dashboard, in the session as the first call left it, with the same
    payload (as it was given, or as the first call left it with its
    positions annotated), the same id remapping and the same commit flag.
    Whenever the second call returns, it returns the same serialized
    position document, the same charts and the same payload as the first.
    If moreover the dashboard returned by the first call reads back,
    through [params_dict], the metadata document that the call serialized
    into it, the second call does return, and returns the very same
    dashboard: the same serialized metadata document and the same
    serialized position document. *)
Theorem set_dash_metadata_twice
    dashboard data old_to_new commit s dashboard1 data1 s1 :
  get_or_none "positions" data <> JNull ->
  set_dash_metadata dashboard data old_to_new commit s = (Ok (dashboard1, data1), s1) ->
  forall data2, data2 = data \/ data2 = data1 ->
  (forall dashboard2 data2' s2,
     set_dash_metadata dashboard1 data2 old_to_new commit s1
       = (Ok (dashboard2, data2'), s2) ->
     Dashboard.position_json dashboard2 = Dashboard.position_json dashboard1 /\
     Dashboard.slices dashboard2 = Dashboard.slices dashboard1 /\
     data2' = data1) /\
  ((forall md po s',
      params_dict dashboard = Ok md ->
      if_positions dashboard data old_to_new md s = (Ok po, s') ->
      params_dict dashboard1 =
        Ok (reconcile_metadata (po_data po) (po_new_filter_scopes po) (po_md po))) ->
   exists dashboard2 s2,
     set_dash_metadata dashboard1 data2 old_to_new commit s1
       = (Ok (dashboard2, data1), s2) /\
     Dashboard.json_metadata dashboard2 = Dashboard.json_metadata dashboard1 /\
     Dashboard.position_json dashboard2 = Dashboard.position_json dashboard1 /\
     dashboard2 = dashboard1).
Proof.
  intros Hpos H data2 Hdata2.
  pose proof (set_dash_metadata_ok _ _ _ _ _ _ _ _ H)
    as (md & po & s0 & Hmd & Hif & Hd1 & Hdata1 & Hc).
  assert ((forall md po s',
             params_dict dashboard = Ok md ->
             if_positions dashboard data old_to_new md s = (Ok po, s') ->
             params_dict dashboard1 =
               Ok (reconcile_metadata (po_data po) (po_new_filter_scopes po) (po_md po))) ->
          params_dict dashboard1 =
            Ok (reconcile_metadata (po_data po) (po_new_filter_scopes po) (po_md po)))
    as Hread by (intros Hr; exact (Hr md po s0 Hmd Hif)).
  rewrite if_positions_present in Hif by done.
  apply reconcile_positions_ok in Hif as (rp & Hrp & Hdf & Hpd & Hpdata & Hpn).
  rewrite Hpd, Hpdata, Hpn in Hd1. rewrite Hpdata, Hpn in Hread.
  rewrite Hpdata in Hdata1. clear Hpd Hpdata Hpn.
  apply resolve_positions_ok in Hrp
    as (pos & sids & pos' & Hp & Hs & Hq & Ha & Hn & Hrd & Hrdata & Hrs & ->).
  apply filter_default_filters_ok in Hdf as (dfd & applicable & Hl & Happ & Hmd1).
  rewrite Hrdata in Hd1, Hread, Hdata1, Hl. rewrite Hrs in Happ. rewrite Hrd in Hd1.
  set (cs := List.filter (fun slc => sql_in (Slice.id slc) sids) (tbl_slices (pending s)))
    in *.
  set (dataA := dict_set "positions" (JObj pos') data) in *.
  set (nfs := rp_new_filter_scopes rp) in *.
  set (X := JStr (json_dumps (JObj applicable))) in *.
  rewrite Hmd1 in Hd1, Hread. clear Hmd1 Hrd Hrdata Hrs.
  set (mdA := dict_pop "positions" (dict_set "default_filters" X md)) in *.
  set (R := reconcile_metadata dataA nfs mdA) in *.
  subst data1.
  (* the session after the first call *)
  assert (pending s1 = pending s /\ faults s1 = faults s /\
          (commit = true -> fault_commit (faults s) = None)) as (Hpend & Hfaults & Hcommit).
  { destruct commit.
    - apply session_commit_ok in Hc as (? & ? & ? & ?). auto.
    - subst s1. repeat split. discriminate. }
  (* the positions of the second payload *)
  assert (exists p2,
            get_or_none "positions" data2 = JObj p2 /\
            slice_ids_of (List.map snd p2) = Ok sids /\
            annotate_positions (uuid_map_of cs) p2 = Ok pos' /\
            dict_set "positions" (JObj pos') data2 = dataA) as (p2 & Hp2 & Hs2 & Ha2 & Hd2).
  { destruct Hdata2 as [->| ->].
    - exists pos. auto.
    - exists pos'. unfold dataA, get_or_none.
      rewrite dict_get_set_eq, dict_set_set.
      rewrite (slice_ids_of_annotated _ _ _ Ha), (annotate_positions_fixed _ _ _ Ha).
      auto. }
  assert (get_or_none "positions" data2 <> JNull) as Hpos2 by (rewrite Hp2; discriminate).
  split.
  { (* a second call that returns *)
    intros dashboard2 data2' s2 H2.
    apply set_dash_metadata_ok in H2 as (md2 & po2 & s0' & _ & Hif2 & -> & -> & _).
    rewrite if_positions_present in Hif2 by done.
    apply reconcile_positions_ok in Hif2 as (rp2 & Hrp2 & _ & -> & -> & _).
    apply resolve_positions_ok in Hrp2
      as (posb & sidsb & posb' & Hpb & Hsb & _ & Hab & _ & -> & -> & _ & _).
    rewrite Hp2 in Hpb. injection Hpb as <-.
    rewrite Hs2 in Hsb. injection Hsb as <-.
    rewrite Hpend in Hab. fold cs in Hab. rewrite Ha2 in Hab. injection Hab as <-.
    rewrite Hpend. fold cs. rewrite Hd2.
    match goal with
    | |- context [write_back ?d ?dt ?n ?m] =>
        destruct (write_back_frame d dt n m) as (-> & -> & _)
    end.
    rewrite Hd1.
    match goal with
    | |- context [write_back ?d ?dt ?n ?m] =>
        destruct (write_back_frame d dt n m) as (-> & -> & _)
    end.
    done. }
  intros Hback. specialize (Hread Hback). clear Hback.
  (* lines 199 to 244, second call *)
  assert (resolve_positions dashboard1 data2 old_to_new
            (get_or_none "positions" data2) s1
          = (Ok {| rp_dashboard :=
                     Dashboard.with_position_json
                       (json_dumps_compact_sorted (JObj pos'))
                       (Dashboard.with_slices cs dashboard1);
                   rp_data := dataA;
                   rp_slice_ids := sids;
                   rp_new_filter_scopes := nfs |}, s1)) as Hrp2.
  { rewrite Hp2.
    pose proof (resolve_positions_run dashboard1 data2 old_to_new p2 s1 sids pos' nfs)
      as Hrun.
    simpl in Hrun. rewrite Hpend, Hfaults, Hd2 in Hrun. fold cs in Hrun.
    by apply Hrun. }
  rewrite (set_dash_metadata_after_resolve _ _ _ _ _ _ _ _ Hpos2 Hread Hrp2). simpl.
  (* lines 246 to 255, second call *)
  assert (filter_default_filters dataA sids R = Ok R) as ->.
  { unfold filter_default_filters. rewrite Hl. simpl. rewrite Happ. simpl.
    fold X. f_equal.
    rewrite (dict_set_id "default_filters" X R).
    - apply dict_pop_id. unfold R.
      rewrite reconcile_metadata_other
        by not_reconciled_key.
      apply dict_get_pop_eq.
    - unfold R.
      rewrite reconcile_metadata_other
        by not_reconciled_key.
      unfold mdA. rewrite dict_get_pop_ne by discriminate. apply dict_get_set_eq. }
  assert (write_back
            (Dashboard.with_position_json (json_dumps_compact_sorted (JObj pos'))
               (Dashboard.with_slices cs dashboard1)) dataA nfs R = dashboard1) as ->
    by (rewrite Hd1; apply write_back_twice).
  destruct commit.
  - unfold session_commit. simpl. rewrite Hfaults, (Hcommit eq_refl).
    by do 2 eexists.
  - by do 2 eexists.
Qed.

(** ** Further properties of the DAO *)

(** *** Lookup by id or slug *)

Lemma filter_nil_all_false {A} (p : A -> bool) (l : list A) :
  (forall x, In x l -> p x = false) -> List.filter p l = [].
Proof.
  induction l as [|x l IH]; simpl; intros H; [done|].
  rewrite (H x) by auto. apply IH. auto.
Qed.

Lemma filter_singleton {A} (p : A -> bool) (l : list A) (d : A) :
  List.filter p l = [d] ->
  In d l /\ p d = true /\ forall x, In x l -> p x = true -> x = d.
Proof.
  induction l as [|y l IH]; simpl; [discriminate|].
  destruct (p y) eqn:Hy.
  - intros [= -> Hrest]. repeat split; auto.
    intros x [->|Hx] Hpx; [done|].
    assert (In x (List.filter p l)) as Hin by (apply filter_In; auto).
    rewrite Hrest in Hin. destruct Hin.
  - intros H. destruct (IH H) as (Hin & Hp & Huniq). repeat split; auto.
    intros x [->|Hx] Hpx; [congruence | auto].
Qed.

(** X1.  When [get_by_id_or_slug] returns a dashboard, it is a row of the
    store that passes the id-or-slug filter and the access filter, no other
    row passes both, the session is left as it was, and
    [get_charts_for_dashboard] returns the charts of that dashboard. *)
Theorem get_by_id_or_slug_found (id_or_slug : string) (s s' : Session)
    (dashboard : Dashboard.t) :
  get_by_id_or_slug id_or_slug s = (Ok dashboard, s') ->
  s' = s /\
  In dashboard (tbl_dashboards (pending s)) /\
  id_or_slug_filter id_or_slug dashboard = true /\
  base_filter dashboard = true /\
  (forall d, In d (tbl_dashboards (pending s)) ->
             id_or_slug_filter id_or_slug d = true -> base_filter d = true ->
             d = dashboard) /\
  get_charts_for_dashboard id_or_slug s = (Ok (Dashboard.slices dashboard), s).
Proof.
  intros H.
  assert (get_charts_for_dashboard id_or_slug s
          = (Ok (Dashboard.slices dashboard), s')) as Hcharts
    by (unfold get_charts_for_dashboard, bind; by rewrite H).
  revert H Hcharts.
  unfold get_by_id_or_slug, bind, session_query_dashboards.
  destruct (fault_query (faults s)); [discriminate|].
  destruct (List.filter _ (tbl_dashboards (pending s))) as [|d [|d' rest]] eqn:Hf;
    try discriminate.
  intros [= -> <-] Hcharts.
  apply filter_singleton in Hf as (Hin & Hp & Huniq).
  apply andb_prop in Hp as [Hp1 Hp2].
  repeat split; auto.
  intros d0 Hd0 H1 H2. apply Huniq; [done|]. by rewrite H1, H2.
Qed.

(** X2.  When no row of the store passes both the id-or-slug filter and
    the access filter (the dashboard is missing, or it exists and access to
    it is denied), every lookup by id or slug raises
    [DashboardNotFoundError]: [get_by_id_or_slug],
    [get_charts_for_dashboard] and the three timestamp queries called with
    a string. *)
Theorem hidden_or_missing_dashboard_not_found (id_or_slug : string) (s : Session) :
  fault_query (faults s) = None ->
  (forall d, In d (tbl_dashboards (pending s)) ->
             id_or_slug_filter id_or_slug d = true -> base_filter d = false) ->
  get_by_id_or_slug id_or_slug s = (Err DashboardNotFoundError, s) /\
  get_charts_for_dashboard id_or_slug s = (Err DashboardNotFoundError, s) /\
  get_dashboard_changed_on (inl id_or_slug) s = (Err DashboardNotFoundError, s) /\
  get_dashboard_and_slices_changed_on (inl id_or_slug) s
    = (Err DashboardNotFoundError, s) /\
  get_dashboard_and_datasets_changed_on (inl id_or_slug) s
    = (Err DashboardNotFoundError, s).
Proof.
  intros Hq Hnone.
  assert (get_by_id_or_slug id_or_slug s = (Err DashboardNotFoundError, s)) as Hg.
  { unfold get_by_id_or_slug, bind, session_query_dashboards. rewrite Hq.
    rewrite filter_nil_all_false; [done|].
    intros d Hd. destruct (id_or_slug_filter id_or_slug d) eqn:E; [|done].
    simpl. by apply Hnone. }
  unfold get_charts_for_dashboard, get_dashboard_changed_on,
    get_dashboard_and_slices_changed_on, get_dashboard_and_datasets_changed_on,
    resolve_dashboard, bind.
  by rewrite Hg.
Qed.

(** *** Timestamps, continued *)

Lemma replace_microsecond_0_mono a b :
  a <= b -> replace_microsecond_0 a <= replace_microsecond_0 b.
Proof.
  intros H.
  destruct (replace_microsecond_0_bounds a) as [_ ->].
  destruct (replace_microsecond_0_bounds b) as [_ ->].
  pose proof (Z.div_le_mono a b 1000000 ltac:(lia) H). lia.
Qed.

Lemma truncated_latest_of_collections (dashboard : Dashboard.t) (s : Session) :
  (exists m,
     is_latest m (Dashboard.changed_on dashboard
                  :: or_epoch (List.map Slice.changed_on (Dashboard.slices dashboard))) /\
     get_dashboard_and_slices_changed_on (inr dashboard) s
       = (Ok (replace_microsecond_0 m), s)) /\
  (exists m,
     is_latest m (Dashboard.changed_on dashboard
                  :: or_epoch (List.map Datasource.changed_on
                                 (Dashboard.datasources dashboard))) /\
     get_dashboard_and_datasets_changed_on (inr dashboard) s
       = (Ok (replace_microsecond_0 m), s)).
Proof.
  split.
  - destruct (py_max_or_epoch (List.map Slice.changed_on (Dashboard.slices dashboard)))
      as (m & Hm & Hl).
    exists (Z.max (Dashboard.changed_on dashboard) m). split; [by apply is_latest_cons|].
    unfold get_dashboard_and_slices_changed_on, get_dashboard_changed_on,
      resolve_dashboard, bind, ret, lift.
    rewrite length_map in Hm. rewrite Hm.
    by rewrite replace_microsecond_0_max.
  - destruct (py_max_or_epoch
                (List.map Datasource.changed_on (Dashboard.datasources dashboard)))
      as (m & Hm & Hl).
    exists (Z.max (Dashboard.changed_on dashboard) m). split; [by apply is_latest_cons|].
    unfold get_dashboard_and_datasets_changed_on, get_dashboard_changed_on,
      resolve_dashboard, bind, ret, lift.
    rewrite length_map in Hm. rewrite Hm.
    by rewrite replace_microsecond_0_max.
Qed.

(** X3.  For a dashboard object [get_dashboard_changed_on] returns, without
    touching the session, the start of the second in which the dashboard
    was changed: a multiple of one second that is not later than the change
    and less than one second before it. *)
Theorem dashboard_changed_on_whole_second (dashboard : Dashboard.t) (s : Session) :
  exists t,
    get_dashboard_changed_on (inr dashboard) s = (Ok t, s) /\
    t mod 1000000 = 0 /\
    t <= Dashboard.changed_on dashboard < t + 1000000.
Proof.
  exists (replace_microsecond_0 (Dashboard.changed_on dashboard)).
  split; [reflexivity|].
  destruct (replace_microsecond_0_bounds (Dashboard.changed_on dashboard)) as [Hb Hq].
  split; [|done]. rewrite Hq, Z.mul_comm. apply Z.mod_mul. lia.
Qed.

(** X4.  For a dashboard object the timestamp that takes the charts into
    account is a whole second, is never earlier than the dashboard's own
    truncated timestamp, and is never earlier than the truncated change
    timestamp of any of its charts; the same holds for the datasets. *)
Theorem combined_changed_on_dominates (dashboard : Dashboard.t) (s : Session) :
  exists t0 t1 t2,
    get_dashboard_changed_on (inr dashboard) s = (Ok t0, s) /\
    get_dashboard_and_slices_changed_on (inr dashboard) s = (Ok t1, s) /\
    get_dashboard_and_datasets_changed_on (inr dashboard) s = (Ok t2, s) /\
    t0 <= t1 /\ t0 <= t2 /\
    t1 mod 1000000 = 0 /\ t2 mod 1000000 = 0 /\
    (forall slc, In slc (Dashboard.slices dashboard) ->
                 replace_microsecond_0 (Slice.changed_on slc) <= t1) /\
    (forall ds, In ds (Dashboard.datasources dashboard) ->
                replace_microsecond_0 (Datasource.changed_on ds) <= t2).
Proof.
  destruct (truncated_latest_of_collections dashboard s)
    as ((m1 & [Hin1 Hub1] & H1) & (m2 & [Hin2 Hub2] & H2)).
  exists (replace_microsecond_0 (Dashboard.changed_on dashboard)),
    (replace_microsecond_0 m1), (replace_microsecond_0 m2).
  assert (forall (l : list datetime) y, In y l -> In y (or_epoch l)) as Hor
    by (by intros [|x l] y Hy).
  assert (forall m, replace_microsecond_0 m mod 1000000 = 0) as Hmod.
  { intros m. destruct (replace_microsecond_0_bounds m) as [_ ->].
    rewrite Z.mul_comm. apply Z.mod_mul. lia. }
  repeat split; auto.
  - apply replace_microsecond_0_mono, Hub1. by left.
  - apply replace_microsecond_0_mono, Hub2. by left.
  - intros slc Hslc. apply replace_microsecond_0_mono, Hub1. right.
    apply Hor. by apply in_map.
  - intros ds Hds. apply replace_microsecond_0_mono, Hub2. right.
    apply Hor. by apply in_map.
Qed.

(** *** Slugs, continued *)

Lemma slug_is_true (slug : string) (d : Dashboard.t) :
  slug_is slug d = true <-> Dashboard.slug d = Some slug.
Proof.
  unfold slug_is. destruct (Dashboard.slug d) as [x|]; [|done].
  rewrite String.eqb_eq. split; congruence.
Qed.

Lemma existsb_false_iff {A} (p : A -> bool) (l : list A) :
  existsb p l = false <-> forall x, In x l -> p x = false.
Proof.
  induction l as [|y l IH]; simpl; [done|].
  rewrite orb_false_iff, IH. split.
  - intros [Hy Hl] x [->|Hx]; auto.
  - intros H. split; auto.
Qed.

(** X5.  For a slug that is not empty, and a store whose query does not
    raise, [validate_slug_uniqueness] returns true exactly when no
    dashboard of the store has that slug; it does not change the session. *)
Theorem slug_unique_iff_no_dashboard_has_it (slug : string) (s : Session) :
  slug <> EmptyString ->
  fault_query (faults s) = None ->
  exists b,
    validate_slug_uniqueness (Some slug) s = (Ok b, s) /\
    (b = true <->
     forall d, In d (tbl_dashboards (pending s)) -> Dashboard.slug d <> Some slug).
Proof.
  intros Hne Hq. destruct slug as [|c slug]; [done|].
  unfold validate_slug_uniqueness, bind, session_query_dashboards, ret.
  rewrite Hq, filter_nonempty_existsb.
  eexists. split; [reflexivity|].
  rewrite negb_true_iff, existsb_false_iff.
  split; intros H d Hd.
  - intros Hs. apply slug_is_true in Hs. specialize (H d Hd). congruence.
  - destruct (slug_is (String c slug) d) eqn:E; [|done].
    apply slug_is_true in E. by destruct (H d Hd).
Qed.

(** X6.  For a slug that is given (the empty string included), and a store
    whose query does not raise, [validate_update_slug_uniqueness] returns
    true exactly when every dashboard of the store with that slug is the
    dashboard being updated; a dashboard may always keep its own slug. *)
Theorem update_slug_unique_iff_only_own (dashboard_id : Z) (slug : string)
    (s : Session) :
  fault_query (faults s) = None ->
  exists b,
    validate_update_slug_uniqueness dashboard_id (Some slug) s = (Ok b, s) /\
    (b = true <->
     forall d, In d (tbl_dashboards (pending s)) ->
               Dashboard.slug d = Some slug -> Dashboard.id d = dashboard_id).
Proof.
  intros Hq.
  unfold validate_update_slug_uniqueness, bind, session_query_dashboards, ret.
  rewrite Hq, filter_nonempty_existsb.
  eexists. split; [reflexivity|].
  rewrite negb_true_iff, existsb_false_iff.
  split; intros H d Hd.
  - intros Hs. apply slug_is_true in Hs. specialize (H d Hd).
    rewrite Hs in H. simpl in H. apply negb_false_iff in H. by apply Z.eqb_eq.
  - destruct (slug_is slug d) eqn:E; [|done]. simpl.
    apply slug_is_true in E. apply negb_false_iff, Z.eqb_eq. auto.
Qed.

(** X7.  A slug that is not empty and that the creation check reports
    unique is reported unique by the update check too, whatever dashboard
    is being updated. *)
Theorem creation_check_implies_update_check (slug : string) (dashboard_id : Z)
    (s s' : Session) :
  slug <> EmptyString ->
  validate_slug_uniqueness (Some slug) s = (Ok true, s') ->
  validate_update_slug_uniqueness dashboard_id (Some slug) s = (Ok true, s).
Proof.
  intros Hne. destruct slug as [|c slug]; [done|].
  unfold validate_slug_uniqueness, validate_update_slug_uniqueness, bind,
    session_query_dashboards, ret.
  destruct (fault_query (faults s)); [discriminate|].
  rewrite !filter_nonempty_existsb. intros [= H _]. do 2 f_equal.
  apply negb_true_iff in H. apply negb_true_iff.
  rewrite existsb_false_iff in H |- *.
  intros d Hd. by rewrite (H d Hd).
Qed.

(** *** Bulk delete, continued *)

Lemma filter_upsert (ids : list Z) (model : Dashboard.t) (rows : list Dashboard.t) :
  existsb (Z.eqb (Dashboard.id model)) ids = true ->
  List.filter (fun r => negb (existsb (Z.eqb (Dashboard.id r)) ids)) (upsert model rows)
  = List.filter (fun r => negb (existsb (Z.eqb (Dashboard.id r)) ids)) rows.
Proof.
  intros Hin. induction rows as [|r rows IH]; simpl.
  - by rewrite Hin.
  - destruct (Z.eqb_spec (Dashboard.id r) (Dashboard.id model)) as [E|E]; simpl.
    + by rewrite E, Hin.
    + by rewrite IH.
Qed.

(** The loop that detaches and merges the given dashboards, on a store
    whose merge does not raise. *)
Lemma detach_loop_run (ids : list Z) (ms : list Dashboard.t) (s : Session) :
  fault_merge (faults s) = None ->
  (forall m, In m ms -> existsb (Z.eqb (Dashboard.id m)) ids = true) ->
  exists s1,
    for_each ms (fun model => session_merge (detach model)) s = (Ok tt, s1) /\
    faults s1 = faults s /\
    committed s1 = committed s /\
    tbl_slices (pending s1) = tbl_slices (pending s) /\
    trace s1 = trace s ++ List.map (fun m => EvMerge (Dashboard.id m)) ms /\
    List.filter (fun r => negb (existsb (Z.eqb (Dashboard.id r)) ids))
      (tbl_dashboards (pending s1))
    = List.filter (fun r => negb (existsb (Z.eqb (Dashboard.id r)) ids))
        (tbl_dashboards (pending s)).
Proof.
  revert s. induction ms as [|m ms IH]; intros s Hf Hids; simpl.
  - exists s. by rewrite app_nil_r.
  - unfold bind, session_merge. simpl. rewrite Hf.
    match goal with
    | |- context [for_each ms _ ?s0] =>
        destruct (IH s0) as (s1 & Hrun & H1 & H2 & H3 & H4 & H5);
          [exact Hf | intros m' Hm'; apply Hids; by right |]
    end.
    exists s1. split; [done|]. simpl in *.
    repeat split; try done.
    + by rewrite H4, <- app_assoc.
    + rewrite H5. apply (filter_upsert ids (detach m)). apply (Hids m). by left.
Qed.

Lemma existsb_eqb_map_id (m : Dashboard.t) (ms : list Dashboard.t) :
  In m ms -> existsb (Z.eqb (Dashboard.id m)) (List.map Dashboard.id ms) = true.
Proof.
  intros H. apply existsb_exists. exists (Dashboard.id m).
  split; [by apply in_map | apply Z.eqb_refl].
Qed.

(** X8.  On a store that raises nothing, [bulk_delete] returns and the
    rows the session then sees are exactly the former rows whose id is not
    the id of a given dashboard: none of the given dashboards remains, every
    other row is kept as it was, and the charts are untouched.  The deletion
    is committed only when [commit] is set. *)
Theorem bulk_delete_removes_given_rows
    (models : option (list Dashboard.t)) (commit : bool) (s : Session) :
  fault_merge (faults s) = None ->
  fault_delete (faults s) = None ->
  (commit = true -> fault_commit (faults s) = None) ->
  let ids := List.map Dashboard.id (match models with Some ms => ms | None => [] end) in
  exists s',
    bulk_delete models commit s = (Ok tt, s') /\
    tbl_dashboards (pending s')
    = List.filter (fun r => negb (existsb (Z.eqb (Dashboard.id r)) ids))
        (tbl_dashboards (pending s)) /\
    tbl_slices (pending s') = tbl_slices (pending s) /\
    committed s' = (if commit then pending s' else committed s) /\
    (forall r, In r (tbl_dashboards (pending s')) -> ~ In (Dashboard.id r) ids).
Proof.
  intros Hm Hd Hc ids.
  assert (exists ms, (match models with Some ms => ms | None => [] end) = ms /\
                     bulk_delete models commit s = bulk_delete (Some ms) commit s)
    as (ms & Hms & ->).
  { destruct models as [[|m ms]|]; eexists; split; reflexivity. }
  subst ids. rewrite Hms. clear Hms models.
  destruct (detach_loop_run (List.map Dashboard.id ms) ms s Hm)
    as (s1 & Hrun & H1 & H2 & H3 & H4 & H5);
    [by intros m; apply existsb_eqb_map_id|].
  assert (detach_related (Some ms) s = (Ok tt, s1)) as Hdetach.
  { destruct ms as [|m ms]; [simpl in Hrun; by injection Hrun as <-|].
    unfold detach_related. exact Hrun. }
  assert (forall r,
            In r (List.filter
                    (fun r => negb (existsb (Z.eqb (Dashboard.id r))
                                      (List.map Dashboard.id ms)))
                    (tbl_dashboards (pending s))) ->
            ~ In (Dashboard.id r) (List.map Dashboard.id ms)) as Hgone.
  { intros r Hr Hin. apply filter_In in Hr as [_ Hr].
    apply negb_true_iff in Hr.
    assert (existsb (Z.eqb (Dashboard.id r)) (List.map Dashboard.id ms) = true);
      [|congruence].
    apply existsb_exists. exists (Dashboard.id r). split; [done | apply Z.eqb_refl]. }
  assert (bulk_delete (Some ms) commit s
          = try_except_sqlalchemy
              (let* _ := session_delete_dashboards_in (List.map Dashboard.id ms) in
               if commit then session_commit else ret tt)
              (fun ex => let* _ := session_rollback in raise ex) s1) as ->.
  { unfold bulk_delete, bind at 1. rewrite Hdetach. by destruct ms. }
  unfold try_except_sqlalchemy, bind, session_delete_dashboards_in. simpl.
  rewrite H1, Hd, H5.
  destruct commit.
  - unfold session_commit. simpl. rewrite H1, (Hc eq_refl).
    eexists. split; [reflexivity|]. simpl. auto.
  - unfold ret. eexists. split; [reflexivity|]. simpl. auto.
Qed.

(** X9.  An error of the bulk deletion, or of the commit after it, that is
    not a storage error is raised as it is, without rollback: the session
    records no rollback and keeps its committed rows. *)
Theorem bulk_delete_other_error_not_rolled_back
    (models : option (list Dashboard.t)) (commit : bool) (s s1 : Session) (e : exn) :
  detach_related models s = (Ok tt, s1) ->
  is_sqlalchemy_error e = false ->
  fault_delete (faults s) = Some e \/
  (fault_delete (faults s) = None /\ commit = true /\ fault_commit (faults s) = Some e) ->
  exists s' evs,
    bulk_delete models commit s = (Err e, s') /\
    trace s' = trace s1 ++ evs /\
    ~ In EvRollback evs /\
    committed s' = committed s.
Proof.
  intros Hdetach He Hfault.
  pose proof (detach_related_frame _ _ _ _ Hdetach) as [Hf Hc].
  unfold bulk_delete, bind. rewrite Hdetach.
  unfold try_except_sqlalchemy, bind, session_delete_dashboards_in. simpl.
  rewrite Hf.
  destruct Hfault as [Hd|(Hd & -> & Hcm)]; rewrite Hd.
  - rewrite He. do 2 eexists. split; [reflexivity|]. simpl.
    split; [reflexivity|]. split; [|done]. intros [H|[]]. discriminate H.
  - unfold session_commit. simpl. rewrite Hf, Hcm, He.
    do 2 eexists. split; [reflexivity|]. simpl. rewrite <- app_assoc.
    split; [reflexivity|]. split; [|done]. simpl. intros [H|[H|[]]]; discriminate H.
Qed.

(** X10.  An error raised while the first given dashboard is merged,
    storage error or not, leaves [bulk_delete] at once: no deletion is
    attempted and nothing is rolled back, since the loop that detaches the
    related data runs before the [try]. *)
Theorem bulk_delete_merge_error_escapes
    (m : Dashboard.t) (ms : list Dashboard.t) (commit : bool) (s : Session) (e : exn) :
  fault_merge (faults s) = Some e ->
  bulk_delete (Some (m :: ms)) commit s
  = (Err e, log (EvMerge (Dashboard.id m)) s).
Proof.
  intros Hf. unfold bulk_delete, bind, detach_related. simpl.
  unfold bind, session_merge. simpl. by rewrite Hf.
Qed.

(** *** What a call of [set_dash_metadata] that returns has done *)

Lemma dict_mem_set_ne k k' v d :
  k <> k' -> dict_mem k (dict_set k' v d) = dict_mem k d.
Proof. intros H. unfold dict_mem. by rewrite dict_get_set_ne. Qed.

Lemma old_filter_scopes_of_set_positions v data :
  old_filter_scopes_of (dict_set "positions" v data) = old_filter_scopes_of data.
Proof.
  unfold old_filter_scopes_of, getitem. by rewrite dict_get_set_ne by discriminate.
Qed.

(** The two ways through [if positions is not None:]. *)
Lemma if_positions_cases dashboard data old_to_new md s po s1 :
  if_positions dashboard data old_to_new md s = (Ok po, s1) ->
  s1 = s /\
  ((get_or_none "positions" data = JNull /\
    po = {| po_dashboard := dashboard; po_data := data;
            po_new_filter_scopes := JObj []; po_md := md |})
   \/
   (exists pos slice_ids pos' nfs dfd applicable,
      get_or_none "positions" data = JObj pos /\
      slice_ids_of (List.map snd pos) = Ok slice_ids /\
      fault_query (faults s) = None /\
      annotate_positions
        (uuid_map_of
           (List.filter (fun slc => sql_in (Slice.id slc) slice_ids)
              (tbl_slices (pending s)))) pos = Ok pos' /\
      (if dict_mem "filter_scopes" data then
         (let? slc_id_dict := slc_id_dict_of old_to_new slice_ids in
          let? old_filter_scopes := old_filter_scopes_of data in
          copy_filter_scopes slc_id_dict old_filter_scopes)
       else Ok (JObj [])) = Ok nfs /\
      json_loads_value (get_or "default_filters" (JStr "{}") data) = Ok (JObj dfd) /\
      applicable_filters slice_ids dfd = Ok applicable /\
      po = {| po_dashboard :=
                Dashboard.with_position_json (json_dumps_compact_sorted (JObj pos'))
                  (Dashboard.with_slices
                     (List.filter (fun slc => sql_in (Slice.id slc) slice_ids)
                        (tbl_slices (pending s))) dashboard);
              po_data := dict_set "positions" (JObj pos') data;
              po_new_filter_scopes := nfs;
              po_md :=
                dict_pop "positions"
                  (dict_set "default_filters"
                     (JStr (json_dumps (JObj applicable))) md) |})).
Proof.
  intros H.
  assert (get_or_none "positions" data = JNull \/ get_or_none "positions" data <> JNull)
    as [Hnull|Hpos] by (destruct (get_or_none "positions" data); auto).
  - unfold if_positions in H. rewrite Hnull in H. injection H as <- <-. auto.
  - rewrite if_positions_present in H by done.
    apply reconcile_positions_ok in H as (rp & Hrp & Hdf & Hd & Hdata & Hn).
    apply resolve_positions_ok in Hrp
      as (pos & sids & pos' & Hp & Hs & Hq & Ha & Hnfs & Hrd & Hrdata & Hrs & ->).
    apply filter_default_filters_ok in Hdf as (dfd & applicable & Hl & Happ & Hmd).
    rewrite Hrdata, get_or_set_ne in Hl by discriminate. rewrite Hrs in Happ.
    rewrite dict_mem_set_ne, old_filter_scopes_of_set_positions in Hnfs by discriminate.
    split; [done|]. right. exists pos, sids, pos', (rp_new_filter_scopes rp), dfd, applicable.
    repeat split; try done.
    destruct po as [pd pdata pn pmd]. simpl in *. congruence.
Qed.

(** The payload as [set_dash_metadata] leaves it differs from the payload
    it was given on [positions] only. *)
Lemma if_positions_data dashboard data old_to_new md s po s1 k :
  if_positions dashboard data old_to_new md s = (Ok po, s1) ->
  k <> "positions" ->
  dict_get k (po_data po) = dict_get k data.
Proof.
  intros H Hk. apply if_positions_cases in H
    as [_ [[_ ->]|(pos & sids & pos' & nfs & dfd & app & _ & _ & _ & _ & _ & _ & _ & ->)]];
    simpl; [done|]. by rewrite dict_get_set_ne.
Qed.

(** The values that lines 264 to 282 leave under the reconciled keys. *)
Lemma reconcile_metadata_keys data new_filter_scopes md :
  let md' := reconcile_metadata data new_filter_scopes md in
  dict_get "filter_scopes" md' =
    (if py_truthy new_filter_scopes then Some new_filter_scopes else None) /\
  dict_get "timed_refresh_immune_slices" md' =
    Some (match dict_get "timed_refresh_immune_slices" md with
          | Some v => v
          | None => JArr []
          end) /\
  dict_get "color_namespace" md' =
    match get_or_none "color_namespace" data with
    | JNull => None
    | v => Some v
    end /\
  dict_get "expanded_slices" md' = Some (get_or "expanded_slices" (JObj []) data) /\
  dict_get "refresh_frequency" md' = Some (get_or "refresh_frequency" (JInt 0) data) /\
  dict_get "color_scheme" md' = Some (get_or "color_scheme" (JStr "") data) /\
  dict_get "label_colors" md' = Some (get_or "label_colors" (JObj []) data) /\
  dict_get "shared_label_colors" md'
    = Some (get_or "shared_label_colors" (JObj []) data) /\
  dict_get "color_scheme_domain" md'
    = Some (get_or "color_scheme_domain" (JArr []) data) /\
  dict_get "cross_filters_enabled" md'
    = Some (get_or "cross_filters_enabled" (JBool true) data).
Proof.
  unfold reconcile_metadata. repeat split.
  - destruct (get_or_none "color_namespace" data), (py_truthy new_filter_scopes);
      by dict_get_simpl.
  - assert (forall d,
              dict_get "timed_refresh_immune_slices"
                (dict_setdefault "timed_refresh_immune_slices" (JArr []) d)
              = Some (match dict_get "timed_refresh_immune_slices" d with
                      | Some v => v
                      | None => JArr []
                      end)) as Hsd.
    { intros d. unfold dict_setdefault, dict_mem.
      destruct (dict_get "timed_refresh_immune_slices" d) eqn:E; [done|].
      by rewrite dict_get_app, E. }
    destruct (get_or_none "color_namespace" data), (py_truthy new_filter_scopes);
      dict_get_simpl; rewrite Hsd; by dict_get_simpl.
  - destruct (get_or_none "color_namespace" data); by dict_get_simpl.
  - by dict_get_simpl.
  - by dict_get_simpl.
  - by dict_get_simpl.
  - by dict_get_simpl.
  - by dict_get_simpl.
  - by dict_get_simpl.
  - by dict_get_simpl.
Qed.

(** X11.  When [set_dash_metadata] returns, the style sheet of the
    dashboard is the payload's [css] when the payload has one that is not
    null, and the former style sheet otherwise; the same holds for the title
    and [dashboard_title]. *)
Theorem css_and_title_overwritten_when_given
    dashboard data old_to_new commit s dashboard' data' s' :
  set_dash_metadata dashboard data old_to_new commit s = (Ok (dashboard', data'), s') ->
  Dashboard.css dashboard' =
    match get_or_none "css" data with
    | JNull => Dashboard.css dashboard
    | css => css
    end /\
  Dashboard.dashboard_title dashboard' =
    match get_or_none "dashboard_title" data with
    | JNull => Dashboard.dashboard_title dashboard
    | title => title
    end.
Proof.
  intros H.
  apply set_dash_metadata_ok in H as (md & po & s1 & _ & Hif & -> & _ & _).
  pose proof (if_positions_data _ _ _ _ _ _ _ "css" Hif ltac:(discriminate)) as Hcss.
  pose proof (if_positions_data _ _ _ _ _ _ _ "dashboard_title" Hif ltac:(discriminate))
    as Htitle.
  assert (Dashboard.css (po_dashboard po) = Dashboard.css dashboard /\
          Dashboard.dashboard_title (po_dashboard po)
          = Dashboard.dashboard_title dashboard) as [Hc Ht].
  { apply if_positions_cases in Hif
      as [_ [[_ ->]|(pos & sids & pos' & nfs & dfd & app & _ & _ & _ & _ & _ & _ & _ & ->)]];
      by simpl. }
  unfold write_back, get_or_none. rewrite Hcss, Htitle.
  fold (get_or_none "css" data). fold (get_or_none "dashboard_title" data).
  destruct (get_or_none "css" data), (get_or_none "dashboard_title" data); simpl; auto.
Qed.

(** X12.  When [set_dash_metadata] returns, the serialized metadata
    document holds, under each of the seven keys [expanded_slices],
    [refresh_frequency], [color_scheme], [label_colors],
    [shared_label_colors], [color_scheme_domain] and
    [cross_filters_enabled], the payload's value for the key when the
    payload has the key (a null included) and otherwise the default: empty
    dict, 0, empty string, empty dict, empty dict, empty list, true.  It has
    a [color_namespace] exactly when the payload's is not null. *)
Theorem metadata_keys_always_set
    dashboard data old_to_new commit s dashboard' data' s' :
  set_dash_metadata dashboard data old_to_new commit s = (Ok (dashboard', data'), s') ->
  exists md',
    Dashboard.json_metadata dashboard' = json_dumps (JObj md') /\
    dict_get "expanded_slices" md' = Some (get_or "expanded_slices" (JObj []) data) /\
    dict_get "refresh_frequency" md' = Some (get_or "refresh_frequency" (JInt 0) data) /\
    dict_get "color_scheme" md' = Some (get_or "color_scheme" (JStr "") data) /\
    dict_get "label_colors" md' = Some (get_or "label_colors" (JObj []) data) /\
    dict_get "shared_label_colors" md'
      = Some (get_or "shared_label_colors" (JObj []) data) /\
    dict_get "color_scheme_domain" md'
      = Some (get_or "color_scheme_domain" (JArr []) data) /\
    dict_get "cross_filters_enabled" md'
      = Some (get_or "cross_filters_enabled" (JBool true) data) /\
    dict_get "color_namespace" md' =
      match get_or_none "color_namespace" data with
      | JNull => None
      | v => Some v
      end.
Proof.
  intros H.
  apply set_dash_metadata_ok in H as (md & po & s1 & _ & Hif & -> & _ & _).
  assert (forall k dflt, k <> "positions" ->
                         get_or k dflt (po_data po) = get_or k dflt data) as Hget
    by (intros k dflt Hk; unfold get_or;
        by rewrite (if_positions_data _ _ _ _ _ _ _ k Hif Hk)).
  assert (get_or_none "color_namespace" (po_data po) = get_or_none "color_namespace" data)
    as Hns
    by (unfold get_or_none;
        by rewrite (if_positions_data _ _ _ _ _ _ _ "color_namespace" Hif
                      ltac:(discriminate))).
  destruct (reconcile_metadata_keys (po_data po) (po_new_filter_scopes po) (po_md po))
    as (_ & _ & F3 & F4 & F5 & F6 & F7 & F8 & F9 & F10).
  eexists. split; [apply write_back_json_metadata|].
  rewrite F3, F4, F5, F6, F7, F8, F9, F10, Hns, !Hget by discriminate.
  auto 10.
Qed.


(** X14.  When the payload has no positions (absent or null), or has no
    [filter_scopes] key, and [set_dash_metadata] returns, the serialized
    metadata document has no [filter_scopes] key, whether or not the stored
    document had one. *)
Theorem filter_scopes_dropped_when_not_given
    dashboard data old_to_new commit s dashboard' data' s' :
  get_or_none "positions" data = JNull \/ dict_mem "filter_scopes" data = false ->
  set_dash_metadata dashboard data old_to_new commit s = (Ok (dashboard', data'), s') ->
  exists md',
    Dashboard.json_metadata dashboard' = json_dumps (JObj md') /\
    dict_get "filter_scopes" md' = None.
Proof.
  intros Hcase H.
  apply set_dash_metadata_ok in H as (md & po & s1 & Hmd & Hif & -> & _ & _).
  destruct (reconcile_metadata_keys (po_data po) (po_new_filter_scopes po) (po_md po))
    as (F1 & _).
  eexists. split; [apply write_back_json_metadata|]. rewrite F1.
  apply if_positions_cases in Hif
    as [_ [[_ ->]|(pos & sids & pos' & nfs & dfd & app
                   & Hp & _ & _ & _ & Hn & _ & _ & ->)]]; simpl; [done|].
  destruct Hcase as [Hnull|Hmem]; [congruence|].
  rewrite Hmem in Hn. by injection Hn as <-.
Qed.

(** X15.  When the payload has positions and a [filter_scopes] key and
    [set_dash_metadata] returns, [copy_filter_scopes] was called on the id
    table built from the chart ids of the positions and on the payload's
    filter scopes (parsed when they are a string); the serialized metadata
    document holds its result under [filter_scopes] when the result is
    truthy, and has no [filter_scopes] key when it is empty. *)
Theorem filter_scopes_copied_when_given
    dashboard data old_to_new commit s dashboard' data' s' :
  get_or_none "positions" data <> JNull ->
  dict_mem "filter_scopes" data = true ->
  set_dash_metadata dashboard data old_to_new commit s = (Ok (dashboard', data'), s') ->
  exists pos slice_ids slc_id_dict old_filter_scopes new_filter_scopes md',
    get_or_none "positions" data = JObj pos /\
    slice_ids_of (List.map snd pos) = Ok slice_ids /\
    slc_id_dict_of old_to_new slice_ids = Ok slc_id_dict /\
    old_filter_scopes_of data = Ok old_filter_scopes /\
    copy_filter_scopes slc_id_dict old_filter_scopes = Ok new_filter_scopes /\
    Dashboard.json_metadata dashboard' = json_dumps (JObj md') /\
    dict_get "filter_scopes" md' =
      (if py_truthy new_filter_scopes then Some new_filter_scopes else None).
Proof.
  intros Hpos Hmem H.
  apply set_dash_metadata_ok in H as (md & po & s1 & Hmd & Hif & -> & _ & _).
  destruct (reconcile_metadata_keys (po_data po) (po_new_filter_scopes po) (po_md po))
    as (F1 & _).
  apply if_positions_cases in Hif
    as [_ [[Hnull _]|(pos & sids & pos' & nfs & dfd & app
                      & Hp & Hs & _ & _ & Hn & _ & _ & ->)]]; [congruence|].
  simpl in F1. rewrite Hmem in Hn.
  apply rbind_ok in Hn as (table & Ht & Hn).
  apply rbind_ok in Hn as (old & Ho & Hn).
  exists pos, sids, table, old, nfs. eexists.
  repeat split; first [done | exact F1].
Qed.

(** Equality of dict keys is an equivalence on hashable values. *)
Lemma py_key_eqb_refl (v : json) : py_hashable v = true -> py_key_eqb v v = true.
Proof.
  destruct v as [|b|n|t|l|o]; simpl; try done; intros _.
  - apply Z.eqb_refl.
  - apply Z.eqb_refl.
  - apply String.eqb_refl.
Qed.

Lemma py_key_eqb_sym (a b : json) : py_key_eqb a b = py_key_eqb b a.
Proof.
  destruct a, b; simpl; try done; first [apply Z.eqb_sym | apply String.eqb_sym].
Qed.

Lemma py_key_eqb_trans (a b c : json) :
  py_key_eqb a b = true -> py_key_eqb b c = true -> py_key_eqb a c = true.
Proof.
  destruct a, b; simpl; try done; destruct c; simpl; try done;
    rewrite ?Z.eqb_eq, ?String.eqb_eq; congruence.
Qed.

Lemma keys_distinct_In (d : list (json * json)) k1 v1 k2 v2 :
  keys_distinct d ->
  In (k1, v1) d -> In (k2, v2) d -> py_key_eqb k1 k2 = true ->
  k1 = k2 /\ v1 = v2.
Proof.
  induction d as [|[k v] d IH]; simpl; [done|].
  intros [Hk Hd] [[= <- <-]|H1] [[= <- <-]|H2] Heq.
  - done.
  - apply Hk in H2. rewrite py_key_eqb_sym in Heq. congruence.
  - apply Hk in H1. congruence.
  - by apply IH.
Qed.

Lemma pykey_set_In k v d k' v' :
  In (k', v') (pykey_set k v d) ->
  In (k', v') d \/
  (v' = v /\ (k' = k \/ exists v0, In (k', v0) d /\ py_key_eqb k' k = true)).
Proof.
  induction d as [|[k0 v0] d IH]; simpl.
  - intros [[= <- <-]|[]]. right. split; [done | by left].
  - destruct (py_key_eqb k0 k) eqn:E; simpl.
    + intros [[= <- <-]|Hin]; [|by left; right].
      right. split; [done|]. right. exists v0. split; [by left | done].
    + intros [[= <- <-]|Hin]; [by left; left|].
      apply IH in Hin as [Hin|(-> & [->|(v1 & Hin & Hk)])].
      * by left; right.
      * right. split; [done | by left].
      * right. split; [done|]. right. exists v1. split; [by right | done].
Qed.

Lemma pykey_set_keeps_keys k v d k' v' :
  In (k', v') d -> exists v'', In (k', v'') (pykey_set k v d).
Proof.
  induction d as [|[k0 v0] d IH]; simpl; [done|].
  intros [[= <- <-]|Hin]; destruct (py_key_eqb k0 k).
  - exists v. by left.
  - exists v0. by left.
  - exists v'. by right.
  - destruct (IH Hin) as (v'' & Hv). exists v''. by right.
Qed.

Lemma pykey_set_has k v d :
  py_hashable k = true ->
  exists k', In (k', v) (pykey_set k v d) /\ py_key_eqb k' k = true.
Proof.
  intros Hk. induction d as [|[k0 v0] d IH]; simpl.
  - exists k. split; [by left | by apply py_key_eqb_refl].
  - destruct (py_key_eqb k0 k) eqn:E.
    + exists k0. split; [by left | done].
    + destruct IH as (k' & Hin & Heq). exists k'. split; [by right | done].
Qed.

Lemma pykey_set_distinct k v d :
  keys_distinct d -> keys_distinct (pykey_set k v d).
Proof.
  induction d as [|[k0 v0] d IH]; simpl.
  - intros _. split; [by intros ? ? [] | done].
  - intros [Hk Hd]. destruct (py_key_eqb k0 k) eqn:E; simpl; [done|].
    split; [|by apply IH].
    intros k' v' Hin.
    apply pykey_set_In in Hin as [Hin|(_ & [->|(v1 & Hin & _)])].
    + by apply Hk in Hin.
    + by rewrite py_key_eqb_sym.
    + by apply Hk in Hin.
Qed.

Lemma identity_slc_id_dict_unhashable (slice_ids : list json) acc :
  forallb py_hashable slice_ids = false ->
  identity_slc_id_dict slice_ids acc = Err (TypeError "unhashable type").
Proof.
  revert acc. induction slice_ids as [|sid rest IH]; simpl; [done|].
  intros acc. destruct (py_hashable sid); simpl; [apply IH | done].
Qed.

Lemma identity_slc_id_dict_ok (slice_ids : list json) acc :
  forallb py_hashable slice_ids = true ->
  exists table,
    identity_slc_id_dict slice_ids acc = Ok table /\
    (forall k v,
       In (k, v) table ->
       In (k, v) acc \/
       ((In k slice_ids \/ exists v0, In (k, v0) acc) /\
        In v slice_ids /\ py_key_eqb k v = true)) /\
    (forall k v, In (k, v) acc -> exists v', In (k, v') table) /\
    (forall sid, In sid slice_ids ->
                 exists k v, In (k, v) table /\ py_key_eqb k sid = true) /\
    (keys_distinct acc -> keys_distinct table).
Proof.
  revert acc. induction slice_ids as [|sid rest IH]; simpl; intros acc.
  - intros _. exists acc. split; [done|]. split; [by left|].
    split; [by eauto|]. split; [done | done].
  - destruct (py_hashable sid) eqn:Hh; simpl; [|done]. intros Hall.
    destruct (IH (pykey_set sid sid acc) Hall)
      as (table & -> & Hent & Hkeys & Hcov & Hdis).
    exists table. split; [done|]. split; [|split; [|split]].
    + intros k v Hin. apply Hent in Hin as [Hin|([Hk|(v0 & Hk)] & Hv & Heq)].
      * apply pykey_set_In in Hin as [Hin|(-> & [->|(v0 & Hin & Heq)])].
        -- by left.
        -- right. split; [by left; left|]. split; [by left|].
           by apply py_key_eqb_refl.
        -- right. split; [right; by exists v0|]. split; [by left | done].
      * right. split; [by left; right|]. split; [by right | done].
      * right. split; [|split; [by right | done]].
        apply pykey_set_In in Hk as [Hk|(_ & [->|(v1 & Hk & _)])].
        -- right. by exists v0.
        -- by left; left.
        -- right. by exists v1.
    + intros k v Hin.
      destruct (pykey_set_keeps_keys sid sid acc k v Hin) as (v'' & Hv).
      by apply Hkeys in Hv.
    + intros sid' [<-|Hin]; [|by apply Hcov].
      destruct (pykey_set_has sid sid acc Hh) as (k' & Hin & Heq).
      apply Hkeys in Hin as (v' & Hin). by exists k', v'.
    + intros Hd. by apply Hdis, pykey_set_distinct.
Qed.

(** X16.  The table of chart ids that the [filter_scopes] branch hands to
    [copy_filter_scopes].  A remapping that is given and not empty yields
    exactly its entries whose new id is one of the chart ids of the
    positions.  Without a remapping, and with an empty one alike, the table
    is built from the chart ids themselves: a chart id that is a list or a
    dict raises a type error; otherwise every entry of the table maps a
    chart id to a chart id equal to it, every chart id has an entry under a
    key equal to it, and no two entries have equal keys (equal as dict
    keys are: 1 and [True] are the same key). *)
Theorem id_table_of_chart_ids (items : list (Z * Z)) (slice_ids : list json) :
  slc_id_dict_of (Some []) slice_ids = slc_id_dict_of None slice_ids /\
  (forall item,
     exists table,
       slc_id_dict_of (Some (item :: items)) slice_ids = Ok table /\
       (forall k v, In (k, v) table -> exists old new, k = JInt old /\ v = JInt new) /\
       forall old new,
         In (JInt old, JInt new) table <->
         In (old, new) (item :: items) /\ py_int_in new slice_ids = true) /\
  if forallb py_hashable slice_ids then
    exists table,
      slc_id_dict_of None slice_ids = Ok table /\
      (forall k v,
         In (k, v) table ->
         In k slice_ids /\ In v slice_ids /\ py_key_eqb k v = true) /\
      (forall sid,
         In sid slice_ids ->
         exists k v, In (k, v) table /\ py_key_eqb k sid = true) /\
      (forall k1 v1 k2 v2,
         In (k1, v1) table -> In (k2, v2) table -> py_key_eqb k1 k2 = true ->
         k1 = k2 /\ v1 = v2)
  else slc_id_dict_of None slice_ids = Err (TypeError "unhashable type").
Proof.
  split; [reflexivity|]. split.
  - intros item. eexists. split; [reflexivity|].
    unfold remapped_slc_id_dict. split.
    + intros k v Hin. apply in_map_iff in Hin as ([o n] & [= <- <-] & _).
      by exists o, n.
    + intros old new. rewrite in_map_iff. split.
      * intros ([o n] & [= -> ->] & Hin). by apply filter_In in Hin.
      * intros [Hin Hp]. exists (old, new). split; [done|]. by apply filter_In.
  - destruct (forallb py_hashable slice_ids) eqn:Hall; simpl.
    + destruct (identity_slc_id_dict_ok slice_ids [] Hall)
        as (table & Ht & Hent & _ & Hcov & Hdis).
      exists table. split; [done|]. split; [|split].
      * intros k v Hin.
        apply Hent in Hin as [[]|([Hk|(v0 & [])] & Hv & Heq)]. done.
      * done.
      * intros k1 v1 k2 v2. apply keys_distinct_In. by apply Hdis.
    + by apply identity_slc_id_dict_unhashable.
Qed.



(** X18.  The annotation loop keeps the number, the order and the keys of
    the position entries, and changes an entry only if it is a dict of
    type CHART with a truthy chart id; in such an entry only the [uuid]
    inside [meta] can differ. *)
Theorem annotation_changes_only_uuid
    (uuid_map : gmap Z string) (positions positions' : list (string * json)) :
  annotate_positions uuid_map positions = Ok positions' ->
  List.map fst positions' = List.map fst positions /\
  forall (i : nat) k obj,
    positions !! i = Some (k, obj) ->
    exists obj',
      positions' !! i = Some (k, obj') /\
      (obj' = obj \/
       exists o o' m m' ty chart_id,
         obj = JObj o /\ obj' = JObj o' /\
         dict_get "type" o = Some ty /\ py_eq_str ty "CHART" = true /\
         dict_get "meta" o = Some (JObj m) /\
         dict_get "chartId" m = Some chart_id /\ py_truthy chart_id = true /\
         dict_get "meta" o' = Some (JObj m') /\
         (forall key, key <> "meta" -> dict_get key o' = dict_get key o) /\
         (forall key, key <> "uuid" -> dict_get key m' = dict_get key m)).
Proof.
  revert positions'. induction positions as [|[k0 obj0] rest IH]; simpl;
    intros positions' H.
  - injection H as <-. split; [done|]. intros i k obj Hi. by destruct i.
  - apply rbind_ok in H as (obj' & Hobj & H).
    apply rbind_ok in H as (rest' & Hrest & H). injection H as <-.
    destruct (IH _ Hrest) as [Hkeys Hspec]. simpl. split; [by rewrite Hkeys|].
    intros [|i] k obj Hi; simpl in Hi; [|by apply Hspec].
    injection Hi as <- <-. exists obj'. split; [done|].
    destruct (annotate_node_shape _ _ _ Hobj)
      as [->|(o & ty & m & c & u & -> & Hty & Hchart & Hmeta & Hc & Ht & Hu & ->)];
      [by left|].
    right.
    exists o, (dict_set "meta" (JObj (dict_set "uuid" u m)) o), m,
      (dict_set "uuid" u m), ty, c.
    repeat split; try done.
    + apply dict_get_set_eq.
    + intros key Hkey. by apply dict_get_set_ne.
    + intros key Hkey. by apply dict_get_set_ne.
Qed.

Lemma slice_ids_of_non_dict_meta (values : list json) (o : pydict) (v : json) :
  In (JObj o) values ->
  dict_get "meta" o = Some v ->
  (forall m, v <> JObj m) ->
  slice_ids_of values = Err (AttributeError "get").
Proof.
  intros Hin Hmeta Hv.
  assert (chart_id_of o = Err (AttributeError "get")) as Ho.
  { unfold chart_id_of, get_or. rewrite Hmeta.
    destruct v; try done. by destruct (Hv members). }
  induction values as [|x values IH]; [destruct Hin|].
  simpl. destruct x as [| | | | |o0].
  1-5: destruct Hin as [Hx|Hin]; [discriminate | by apply IH].
  destruct (chart_id_of o0) as [c|e] eqn:Hc.
  - simpl. destruct Hin as [[= ->]|Hin]; [congruence|]. by rewrite IH.
  - simpl. unfold chart_id_of in Hc.
    destruct (get_or "meta" (JObj []) o0);
      first [discriminate Hc | by injection Hc as <-].
Qed.

(** X19.  A position entry that is a dict whose [meta] is not a dict makes
    [set_dash_metadata] raise an attribute error while it collects the
    chart ids, before any chart is queried; the session is left as it
    was. *)
Theorem non_dict_meta_raises_attribute_error
    dashboard data old_to_new commit s md pos k o v :
  params_dict dashboard = Ok md ->
  get_or_none "positions" data = JObj pos ->
  In (k, JObj o) pos ->
  dict_get "meta" o = Some v ->
  (forall m, v <> JObj m) ->
  set_dash_metadata dashboard data old_to_new commit s
  = (Err (AttributeError "get"), s).
Proof.
  intros Hmd Hp Hin Hmeta Hv.
  unfold set_dash_metadata, bind, lift. rewrite Hmd.
  rewrite if_positions_present by (rewrite Hp; discriminate).
  rewrite Hp. unfold reconcile_positions, resolve_positions, bind, lift. simpl.
  rewrite (slice_ids_of_non_dict_meta _ o v); try done.
  apply (in_map snd) in Hin. exact Hin.
Qed.

(** *** The session under [set_dash_metadata] *)

Lemma reads_only_bind {A B} (m : M A) (k : A -> M B) :
  reads_only m -> (forall a, reads_only (k a)) -> reads_only (bind m k).
Proof.
  intros Hm Hk s r s'. unfold bind.
  destruct (m s) as [[a|e] s1] eqn:E; apply Hm in E as ->.
  - apply Hk.
  - by intros [= _ <-].
Qed.

Lemma reads_only_lift {A} (r : result A) : reads_only (lift r).
Proof. intros s r' s'. unfold lift. by intros [= _ <-]. Qed.

Lemma reads_only_ret {A} (a : A) : reads_only (ret a).
Proof. intros s r' s'. unfold ret. by intros [= _ <-]. Qed.

Lemma reads_only_query_slices ids : reads_only (session_query_slices_in ids).
Proof.
  intros s r s'. unfold session_query_slices_in.
  by destruct (fault_query (faults s)); intros [= _ <-].
Qed.

Lemma reads_only_if_positions dashboard data old_to_new md :
  reads_only (if_positions dashboard data old_to_new md).
Proof.
  assert (forall positions,
            reads_only (reconcile_positions dashboard data old_to_new positions md))
    as Hrec.
  { intros positions. unfold reconcile_positions, resolve_positions.
    repeat first
      [ apply reads_only_bind; [|intros ?]
      | apply reads_only_lift
      | apply reads_only_ret
      | apply reads_only_query_slices
      | match goal with
        | |- reads_only (if ?b then _ else _) => destruct b
        end ]. }
  unfold if_positions.
  destruct (get_or_none "positions" data); first [apply reads_only_ret | apply Hrec].
Qed.

(** X20.  Whatever [set_dash_metadata] returns or raises, it asks the
    session for no merge, no delete and no rollback: the calls it adds to
    those the session has recorded are none, or one commit.  It adds none
    when [commit] is not set; when [commit] is set and it returns, it has
    added the commit; and a commit that the store refuses is raised to the
    caller as it is, with no rollback after it. *)
Theorem set_dash_metadata_session_calls
    dashboard data old_to_new commit s r s' :
  set_dash_metadata dashboard data old_to_new commit s = (r, s') ->
  (trace s' = trace s \/ trace s' = trace s ++ [EvCommit]) /\
  (commit = false -> trace s' = trace s) /\
  (forall x, r = Ok x -> commit = true -> trace s' = trace s ++ [EvCommit]) /\
  (forall e, fault_commit (faults s) = Some e ->
             trace s' = trace s ++ [EvCommit] -> r = Err e).
Proof.
  assert (forall l : list event, l <> l ++ [EvCommit]) as Hneq.
  { intros l Hl. apply (f_equal (@List.length event)) in Hl.
    rewrite length_app in Hl. simpl in Hl. lia. }
  unfold set_dash_metadata, bind.
  destruct (lift (params_dict dashboard) s) as [[md|e] s0] eqn:E0;
    apply reads_only_lift in E0 as ->;
    [|intros [= <- <-]; repeat split;
      first [by left | done | intros ? ? Ht; by apply Hneq in Ht]].
  destruct (if_positions dashboard data old_to_new md s) as [[po|e] s0] eqn:E1;
    apply reads_only_if_positions in E1 as ->;
    [|intros [= <- <-]; repeat split;
      first [by left | done | intros ? ? Ht; by apply Hneq in Ht]].
  destruct commit.
  - unfold session_commit. simpl.
    destruct (fault_commit (faults s)) as [e|] eqn:Ef; intros [= <- <-]; simpl;
      repeat split; first [by right | done | congruence].
  - intros [= <- <-]. repeat split;
      first [by left | done | intros ? ? Ht; by apply Hneq in Ht].
Qed.

(** *** Default filters, continued *)

(** X21.  When the payload has positions but no [default_filters] key,
    [json.loads] reads the default text as the empty dict, and
    [set_dash_metadata] returns, the serialized metadata document holds the
    text of the empty dict under [default_filters]: the default filters
    that were stored are not kept. *)
Theorem default_filters_reset_when_not_given
    dashboard data old_to_new commit s dashboard' data' s' :
  get_or_none "positions" data <> JNull ->
  dict_get "default_filters" data = None ->
  json_loads "{}" = Ok (JObj []) ->
  set_dash_metadata dashboard data old_to_new commit s = (Ok (dashboard', data'), s') ->
  exists md',
    Dashboard.json_metadata dashboard' = json_dumps (JObj md') /\
    dict_get "default_filters" md' = Some (JStr "{}").
Proof.
  intros Hpos Hnone Hloads H.
  apply set_dash_metadata_ok in H as (md & po & s1 & Hmd & Hif & -> & _ & _).
  apply if_positions_cases in Hif
    as [_ [[Hnull _]|(pos & sids & pos' & nfs & dfd & app
                      & _ & _ & _ & _ & _ & Hl & Happ & ->)]]; [congruence|].
  unfold get_or in Hl. rewrite Hnone in Hl. simpl in Hl. rewrite Hloads in Hl.
  injection Hl as <-. simpl in Happ. injection Happ as <-.
  eexists. split; [apply write_back_json_metadata|]. simpl.
  rewrite reconcile_metadata_other by not_reconciled_key.
  rewrite dict_get_pop_ne by discriminate. apply dict_get_set_eq.
Qed.

(** X22.  When the payload's [default_filters] is present and is not a
    string (a null, a dict, a number, ...), and the steps before the default
    filters have completed, [set_dash_metadata] raises a type error: the
    default [{}] only replaces a missing key, and only text is parsed. *)
Theorem default_filters_must_be_text
    dashboard data old_to_new commit s md rp s1 v :
  get_or_none "positions" data <> JNull ->
  params_dict dashboard = Ok md ->
  resolve_positions dashboard data old_to_new (get_or_none "positions" data) s
    = (Ok rp, s1) ->
  dict_get "default_filters" data = Some v ->
  (forall text, v <> JStr text) ->
  set_dash_metadata dashboard data old_to_new commit s
  = (Err (TypeError "the JSON object must be str, bytes or bytearray"), s).
Proof.
  intros Hpos Hmd Hrp Hv Hnot.
  rewrite (set_dash_metadata_after_resolve _ _ _ _ _ _ _ _ Hpos Hmd Hrp).
  apply resolve_positions_ok in Hrp
    as (pos & sids & pos' & _ & _ & _ & _ & _ & _ & Hdata & _ & ->).
  unfold filter_default_filters. rewrite Hdata, get_or_set_ne by discriminate.
  unfold get_or. rewrite Hv.
  destruct v; try done. by destruct (Hnot s0).
Qed.

(** *** Owners of the charts *)

Lemma union_owners_spec (owners slc_owners : list Z) (o : Z) :
  In o (union_owners owners slc_owners) <-> In o owners \/ In o slc_owners.
Proof.
  unfold union_owners.
  rewrite <- !list_elem_of_In, elem_of_elements, elem_of_union, !elem_of_list_to_set.
  reflexivity.
Qed.

Lemma union_owners_NoDup (owners slc_owners : list Z) :
  List.NoDup (union_owners owners slc_owners).
Proof. apply NoDup_ListNoDup, NoDup_elements. Qed.

(** The owners of every chart id after the loop of [update_charts_owners]. *)
Lemma update_owners_loop (owners : list Z) (l : list Slice.t)
    (m : gmap Z (list Z)) (slc : Slice.t) :
  let m' :=
    foldl (fun m slc => <[Slice.id slc := union_owners owners (owners_of m slc)]> m)
      m l in
  (In (Slice.id slc) (List.map Slice.id l) ->
   (forall o, In o (owners_of m' slc) <-> In o owners \/ In o (owners_of m slc)) /\
   List.NoDup (owners_of m' slc)) /\
  (~ In (Slice.id slc) (List.map Slice.id l) -> owners_of m' slc = owners_of m slc).
Proof.
  revert m. induction l as [|x l IH]; intros m; simpl.
  - split; [by intros []|done].
  - set (m1 := <[Slice.id x := union_owners owners (owners_of m x)]> m).
    destruct (IH m1) as [IH1 IH2].
    assert (Slice.id x = Slice.id slc ->
            owners_of m1 slc = union_owners owners (owners_of m slc)) as Hsame.
    { intros E. unfold owners_of, m1. rewrite <- E. by rewrite lookup_insert_eq. }
    assert (Slice.id x <> Slice.id slc -> owners_of m1 slc = owners_of m slc) as Hother.
    { intros E. unfold owners_of, m1. by rewrite lookup_insert_ne. }
    split.
    + intros Hin.
      destruct (in_dec Z.eq_dec (Slice.id slc) (List.map Slice.id l)) as [Hl|Hl].
      * destruct (IH1 Hl) as [Hmem Hnd]. split; [|done].
        intros o. rewrite Hmem.
        destruct (Z.eq_dec (Slice.id x) (Slice.id slc)) as [E|E].
        -- rewrite (Hsame E), union_owners_spec. tauto.
        -- by rewrite (Hother E).
      * destruct Hin as [E|Hin]; [|done].
        rewrite (IH2 Hl), (Hsame E). split.
        -- intros o. apply union_owners_spec.
        -- apply union_owners_NoDup.
    + intros Hnot. rewrite IH2 by tauto. apply Hother. tauto.
Qed.

(** X23.  When [update_charts_owners] returns, the dashboard is returned
    as it was; the owners of each chart of the dashboard are, without
    repetition, the owners of the dashboard together with the owners the
    chart had (owners are added, none is removed); the owners of the other
    charts are untouched. *)
Theorem update_charts_owners_adds_dashboard_owners
    (model model' : Dashboard.t) (commit : bool)
    (chart_owners chart_owners' : gmap Z (list Z)) (s s' : Session) :
  update_charts_owners model commit chart_owners s = (Ok (model', chart_owners'), s') ->
  model' = model /\
  (forall slc o,
     In slc (Dashboard.slices model) ->
     (In o (owners_of chart_owners' slc) <->
      In o (Dashboard.owners model) \/ In o (owners_of chart_owners slc))) /\
  (forall slc, In slc (Dashboard.slices model) ->
               List.NoDup (owners_of chart_owners' slc)) /\
  (forall slc,
     ~ In (Slice.id slc) (List.map Slice.id (Dashboard.slices model)) ->
     owners_of chart_owners' slc = owners_of chart_owners slc).
Proof.
  unfold update_charts_owners, bind, ret.
  destruct ((if commit then session_commit else _) s) as [[u|e] s1]; [|discriminate].
  intros [= <- <- <-]. split; [done|].
  assert (forall slc,
            In slc (Dashboard.slices model) ->
            (forall o,
               In o (owners_of
                       (foldl (fun m slc =>
                                 <[Slice.id slc :=
                                     union_owners (Dashboard.owners model)
                                       (owners_of m slc)]> m)
                          chart_owners (Dashboard.slices model)) slc) <->
               In o (Dashboard.owners model) \/ In o (owners_of chart_owners slc)) /\
            List.NoDup
              (owners_of
                 (foldl (fun m slc =>
                           <[Slice.id slc :=
                               union_owners (Dashboard.owners model)
                                 (owners_of m slc)]> m)
                    chart_owners (Dashboard.slices model)) slc)) as Hloop.
  { intros slc Hin.
    apply (update_owners_loop (Dashboard.owners model) (Dashboard.slices model)
             chart_owners slc).
    by apply in_map. }
  split; [|split].
  - intros slc o Hin. by apply Hloop.
  - intros slc Hin. by apply Hloop.
  - intros slc Hnot.
    by apply (update_owners_loop (Dashboard.owners model) (Dashboard.slices model)
                chart_owners slc).
Qed.

(** X24.  Propagating the owners a second time changes the owner set of no
    chart: a second [update_charts_owners] on the same dashboard, starting
    from the owners the first one left, leaves every chart with the same
    owners. *)
Theorem update_charts_owners_twice
    (model model1 model2 : Dashboard.t) (commit : bool)
    (chart_owners chart_owners1 chart_owners2 : gmap Z (list Z))
    (s s1 s2 : Session) :
  update_charts_owners model commit chart_owners s = (Ok (model1, chart_owners1), s1) ->
  update_charts_owners model1 commit chart_owners1 s1
    = (Ok (model2, chart_owners2), s2) ->
  forall slc o, In o (owners_of chart_owners2 slc) <-> In o (owners_of chart_owners1 slc).
Proof.
  unfold update_charts_owners, bind, ret.
  destruct ((if commit then session_commit else _) s) as [[u|e] s0]; [|discriminate].
  intros [= <- <- <-].
  destruct ((if commit then session_commit else _) s0) as [[u'|e] s3]; [|discriminate].
  intros [= _ <- _] slc o.
  set (owners := Dashboard.owners model). set (l := Dashboard.slices model).
  destruct (update_owners_loop owners l chart_owners slc) as [A1 A2].
  match goal with
  | |- context [owners_of (foldl ?f (foldl ?f chart_owners l) l) slc] =>
      destruct (update_owners_loop owners l (foldl f chart_owners l) slc) as [B1 B2]
  end.
  destruct (in_dec Z.eq_dec (Slice.id slc) (List.map Slice.id l)) as [Hl|Hl].
  - destruct (A1 Hl) as [Ha _]. destruct (B1 Hl) as [Hb _].
    rewrite Hb, Ha. clear. firstorder.
  - by rewrite (B2 Hl).
Qed.

End DashboardDAO.

(** ** The properties on the sample data *)

Local Abbreviation run_set_dash_metadata :=
  (set_dash_metadata py_json_loads py_int_base10 copy_filter_scopes_uncalled
     stored_params_dict).

(** C4, as stated, fails when [params_dict] does not read back the text
    that [set_dash_metadata] wrote.  With the lenient reader, the stored
    note [a, , }] is read as [a, }] by the first call, which serializes it;
    the second call, with the same payload, reads that text as [a}] and
    serializes another metadata document.  The position document is the
    same after both calls. *)
Lemma tidied_metadata_differs_on_second_call :
  get_or_none "positions" empty_positions_update <> JNull /\
  exists dashboard1 s1 dashboard2 s2,
    set_dash_metadata py_json_loads py_int_base10 copy_filter_scopes_uncalled
      tidying_params_dict noted_dashboard empty_positions_update None false
      sample_session
      = (Ok (dashboard1, empty_positions_update), s1) /\
    set_dash_metadata py_json_loads py_int_base10 copy_filter_scopes_uncalled
      tidying_params_dict dashboard1 empty_positions_update None false s1
      = (Ok (dashboard2, empty_positions_update), s2) /\
    (exists md1, py_json_loads (Dashboard.json_metadata dashboard1) = Ok (JObj md1) /\
                 dict_get "note" md1 = Some (JStr "a, }")) /\
    (exists md2, py_json_loads (Dashboard.json_metadata dashboard2) = Ok (JObj md2) /\
                 dict_get "note" md2 = Some (JStr "a}")) /\
    Dashboard.json_metadata dashboard2 <> Dashboard.json_metadata dashboard1 /\
    Dashboard.position_json dashboard2 = Dashboard.position_json dashboard1.
Proof.
  split; [discriminate|].
  do 4 eexists. split; [vm_compute; reflexivity|].
  split; [vm_compute; reflexivity|].
  split; [eexists; split; [vm_compute; reflexivity | reflexivity]|].
  split; [eexists; split; [vm_compute; reflexivity | reflexivity]|].
  split; [vm_compute; discriminate | reflexivity].
Qed.

(** C1, as stated, fails: with a payload that has no [positions] and a
    stored metadata document that has the key, the serialized metadata of
    the returned dashboard still has the key. *)
Lemma positions_key_kept_without_positions :
  get_or_none "positions" [("dashboard_title", JStr "Sales Q2")] = JNull /\
  stored_params_dict sample_dashboard = Ok sample_metadata /\
  exists dashboard' s' md',
    run_set_dash_metadata sample_dashboard [("dashboard_title", JStr "Sales Q2")]
      None false sample_session
      = (Ok (dashboard', [("dashboard_title", JStr "Sales Q2")]), s') /\
    Dashboard.json_metadata dashboard' = json_dumps (JObj md') /\
    py_json_loads (Dashboard.json_metadata dashboard') = Ok (JObj md') /\
    dict_get "positions" md' = Some (JObj []).
Proof.
  split; [reflexivity|]. split; [vm_compute; reflexivity|].
  do 3 eexists. split; [vm_compute; reflexivity|].
  split; [|split]; [| vm_compute; reflexivity | reflexivity].
  vm_compute. reflexivity.
Qed.

Lemma positions_key_dropped_witness :
  get_or_none "positions" sample_update <> JNull /\
  exists dashboard' data' s',
    run_set_dash_metadata sample_dashboard sample_update None true sample_session
      = (Ok (dashboard', data'), s') /\
    exists md',
      Dashboard.json_metadata dashboard' = json_dumps (JObj md') /\
      dict_get "positions" md' = None.
Proof.
  split; [discriminate|].
  do 3 eexists. split; [vm_compute; reflexivity|].
  eapply (positions_key_dropped_when_positions_given
           py_json_loads py_int_base10 copy_filter_scopes_uncalled stored_params_dict
           sample_dashboard sample_update None true sample_session);
    [discriminate | vm_compute; reflexivity].
Defined.

(** C2, as stated, fails: the positions refer to charts 1 and 2, only
    chart 1 is resolved from the store and becomes the dashboard's chart,
    and the entry of chart 2 is kept in the stored default filters. *)
Lemma unresolved_chart_keeps_default_filter :
  exists dashboard' data' s' md',
    run_set_dash_metadata sample_dashboard sample_update None false sample_session
      = (Ok (dashboard', data'), s') /\
    Dashboard.slices dashboard' = [chart_1] /\
    py_json_loads (Dashboard.json_metadata dashboard') = Ok (JObj md') /\
    dict_get "default_filters" md'
      = Some (JStr (json_dumps (JObj [("1", JStr "a"); ("2", JStr "b")]))) /\
    dict_get "default_filters" md'
      <> Some (JStr (json_dumps (JObj [("1", JStr "a")]))).
Proof.
  do 4 eexists. split; [vm_compute; reflexivity|].
  split; [reflexivity|]. split; [vm_compute; reflexivity|].
  split; [reflexivity|]. vm_compute. discriminate.
Qed.

Lemma default_filters_kept_witness :
  exists dashboard' data' s',
    run_set_dash_metadata sample_dashboard sample_update None false sample_session
      = (Ok (dashboard', data'), s') /\
    exists positions slice_ids default_filters_data md',
      get_or_none "positions" sample_update = JObj positions /\
      slice_ids_of (List.map snd positions) = Ok slice_ids /\
      json_loads_value py_json_loads
        (get_or "default_filters" (JStr "{}") sample_update)
        = Ok (JObj default_filters_data) /\
      Dashboard.json_metadata dashboard' = json_dumps (JObj md') /\
      dict_get "default_filters" md' =
        Some (JStr (json_dumps (JObj
          (List.filter
             (fun kv => match py_int_base10 (fst kv) with
                        | Some n => py_int_in n slice_ids
                        | None => false
                        end)
             default_filters_data)))).
Proof.
  do 3 eexists. split; [vm_compute; reflexivity|].
  eapply (default_filters_kept_for_referenced_charts
           py_json_loads py_int_base10 copy_filter_scopes_uncalled stored_params_dict
           sample_dashboard sample_update None false sample_session);
    [discriminate | vm_compute; reflexivity].
Defined.

(** The example of the specification: default filters
    [{"1": "a", "2": "b"}] and positions that refer to chart 1 alone give
    the stored value [{"1": "a"}]. *)
Example default_filters_example :
  filter_default_filters py_json_loads py_int_base10
    [("default_filters", JStr (json_dumps sample_default_filters))] [JInt 1] []
  = Ok [("default_filters", JStr (json_dumps (JObj [("1", JStr "a")])))].
Proof. vm_compute. reflexivity. Qed.

(** C3, as stated, fails: another dashboard has the empty string as its
    slug, and the update check reports the empty slug as taken. *)
Lemma empty_slug_taken_on_update :
  validate_update_slug_uniqueness 7 (Some EmptyString) sample_session
  = (Ok false, sample_session).
Proof. reflexivity. Qed.

(** C5, as stated, fails: a dict entry without [type], and an entry of
    type CHART without [meta], make the call raise. *)
Lemma entry_without_type_or_meta_raises :
  fst (run_set_dash_metadata sample_dashboard
         [("positions", JObj [("ROOT", JObj [])])] None false sample_session)
  = Err (KeyError "type") /\
  fst (run_set_dash_metadata sample_dashboard
         [("positions", JObj [("CHART-a", JObj [("type", JStr "CHART")])])]
         None false sample_session)
  = Err (KeyError "meta").
Proof. split; vm_compute; reflexivity. Qed.

Lemma chart_nodes_receive_uuid_witness :
  positions_well_formed sample_positions = true /\
  exists positions' : list (string * json),
    annotate_positions (uuid_map_of [chart_1]) sample_positions = Ok positions' /\
    List.map fst positions' = List.map fst sample_positions /\
    forall (i : nat) k o m chart_id,
      sample_positions !! i = Some (k, JObj o) ->
      dict_get "type" o = Some (JStr "CHART") ->
      dict_get "meta" o = Some (JObj m) ->
      dict_get "chartId" m = Some chart_id ->
      py_truthy chart_id = true ->
      exists o' m',
        positions' !! i = Some (k, JObj o') /\
        dict_get "meta" o' = Some (JObj m') /\
        dict_get "uuid" m' = Some (json_of_uuid (resolved_uuid [chart_1] chart_id)).
Proof.
  split; [reflexivity|].
  apply (chart_nodes_receive_uuid [chart_1] sample_positions). reflexivity.
Defined.

(** On the sample positions chart 1 gets its UUID and chart 2, which the
    store does not hold, gets null. *)
Example annotate_sample_positions :
  annotate_positions (uuid_map_of [chart_1]) sample_positions
  = Ok [("CHART-a",
         JObj [("type", JStr "CHART");
               ("meta", JObj [("chartId", JInt 1); ("uuid", JStr "uuid-1")])]);
        ("CHART-b",
         JObj [("type", JStr "CHART");
               ("meta", JObj [("chartId", JInt 2); ("uuid", JNull)])]);
        ("DASHBOARD_VERSION_KEY", JStr "v2")].
Proof. vm_compute. reflexivity. Qed.

(** C6, as stated, fails: a default-filters key is not an integer, but a
    position entry without [type] makes the call raise a key error before
    the default filters are read. *)
Lemma key_error_before_default_filters :
  json_loads_value py_json_loads
    (get_or "default_filters" (JStr "{}")
       [("positions", JObj [("ROOT", JObj [])]);
        ("default_filters", JStr (json_dumps (JObj [("x", JInt 1)])))])
  = Ok (JObj [("x", JInt 1)]) /\
  py_int_base10 "x" = None /\
  fst (run_set_dash_metadata sample_dashboard
         [("positions", JObj [("ROOT", JObj [])]);
          ("default_filters", JStr (json_dumps (JObj [("x", JInt 1)])))]
         None false sample_session)
  = Err (KeyError "type").
Proof. repeat split; vm_compute; reflexivity. Qed.

Lemma default_filter_keys_must_parse_witness :
  (exists e,
     fst (run_set_dash_metadata sample_dashboard
            [("positions", JObj sample_positions);
             ("default_filters", JStr (json_dumps (JObj [("x", JInt 1)])))]
            None true sample_session) = Err e) /\
  run_set_dash_metadata sample_dashboard
    [("positions", JObj sample_positions);
     ("default_filters", JStr (json_dumps (JObj [("x", JInt 1)])))]
    None true sample_session
  = (Err (ValueError "x"), sample_session).
Proof.
  assert (get_or_none "positions"
            [("positions", JObj sample_positions);
             ("default_filters", JStr (json_dumps (JObj [("x", JInt 1)])))]
          <> JNull) as Hpos by discriminate.
  assert (json_loads_value py_json_loads
            (get_or "default_filters" (JStr "{}")
               [("positions", JObj sample_positions);
                ("default_filters", JStr (json_dumps (JObj [("x", JInt 1)])))])
          = Ok (JObj [("x", JInt 1)])) as Hloads by (vm_compute; reflexivity).
  destruct (default_filter_keys_must_parse
              py_json_loads py_int_base10 copy_filter_scopes_uncalled
              stored_params_dict sample_dashboard _ None true sample_session _
              Hpos Hloads) as [Hbad _].
  destruct Hbad as [Hraises _].
  - exists "x". split; [by left | reflexivity].
  - split; [exact Hraises | vm_compute; reflexivity].
Defined.

Lemma set_dash_metadata_twice_witness :
  exists dashboard1 data1 s1,
    run_set_dash_metadata sample_dashboard sample_update None true sample_session
      = (Ok (dashboard1, data1), s1) /\
    data1 <> sample_update /\
    forall data2, data2 = sample_update \/ data2 = data1 ->
      (forall dashboard2 data2' s2,
         run_set_dash_metadata dashboard1 data2 None true s1
           = (Ok (dashboard2, data2'), s2) ->
         Dashboard.position_json dashboard2 = Dashboard.position_json dashboard1 /\
         Dashboard.slices dashboard2 = Dashboard.slices dashboard1 /\
         data2' = data1) /\
      exists dashboard2 s2,
        run_set_dash_metadata dashboard1 data2 None true s1
          = (Ok (dashboard2, data1), s2) /\
        Dashboard.json_metadata dashboard2 = Dashboard.json_metadata dashboard1 /\
        Dashboard.position_json dashboard2 = Dashboard.position_json dashboard1 /\
        dashboard2 = dashboard1.
Proof.
  do 3 eexists. split; [vm_compute; reflexivity|].
  split; [vm_compute; discriminate|].
  intros data2 Hdata2.
  edestruct (set_dash_metadata_twice
               py_json_loads py_int_base10 copy_filter_scopes_uncalled
               stored_params_dict
               sample_dashboard sample_update None true sample_session)
    as [Hsame Hback]; [| | exact Hdata2 |].
  - discriminate.
  - vm_compute. reflexivity.
  - split; [exact Hsame|]. apply Hback.
    intros md po s' Hmd Hif.
    vm_compute in Hmd. injection Hmd as <-.
    vm_compute in Hif. injection Hif as <- <-.
    vm_compute. reflexivity.
Defined.


(** C8, as stated, fails: a dashboard without charts whose own change
    timestamp is earlier than [datetime.fromtimestamp(0)] gets the
    sentinel, not its own truncated timestamp. *)
Lemma sentinel_returned_for_old_dashboard :
  Dashboard.slices old_dashboard = [] /\
  get_dashboard_and_slices_changed_on slug_or_id_matches access_to_all
    (inr old_dashboard) sample_session
  = (Ok epoch, sample_session) /\
  replace_microsecond_0 (Dashboard.changed_on old_dashboard) = -5000000 /\
  epoch <> replace_microsecond_0 (Dashboard.changed_on old_dashboard).
Proof. repeat split. vm_compute. discriminate. Qed.

Lemma bulk_delete_reraises_witness :
  exists s',
    bulk_delete (Some [sample_dashboard; other_dashboard]) true failing_session
      = (Err (SQLAlchemyError "connection lost"), s') /\
    last (trace s') = Some EvRollback /\
    pending s' = committed failing_session /\
    committed s' = committed failing_session.
Proof.
  eapply (bulk_delete_rolls_back_and_reraises
            (Some [sample_dashboard; other_dashboard]) true failing_session).
  - vm_compute. reflexivity.
  - reflexivity.
  - left. reflexivity.
Defined.

Lemma bulk_delete_of_nothing_witness :
  exists s',
    bulk_delete None true sample_session = (Ok tt, s') /\
    trace s' = trace sample_session ++ [EvDelete []; EvCommit] /\
    pending s' = pending sample_session /\
    committed s' = pending sample_session.
Proof.
  apply (bulk_delete_of_nothing None true sample_session).
  - by left.
  - reflexivity.
  - reflexivity.
Defined.

(** The scenario of the specification: title "Sales", an update with a
    new title and empty positions. *)
Example sales_scenario :
  exists dashboard' data' s' md',
    run_set_dash_metadata sample_dashboard
      [("dashboard_title", JStr "Sales Q2"); ("positions", JObj [])]
      None false sample_session
      = (Ok (dashboard', data'), s') /\
    Dashboard.dashboard_title dashboard' = JStr "Sales Q2" /\
    Dashboard.slices dashboard' = [] /\
    py_json_loads (Dashboard.json_metadata dashboard') = Ok (JObj md') /\
    dict_get "positions" md' = None /\
    dict_get "cross_filters_enabled" md' = Some (JBool true).
Proof.
  do 4 eexists. split; [vm_compute; reflexivity|].
  split; [reflexivity|]. split; [reflexivity|].
  split; [vm_compute; reflexivity|]. split; reflexivity.
Qed.

(** ** The further properties on the sample data *)

Lemma get_by_id_or_slug_found_witness :
  get_by_id_or_slug slug_or_id_matches access_to_all "sales" sample_session
    = (Ok sample_dashboard, sample_session) /\
  get_charts_for_dashboard slug_or_id_matches access_to_all "sales" sample_session
    = (Ok [chart_3], sample_session).
Proof.
  assert (get_by_id_or_slug slug_or_id_matches access_to_all "sales" sample_session
          = (Ok sample_dashboard, sample_session)) as H by (vm_compute; reflexivity).
  split; [exact H|].
  exact (proj2 (proj2 (proj2 (proj2 (proj2
           (get_by_id_or_slug_found slug_or_id_matches access_to_all
              "sales" sample_session sample_session sample_dashboard H)))))).
Defined.

Lemma hidden_dashboard_not_found_witness :
  get_by_id_or_slug slug_or_id_matches (fun d => negb (Dashboard.id d =? 7))
    "sales" sample_session
  = (Err DashboardNotFoundError, sample_session).
Proof.
  apply (hidden_or_missing_dashboard_not_found
           slug_or_id_matches (fun d => negb (Dashboard.id d =? 7))
           "sales" sample_session).
  - reflexivity.
  - intros d [<-|[<-|[]]]; vm_compute; [reflexivity | discriminate].
Defined.

Lemma slug_unique_witness :
  exists b,
    validate_slug_uniqueness (Some "fresh") sample_session = (Ok b, sample_session) /\
    (b = true <->
     forall d, In d (tbl_dashboards (pending sample_session)) ->
               Dashboard.slug d <> Some "fresh").
Proof.
  apply (slug_unique_iff_no_dashboard_has_it "fresh" sample_session);
    [discriminate | reflexivity].
Defined.

Lemma update_slug_unique_witness :
  exists b,
    validate_update_slug_uniqueness 7 (Some "sales") sample_session
      = (Ok b, sample_session) /\
    (b = true <->
     forall d, In d (tbl_dashboards (pending sample_session)) ->
               Dashboard.slug d = Some "sales" -> Dashboard.id d = 7).
Proof.
  apply (update_slug_unique_iff_only_own 7 "sales" sample_session). reflexivity.
Defined.

Lemma creation_check_implies_update_check_witness :
  validate_update_slug_uniqueness 8 (Some "fresh") sample_session
  = (Ok true, sample_session).
Proof.
  apply (creation_check_implies_update_check "fresh" 8 sample_session sample_session);
    [discriminate | vm_compute; reflexivity].
Defined.

Lemma bulk_delete_removes_given_rows_witness :
  exists s',
    bulk_delete (Some [sample_dashboard]) true sample_session = (Ok tt, s') /\
    tbl_dashboards (pending s')
    = List.filter (fun r => negb (existsb (Z.eqb (Dashboard.id r)) [7]))
        (tbl_dashboards (pending sample_session)) /\
    tbl_slices (pending s') = tbl_slices (pending sample_session) /\
    committed s' = pending s' /\
    (forall r, In r (tbl_dashboards (pending s')) -> ~ In (Dashboard.id r) [7]).
Proof.
  apply (bulk_delete_removes_given_rows (Some [sample_dashboard]) true sample_session);
    reflexivity.
Defined.

(** Both given dashboards are detached and merged, then deleted. *)
Example bulk_delete_two_dashboards :
  bulk_delete (Some [sample_dashboard; other_dashboard]) true sample_session
  = (Ok tt,
     {| committed := {| tbl_dashboards := []; tbl_slices := [chart_1; chart_3] |};
        pending := {| tbl_dashboards := []; tbl_slices := [chart_1; chart_3] |};
        faults := no_faults;
        trace := [EvMerge 7; EvMerge 8; EvDelete [7; 8]; EvCommit] |}).
Proof. vm_compute. reflexivity. Qed.

Lemma bulk_delete_other_error_witness :
  exists s' evs,
    bulk_delete (Some [sample_dashboard]) true mistyped_session
      = (Err (TypeError "unsupported operand"), s') /\
    trace s'
    = trace (snd (detach_related (Some [sample_dashboard]) mistyped_session)) ++ evs /\
    ~ In EvRollback evs /\
    committed s' = committed mistyped_session.
Proof.
  apply (bulk_delete_other_error_not_rolled_back
           (Some [sample_dashboard]) true mistyped_session
           (snd (detach_related (Some [sample_dashboard]) mistyped_session))).
  - vm_compute. reflexivity.
  - reflexivity.
  - left. reflexivity.
Defined.

Lemma bulk_delete_merge_error_witness :
  bulk_delete (Some [sample_dashboard; other_dashboard]) true unmergeable_session
  = (Err (SQLAlchemyError "connection lost"), log (EvMerge 7) unmergeable_session).
Proof.
  apply (bulk_delete_merge_error_escapes sample_dashboard [other_dashboard] true
           unmergeable_session).
  reflexivity.
Defined.

Lemma css_and_title_witness :
  exists dashboard' data' s',
    run_set_dash_metadata sample_dashboard sample_update None false sample_session
      = (Ok (dashboard', data'), s') /\
    Dashboard.css dashboard' = JNull /\
    Dashboard.dashboard_title dashboard' = JStr "Sales Q2".
Proof.
  do 3 eexists. split; [vm_compute; reflexivity|].
  eapply (css_and_title_overwritten_when_given
            py_json_loads py_int_base10 copy_filter_scopes_uncalled stored_params_dict
            sample_dashboard sample_update None false sample_session).
  vm_compute. reflexivity.
Defined.

Lemma metadata_keys_witness :
  exists dashboard' data' s',
    run_set_dash_metadata sample_dashboard
      [("refresh_frequency", JInt 30); ("color_scheme", JNull)] None false sample_session
      = (Ok (dashboard', data'), s') /\
    exists md',
      Dashboard.json_metadata dashboard' = json_dumps (JObj md') /\
      dict_get "expanded_slices" md' = Some (JObj []) /\
      dict_get "refresh_frequency" md' = Some (JInt 30) /\
      dict_get "color_scheme" md' = Some JNull /\
      dict_get "label_colors" md' = Some (JObj []) /\
      dict_get "shared_label_colors" md' = Some (JObj []) /\
      dict_get "color_scheme_domain" md' = Some (JArr []) /\
      dict_get "cross_filters_enabled" md' = Some (JBool true) /\
      dict_get "color_namespace" md' = None.
Proof.
  do 3 eexists. split; [vm_compute; reflexivity|].
  eapply (metadata_keys_always_set
            py_json_loads py_int_base10 copy_filter_scopes_uncalled stored_params_dict
            sample_dashboard [("refresh_frequency", JInt 30); ("color_scheme", JNull)]
            None false sample_session).
  vm_compute. reflexivity.
Defined.


Lemma filter_scopes_dropped_witness :
  exists dashboard' data' s',
    run_set_dash_metadata sample_dashboard sample_update None false sample_session
      = (Ok (dashboard', data'), s') /\
    exists md',
      Dashboard.json_metadata dashboard' = json_dumps (JObj md') /\
      dict_get "filter_scopes" md' = None.
Proof.
  do 3 eexists. split; [vm_compute; reflexivity|].
  eapply (filter_scopes_dropped_when_not_given
            py_json_loads py_int_base10 copy_filter_scopes_uncalled stored_params_dict
            sample_dashboard sample_update None false sample_session).
  - right. reflexivity.
  - vm_compute. reflexivity.
Defined.

Lemma filter_scopes_copied_witness :
  exists dashboard' data' s',
    set_dash_metadata py_json_loads py_int_base10 copy_filter_scopes_renaming
      stored_params_dict sample_dashboard sample_update_with_scopes None false
      sample_session
      = (Ok (dashboard', data'), s') /\
    exists pos slice_ids slc_id_dict old_filter_scopes new_filter_scopes md',
      get_or_none "positions" sample_update_with_scopes = JObj pos /\
      slice_ids_of (List.map snd pos) = Ok slice_ids /\
      slc_id_dict_of None slice_ids = Ok slc_id_dict /\
      old_filter_scopes_of py_json_loads sample_update_with_scopes
        = Ok old_filter_scopes /\
      copy_filter_scopes_renaming slc_id_dict old_filter_scopes = Ok new_filter_scopes /\
      Dashboard.json_metadata dashboard' = json_dumps (JObj md') /\
      dict_get "filter_scopes" md' =
        (if py_truthy new_filter_scopes then Some new_filter_scopes else None).
Proof.
  do 3 eexists. split; [vm_compute; reflexivity|].
  eapply (filter_scopes_copied_when_given
            py_json_loads py_int_base10 copy_filter_scopes_renaming stored_params_dict
            sample_dashboard sample_update_with_scopes None false sample_session).
  - discriminate.
  - reflexivity.
  - vm_compute. reflexivity.
Defined.

(** The scopes of chart 1 are kept, those of chart 9 are dropped. *)
Example filter_scopes_example :
  exists dashboard' data' s' md',
    set_dash_metadata py_json_loads py_int_base10 copy_filter_scopes_renaming
      stored_params_dict sample_dashboard sample_update_with_scopes None false
      sample_session
      = (Ok (dashboard', data'), s') /\
    py_json_loads (Dashboard.json_metadata dashboard') = Ok (JObj md') /\
    dict_get "filter_scopes" md' = Some (JObj [("1", JObj [("region", JObj [])])]).
Proof.
  do 4 eexists. split; [vm_compute; reflexivity|].
  split; [vm_compute; reflexivity | reflexivity].
Qed.



Lemma annotation_changes_only_uuid_witness :
  exists positions' : list (string * json),
    annotate_positions (uuid_map_of [chart_1]) sample_positions = Ok positions' /\
    List.map fst positions' = List.map fst sample_positions.
Proof.
  eexists. split; [vm_compute; reflexivity|].
  eapply (annotation_changes_only_uuid (uuid_map_of [chart_1]) sample_positions).
  vm_compute. reflexivity.
Defined.

Lemma non_dict_meta_witness :
  run_set_dash_metadata sample_dashboard
    [("positions", JObj [("CHART-a", JObj [("type", JStr "CHART"); ("meta", JStr "x")])])]
    None true sample_session
  = (Err (AttributeError "get"), sample_session).
Proof.
  eapply (non_dict_meta_raises_attribute_error
            py_json_loads py_int_base10 copy_filter_scopes_uncalled stored_params_dict
            sample_dashboard _ None true sample_session sample_metadata
            _ "CHART-a" [("type", JStr "CHART"); ("meta", JStr "x")] (JStr "x")).
  - vm_compute. reflexivity.
  - reflexivity.
  - left. reflexivity.
  - reflexivity.
  - discriminate.
Defined.

Lemma session_calls_witness :
  exists r s',
    run_set_dash_metadata sample_dashboard sample_update None true sample_session
      = (r, s') /\
    (trace s' = trace sample_session \/
     trace s' = trace sample_session ++ [EvCommit]) /\
    (true = false -> trace s' = trace sample_session) /\
    (forall x, r = Ok x -> true = true ->
               trace s' = trace sample_session ++ [EvCommit]) /\
    (forall e, fault_commit (faults sample_session) = Some e ->
               trace s' = trace sample_session ++ [EvCommit] -> r = Err e).
Proof.
  do 2 eexists. split; [vm_compute; reflexivity|].
  eapply (set_dash_metadata_session_calls
            py_json_loads py_int_base10 copy_filter_scopes_uncalled stored_params_dict
            sample_dashboard sample_update None true sample_session).
  vm_compute. reflexivity.
Defined.

Lemma default_filters_reset_witness :
  exists dashboard' data' s',
    run_set_dash_metadata sample_dashboard [("positions", JObj sample_positions)]
      None false sample_session
      = (Ok (dashboard', data'), s') /\
    exists md',
      Dashboard.json_metadata dashboard' = json_dumps (JObj md') /\
      dict_get "default_filters" md' = Some (JStr "{}").
Proof.
  do 3 eexists. split; [vm_compute; reflexivity|].
  eapply (default_filters_reset_when_not_given
            py_json_loads py_int_base10 copy_filter_scopes_uncalled stored_params_dict
            sample_dashboard [("positions", JObj sample_positions)]
            None false sample_session).
  - discriminate.
  - reflexivity.
  - vm_compute. reflexivity.
  - vm_compute. reflexivity.
Defined.

Lemma default_filters_must_be_text_witness :
  run_set_dash_metadata sample_dashboard
    [("positions", JObj sample_positions); ("default_filters", JNull)]
    None false sample_session
  = (Err (TypeError "the JSON object must be str, bytes or bytearray"), sample_session).
Proof.
  eapply (default_filters_must_be_text
            py_json_loads py_int_base10 copy_filter_scopes_uncalled stored_params_dict
            sample_dashboard
            [("positions", JObj sample_positions); ("default_filters", JNull)]
            None false sample_session sample_metadata _ _ JNull).
  - discriminate.
  - vm_compute. reflexivity.
  - vm_compute. reflexivity.
  - reflexivity.
  - discriminate.
Defined.

Lemma update_charts_owners_witness :
  exists chart_owners' s',
    update_charts_owners owned_dashboard true sample_chart_owners sample_session
      = (Ok (owned_dashboard, chart_owners'), s') /\
    (forall slc o,
       In slc (Dashboard.slices owned_dashboard) ->
       (In o (owners_of chart_owners' slc) <->
        In o (Dashboard.owners owned_dashboard) \/
        In o (owners_of sample_chart_owners slc))) /\
    (forall slc,
       ~ In (Slice.id slc) (List.map Slice.id (Dashboard.slices owned_dashboard)) ->
       owners_of chart_owners' slc = owners_of sample_chart_owners slc).
Proof.
  do 2 eexists. split; [reflexivity|].
  destruct (update_charts_owners_adds_dashboard_owners
              owned_dashboard owned_dashboard true sample_chart_owners _
              sample_session _ eq_refl) as (_ & H1 & _ & H2).
  split; [exact H1 | exact H2].
Defined.

Lemma update_charts_owners_twice_witness :
  exists chart_owners1 s1 chart_owners2 s2,
    update_charts_owners owned_dashboard false sample_chart_owners sample_session
      = (Ok (owned_dashboard, chart_owners1), s1) /\
    update_charts_owners owned_dashboard false chart_owners1 s1
      = (Ok (owned_dashboard, chart_owners2), s2) /\
    forall slc o,
      In o (owners_of chart_owners2 slc) <-> In o (owners_of chart_owners1 slc).
Proof.
  do 4 eexists. split; [reflexivity|]. split; [reflexivity|].
  eapply (update_charts_owners_twice owned_dashboard owned_dashboard owned_dashboard
            false sample_chart_owners _ _ sample_session sample_session sample_session);
    reflexivity.
Defined.

(** The chart query compares ids as the store does: the chart ids ["1"]
    and [True] of a position entry select chart 1, and [None] selects
    nothing. *)
Example chart_query_compares_as_the_store :
  sql_in 1 [JStr "1"] = true /\
  sql_in 1 [JBool true] = true /\
  sql_in 1 [JNull] = false.
Proof. repeat split. Qed.
